(** * arxiv_tool: the analysis pipeline of [backend/analyzer.py], the
      fetcher of [backend/fetcher.py] and the endpoints of [backend/api.py],
      as a shallow embedding.

    Python objects are records, the record store (one JSON file per paper
    under [data/papers]) is a list ordered by modification time, and the
    asynchronous methods are state-passing functions over a [World] that
    carries the store, the wall clock and the trace of every effect the code
    performs (model requests, sleeps, saves, downloads).  The external
    collaborators (the inference service, the arXiv API and the HTTP client,
    the JSON, HTML and feed parsers, the Unicode tables behind [str.lower]
    and [str.strip]) are section variables. *)

From Stdlib Require Import List String Ascii Bool Arith ZArith QArith Lia Sorted.
Import ListNotations.
Close Scope Q_scope.
Open Scope string_scope.
Open Scope nat_scope.

(** ** Text *)

(** Python [str] values are kept as UTF-8 byte strings.  Substring search and
    prefix tests on code points and on their UTF-8 encoding agree; slicing
    and [len] count code points, that is the bytes that are not UTF-8
    continuation bytes. *)

Definition dq : string := String (ascii_of_nat 34) EmptyString.
Definition nl : string := String (ascii_of_nat 10) EmptyString.

Definition is_continuation (c : ascii) : bool :=
  let n := nat_of_ascii c in (128 <=? n) && (n <? 192).

(** [len(s)] *)
Fixpoint py_len (s : string) : nat :=
  match s with
  | EmptyString => 0
  | String c r => if is_continuation c then py_len r else S (py_len r)
  end.

Fixpoint skip_continuation (s : string) : string :=
  match s with
  | EmptyString => EmptyString
  | String c r => if is_continuation c then skip_continuation r else s
  end.

(** [s[n:]] *)
Fixpoint py_drop (n : nat) (s : string) : string :=
  match n with
  | 0 => s
  | S n' =>
      match s with
      | EmptyString => EmptyString
      | String _ r => py_drop n' (skip_continuation r)
      end
  end.

(** [s[:n]]; the recursion is on the bytes of [s], [n] counts the code points
    still to be copied. *)
Fixpoint py_take (n : nat) (s : string) : string :=
  match s with
  | EmptyString => EmptyString
  | String c r =>
      if is_continuation c then String c (py_take n r)
      else match n with
           | 0 => EmptyString
           | S n' => String c (py_take n' r)
           end
  end.

(** [s.startswith(p)] *)
Definition startswith (p s : string) : bool := String.prefix p s.

(** [needle in hay] *)
Fixpoint contains (needle hay : string) : bool :=
  String.prefix needle hay ||
  match hay with
  | EmptyString => false
  | String _ r => contains needle r
  end.

(** [sep.join(l)] *)
Fixpoint join (sep : string) (l : list string) : string :=
  match l with
  | [] => ""
  | [x] => x
  | x :: r => x ++ sep ++ join sep r
  end.

(** [s.replace(old, new)] for a non-empty [old] (the code only replaces the
    bracketed identifiers it found): left to right, without overlap.  [skip]
    is the number of bytes of a match still to be dropped. *)
Fixpoint replace_from (skip : nat) (old new s : string) : string :=
  match s with
  | EmptyString => EmptyString
  | String c r =>
      match skip with
      | S k => replace_from k old new r
      | 0 =>
          if String.prefix old s
          then new ++ replace_from (String.length old - 1) old new r
          else String c (replace_from 0 old new r)
      end
  end.

Definition replace (old new s : string) : string :=
  match old with
  | EmptyString => s
  | _ => replace_from 0 old new s
  end.

(** Truthiness of a [str]: non-empty. *)
Definition nonempty (s : string) : bool :=
  match s with EmptyString => false | _ => true end.

(** [a or b] on strings. *)
Definition str_or (a b : string) : string := if nonempty a then a else b.

(** ASCII instances of [str.lower] and [str.strip], for concrete runs. *)
Definition ascii_lower_char (c : ascii) : ascii :=
  let n := nat_of_ascii c in
  if (65 <=? n) && (n <=? 90) then ascii_of_nat (n + 32) else c.

Fixpoint ascii_lower (s : string) : string :=
  match s with
  | EmptyString => EmptyString
  | String c r => String (ascii_lower_char c) (ascii_lower r)
  end.

Definition is_space (c : ascii) : bool :=
  let n := nat_of_ascii c in
  (n =? 32) || ((9 <=? n) && (n <=? 13)) || ((28 <=? n) && (n <=? 31)).

Fixpoint lstrip (s : string) : string :=
  match s with
  | EmptyString => EmptyString
  | String c r => if is_space c then lstrip r else s
  end.

Fixpoint rstrip (s : string) : string :=
  match s with
  | EmptyString => EmptyString
  | String c r =>
      match rstrip r with
      | EmptyString => if is_space c then EmptyString else String c EmptyString
      | r' => String c r'
      end
  end.

Definition ascii_strip (s : string) : string := rstrip (lstrip s).

(** [str(n)] for a natural number. *)
Definition digit_of (n : nat) : ascii := ascii_of_nat (48 + n).

Fixpoint str_of_nat_fuel (fuel n : nat) (acc : string) : string :=
  match fuel with
  | 0 => acc
  | S f =>
      let acc' := String (digit_of (n mod 10)) acc in
      if n <? 10 then acc' else str_of_nat_fuel f (n / 10) acc'
  end.

Definition str_of_nat (n : nat) : string := str_of_nat_fuel (S n) n "".

(** ** Data model ([backend/models.py]) *)

(** [float] fields are rationals: the code only compares, clamps and stores
    them.  NaN and the infinities are not represented. *)
Definition float := Q.

Record QAPair := mkQAPair {
  question : string;
  answer : string;
  timestamp : string;
  thinking : option string;
  is_reasoning : bool;
  parent_qa_id : option Z
}.

Record Paper := mkPaper {
  id : string;
  title : string;
  authors : list string;
  abstract : string;
  url : string;
  html_url : string;
  html_content : string;
  preview_text : string;
  is_relevant : option bool;
  relevance_score : float;
  extracted_keywords : list string;
  one_line_summary : string;
  detailed_summary : string;
  qa_pairs : list QAPair;
  is_hidden : bool;
  is_starred : bool;
  published_date : string;
  created_at : string;
  updated_at : string
}.

Record Config := mkConfig {
  filter_keywords : list string;
  negative_keywords : list string;
  preset_questions : list string;
  system_prompt : string;
  fetch_interval : Z;
  max_papers_per_fetch : Z;
  start_date : string;
  end_date : string;
  model : string;
  temperature : float;
  max_tokens : Z;
  concurrent_papers : nat;
  min_relevance_score_for_stage2 : float
}.

(** Attribute assignments [paper.f = v]. *)
Definition set_is_relevant (v : option bool) (p : Paper) : Paper :=
  mkPaper (id p) (title p) (authors p) (abstract p) (url p) (html_url p)
    (html_content p) (preview_text p) v (relevance_score p)
    (extracted_keywords p) (one_line_summary p) (detailed_summary p)
    (qa_pairs p) (is_hidden p) (is_starred p) (published_date p)
    (created_at p) (updated_at p).

Definition set_relevance_score (v : float) (p : Paper) : Paper :=
  mkPaper (id p) (title p) (authors p) (abstract p) (url p) (html_url p)
    (html_content p) (preview_text p) (is_relevant p) v
    (extracted_keywords p) (one_line_summary p) (detailed_summary p)
    (qa_pairs p) (is_hidden p) (is_starred p) (published_date p)
    (created_at p) (updated_at p).

Definition set_extracted_keywords (v : list string) (p : Paper) : Paper :=
  mkPaper (id p) (title p) (authors p) (abstract p) (url p) (html_url p)
    (html_content p) (preview_text p) (is_relevant p) (relevance_score p)
    v (one_line_summary p) (detailed_summary p)
    (qa_pairs p) (is_hidden p) (is_starred p) (published_date p)
    (created_at p) (updated_at p).

Definition set_one_line_summary (v : string) (p : Paper) : Paper :=
  mkPaper (id p) (title p) (authors p) (abstract p) (url p) (html_url p)
    (html_content p) (preview_text p) (is_relevant p) (relevance_score p)
    (extracted_keywords p) v (detailed_summary p)
    (qa_pairs p) (is_hidden p) (is_starred p) (published_date p)
    (created_at p) (updated_at p).

Definition set_detailed_summary (v : string) (p : Paper) : Paper :=
  mkPaper (id p) (title p) (authors p) (abstract p) (url p) (html_url p)
    (html_content p) (preview_text p) (is_relevant p) (relevance_score p)
    (extracted_keywords p) (one_line_summary p) v
    (qa_pairs p) (is_hidden p) (is_starred p) (published_date p)
    (created_at p) (updated_at p).

Definition set_qa_pairs (v : list QAPair) (p : Paper) : Paper :=
  mkPaper (id p) (title p) (authors p) (abstract p) (url p) (html_url p)
    (html_content p) (preview_text p) (is_relevant p) (relevance_score p)
    (extracted_keywords p) (one_line_summary p) (detailed_summary p)
    v (is_hidden p) (is_starred p) (published_date p)
    (created_at p) (updated_at p).

Definition set_updated_at (v : string) (p : Paper) : Paper :=
  mkPaper (id p) (title p) (authors p) (abstract p) (url p) (html_url p)
    (html_content p) (preview_text p) (is_relevant p) (relevance_score p)
    (extracted_keywords p) (one_line_summary p) (detailed_summary p)
    (qa_pairs p) (is_hidden p) (is_starred p) (published_date p)
    (created_at p) v.

(** [paper.qa_pairs.append(qa)] *)
Definition append_qa (qa : QAPair) (p : Paper) : Paper :=
  set_qa_pairs (qa_pairs p ++ [qa])%list p.

(** Truthiness of [paper.is_relevant] ([None] and [False] are falsy). *)
Definition truthy (b : option bool) : bool :=
  match b with Some true => true | _ => false end.

(** ** The inference service and the world *)

Inductive Role := System | User | Assistant.

Record Message := mkMessage { role : Role; content : string }.

(** The arguments of one [client.chat.completions.create] call. *)
Record Request := mkRequest {
  req_model : string;
  req_messages : list Message;
  req_temperature : float;
  req_max_tokens : Z;
  req_json_object : bool;
  req_stream : bool
}.

(** What the code does to the outside, in the order it does it. *)
Inductive Effect :=
| Call (r : Request)
| Sleep (seconds : nat)
| Save (p : Paper)
| Fetch (arxiv_id : string).

(** [store] holds the files of [data/papers], most recently written first
    (the order [list_papers] sorts by); [clock] counts the readings of
    [datetime.now()]. *)
Record World := mkWorld {
  store : list Paper;
  trace : list Effect;
  clock : nat
}.

Definition M (A : Type) : Type := World -> A * World.

Definition ret {A} (a : A) : M A := fun w => (a, w).

Definition bind {A B} (m : M A) (f : A -> M B) : M B :=
  fun w => let (a, w') := m w in f a w'.

Declare Scope monad_scope.
Delimit Scope monad_scope with monad.
Notation "x <- c ;; k" := (bind c (fun x => k))
  (at level 61, c at next level, right associativity) : monad_scope.
Notation "c ;; k" := (bind c (fun _ => k))
  (at level 61, right associativity) : monad_scope.
Open Scope monad_scope.

Definition log (e : Effect) : M unit :=
  fun w => (tt, mkWorld (store w) (trace w ++ [e])%list (clock w)).

(** [await asyncio.sleep(seconds)] *)
Definition sleep (seconds : nat) : M unit := log (Sleep seconds).

(** Writing [data/papers/<id>.json]: the file of that name is replaced and
    becomes the most recent one. *)
Definition remove_id (i : string) (l : list Paper) : list Paper :=
  filter (fun p => negb (String.eqb (id p) i)) l.

Definition save_paper (p : Paper) : M unit :=
  fun w => (tt, mkWorld (p :: remove_id (id p) (store w))
                        (trace w ++ [Save p])%list (clock w)).

(** [DeepSeekAnalyzer._save_paper] writes the same files. *)
Definition _save_paper (p : Paper) : M unit := save_paper p.

Definition find_paper (i : string) (l : list Paper) : option Paper :=
  find (fun p => String.eqb (id p) i) l.

(** The effects performed after a given point of the trace. *)
Definition saves (t : list Effect) : list Paper :=
  flat_map (fun e => match e with Save p => [p] | _ => [] end) t.

Definition calls (t : list Effect) : list Request :=
  flat_map (fun e => match e with Call r => [r] | _ => [] end) t.

Definition sleeps (t : list Effect) : list nat :=
  flat_map (fun e => match e with Sleep s => [s] | _ => [] end) t.

(** The structured judgment Stage 1 reads out of the model's reply:
    [json.loads] followed by four [result.get].  An absent key is [None];
    the score is what [float(...)] is applied to, which may raise. *)
Inductive ScoreField :=
| ScoreAbsent
| ScoreInvalid
| ScoreNumber (q : float).

Record Judgment := mkJudgment {
  j_is_relevant : option (option bool);
  j_relevance_score : ScoreField;
  j_extracted_keywords : option (list string);
  j_one_line_summary : option string
}.

(** One chunk of a streamed reply: [None] when it has no choices or no
    delta, otherwise the two channels of the delta. *)
Record Delta := mkDelta {
  reasoning_content : option string;
  delta_content : option string
}.

(** What [ask_custom_question_stream] yields. *)
Inductive EventType := Thinking | Content | Error.

Record StreamEvent := mkEvent { ev_type : EventType; ev_chunk : string }.

(** An Atom entry of the arXiv API together with the HTML download. *)
Record Entry := mkEntry {
  entry_title : string;
  entry_authors : list string;
  entry_summary : string;
  entry_link : string;
  entry_published : string;
  entry_html : string
}.

(** How a call that walks a conversation thread ends: it returns, it raises
    [IndexError], or the bound on the iterations of its loop is reached. *)
Inductive Completion (A : Type) :=
| Done (a : A)
| IndexError
| OutOfFuel.
Arguments Done {A} a.
Arguments IndexError {A}.
Arguments OutOfFuel {A}.

(** ** [backend/analyzer.py] *)

Definition get {A} (field : option A) (default : A) : A :=
  match field with Some v => v | None => default end.

Definition negative_marker (neg_kw : string) : string := "❌ " ++ neg_kw.

Definition negative_summary (neg_kw : string) : string :=
  "论文包含负面关键词「" ++ neg_kw ++ "」，自动标记为不相关".

Definition detailed_summary_question : string :=
  "请用中文生成这篇论文的详细摘要（约200-300字），包括：" ++ nl ++
  "1. 研究背景和动机" ++ nl ++
  "2. 核心方法和技术创新" ++ nl ++
  "3. 主要实验结果" ++ nl ++
  "4. 研究意义和价值" ++ nl ++
  nl ++
  "使用 Markdown 格式，让摘要清晰易读。".

(** The single-paper cache prefix of [stage2_qa] and of both Q&A variants. *)
Definition single_cache_prefix (paper : Paper) : string :=
  "Paper Title: " ++ title paper ++ nl ++
  nl ++
  "Paper Content:" ++ nl ++
  str_or (html_content paper) (abstract paper) ++ nl.

(** The user turn every question is sent in. *)
Definition user_turn (cache_prefix question : string) : string :=
  cache_prefix ++ nl ++ nl ++ "Question: " ++ question.

Definition max_retries : nat := 3.

(** The reference pattern [\[(\d{4}\.\d{4,5}(?:v\d+)?)\]] over ASCII digits. *)
Definition is_digit (c : ascii) : bool :=
  let n := nat_of_ascii c in (48 <=? n) && (n <=? 57).

(** At most [n] leading digits of [s], and the rest. *)
Fixpoint take_digits (n : nat) (s : string) : string * string :=
  match n, s with
  | S k, String c r =>
      if is_digit c
      then let (d, rest) := take_digits k r in (String c d, rest)
      else ("", s)
  | _, _ => ("", s)
  end.

(** A match of the pattern at the start of [s]: the group and the number of
    bytes matched.  The greedy choices are final: whenever a shorter run of
    digits is tried, the next byte is a digit, which the rest of the pattern
    rejects. *)
Definition match_reference (s : string) : option (string * nat) :=
  match s with
  | String "[" s1 =>
      let (year, s2) := take_digits 4 s1 in
      if String.length year =? 4 then
        match s2 with
        | String "." s3 =>
            let (num, s4) := take_digits 5 s3 in
            if 4 <=? String.length num then
              let base := year ++ "." ++ num in
              match s4 with
              | String "]" _ => Some (base, String.length base + 2)
              | String "v" s5 =>
                  let (ver, s6) := take_digits (String.length s5) s5 in
                  match ver, s6 with
                  | String _ _, String "]" _ =>
                      Some (base ++ "v" ++ ver,
                            String.length base + String.length ver + 3)
                  | _, _ => None
                  end
              | _ => None
              end
            else None
        | _ => None
        end
      else None
  | _ => None
  end.

(** [re.findall(arxiv_id_pattern, s)]: the groups of the successive
    non-overlapping matches. *)
Fixpoint findall_from (skip : nat) (s : string) : list string :=
  match s with
  | EmptyString => []
  | String _ r =>
      match skip with
      | S k => findall_from k r
      | 0 =>
          match match_reference s with
          | Some (g, n) => g :: findall_from (n - 1) r
          | None => findall_from 0 r
          end
      end
  end.

Definition findall_arxiv_ids (s : string) : list string := findall_from 0 s.

(** ** Collaborators and records for concrete runs *)

(** A service that answers its n-th call with the n-th entry of a script and
    raises once the script is used up. *)
Definition scripted_chat (script : list (option string))
    (done : list Effect) (r : Request) : option string :=
  nth (List.length (calls done)) script None.

Definition scripted_stream (script : list (list (option Delta) * option string))
    (done : list Effect) (r : Request) : list (option Delta) * option string :=
  nth (List.length (calls done)) script ([], Some "connection reset").

Definition no_arxiv (done : list Effect) (arxiv_id : string) : option Entry :=
  None.

Definition stamp (n : nat) : string := "t" ++ str_of_nat n.

(** The reply [{"is_relevant": true, "relevance_score": 15}] and a parser
    that knows this one reply. *)
Definition sample_reply : string :=
  "{" ++ dq ++ "is_relevant" ++ dq ++ ": true, "
      ++ dq ++ "relevance_score" ++ dq ++ ": 15}".

Definition sample_json (text : string) : option Judgment :=
  if String.eqb text sample_reply
  then Some (mkJudgment (Some (Some true)) (ScoreNumber 15%Q) None None)
  else None.

Definition sample_config : Config :=
  mkConfig ["language model"] ["medical"] ["What is new?"; "What are the limits?"]
    "You are a helpful AI assistant analyzing academic papers."
    300%Z 50%Z "2025-12-28" "2025-12-29" "deepseek-chat" (3 # 10)%Q 2000%Z 3
    6%Q.

Definition blank_paper (paper_id paper_title : string) : Paper :=
  mkPaper paper_id paper_title [] "An abstract." "" "" "" "An abstract."
    None 0%Q [] "" "" [] false false "" "t" "t".

(** [P1] mentions a negative keyword; [P2] has passed Stage 1. *)
Definition P1 : Paper := blank_paper "2401.00001" "Medical image analysis".

Definition P2 : Paper :=
  set_extracted_keywords ["nlp"]
    (set_relevance_score 8%Q
      (set_is_relevant (Some true)
        (blank_paper "2401.00002" "Medical language models"))).

Definition P3 : Paper :=
  set_relevance_score 8%Q
    (set_is_relevant (Some true) (blank_paper "2401.00003" "Sparse attention")).

Definition empty_world : World := mkWorld [] [] 0.

Definition text_delta (text : string) : option Delta :=
  Some (mkDelta None (Some text)).

Section Analyzer.

(** [str.lower] and [str.strip] (their Unicode tables are not reproduced). *)
Variable lower : string -> string.
Variable strip : string -> string.

(** [datetime.now().isoformat()] at the n-th reading of the clock. *)
Variable isoformat : nat -> string.

(** The inference service, given everything done so far: a non-streaming
    call returns the message content or raises ([None]); a streaming call
    delivers chunks and then either ends ([None]) or raises an exception
    whose text is [str(e)]. *)
Variable chat : list Effect -> Request -> option string.
Variable chat_stream :
  list Effect -> Request -> list (option Delta) * option string.

(** [json.loads] with the reads of the judgment; [None] when it raises. *)
Variable json_loads : string -> option Judgment.

(** The arXiv API and HTML download of [fetch_single_paper]; [None] when
    the paper cannot be fetched (the method raises). *)
Variable arxiv_api : list Effect -> string -> option Entry.

Definition datetime_now : M string :=
  fun w => (isoformat (clock w), mkWorld (store w) (trace w) (S (clock w))).

(** [QAPair(question=..., answer=...)] with the defaults of the dataclass. *)
Definition new_qa (q a : string) (th : option string) (reasoning : bool)
    (parent : option Z) : M QAPair :=
  ts <- datetime_now ;;
  ret (mkQAPair q a ts th reasoning parent).

Definition create (r : Request) : M (option string) :=
  fun w => (chat (trace w) r,
            mkWorld (store w) (trace w ++ [Call r])%list (clock w)).

Definition create_stream (r : Request)
    : M (list (option Delta) * option string) :=
  fun w => (chat_stream (trace w) r,
            mkWorld (store w) (trace w ++ [Call r])%list (clock w)).

(** *** Stage 1 *)

Definition searchable_text (paper : Paper) : string :=
  lower (title paper ++ " " ++ preview_text paper).

(** The first configured keyword the [for] loop finds in the text. *)
Definition first_negative (keywords : list string) (paper : Paper)
    : option string :=
  find (fun neg_kw => contains (lower neg_kw) (searchable_text paper)) keywords.

Definition stage1_prompt (paper : Paper) (config : Config) : string :=
  "分析这篇论文预览，判断它与以下关键词的相关性：" ++ nl ++
  nl ++
  "关键词：" ++ join ", " (filter_keywords config) ++ nl ++
  nl ++
  "论文标题：" ++ title paper ++ nl ++
  "论文预览：" ++ nl ++
  preview_text paper ++ nl ++
  nl ++
  "请用 JSON 格式回答：" ++ nl ++
  "{" ++ nl ++
  "    " ++ dq ++ "is_relevant" ++ dq ++ ": true/false," ++ nl ++
  "    " ++ dq ++ "relevance_score" ++ dq
         ++ ": 0-10的分数（0=完全不相关，10=高度相关），" ++ nl ++
  "    " ++ dq ++ "extracted_keywords" ++ dq ++ ": ["
         ++ dq ++ "关键词1" ++ dq ++ ", " ++ dq ++ "关键词2" ++ dq ++ ", ...]," ++ nl ++
  "    " ++ dq ++ "one_line_summary" ++ dq ++ ": "
         ++ dq ++ "一句话总结（中文）" ++ dq ++ nl ++
  "}" ++ nl.

Definition stage1_request (paper : Paper) (config : Config) : Request :=
  mkRequest (model config)
    [mkMessage System (system_prompt config);
     mkMessage User (stage1_prompt paper config)]
    (temperature config) 500%Z true false.

(** The body of the [try]: the assignments made before an exception stay on
    the object.  [inl] is the paper at the point an exception was raised,
    [inr] the paper after the four assignments. *)
Definition read_judgment (reply : option string) (paper : Paper)
    : Paper + Paper :=
  match reply with
  | None => inl paper
  | Some text =>
      match json_loads text with
      | None => inl paper
      | Some result =>
          let paper := set_is_relevant (get (j_is_relevant result) (Some false)) paper in
          match j_relevance_score result with
          | ScoreInvalid => inl paper
          | ScoreAbsent =>
              inr (set_one_line_summary (get (j_one_line_summary result) "")
                    (set_extracted_keywords (get (j_extracted_keywords result) [])
                      (set_relevance_score 0%Q paper)))
          | ScoreNumber q =>
              inr (set_one_line_summary (get (j_one_line_summary result) "")
                    (set_extracted_keywords (get (j_extracted_keywords result) [])
                      (set_relevance_score q paper)))
          end
      end
  end.

(** [for attempt in range(max_retries)] of [stage1_filter]; [remaining]
    counts the iterations left. *)
Fixpoint stage1_attempts (remaining attempt : nat) (paper : Paper)
    (config : Config) (request : Request) : M Paper :=
  match remaining with
  | 0 => ret paper
  | S k =>
      reply <- create request ;;
      match read_judgment reply paper with
      | inr paper =>
          _save_paper paper ;;
          ret paper
      | inl paper =>
          if attempt <? max_retries - 1
          then sleep (2 ^ attempt) ;;
               stage1_attempts k (S attempt) paper config request
          else stage1_attempts k (S attempt) (set_is_relevant None paper)
                 config request
      end
  end.

Definition stage1_filter (paper : Paper) (config : Config) : M Paper :=
  match first_negative (negative_keywords config) paper with
  | Some neg_kw =>
      let paper := set_is_relevant (Some false) paper in
      let paper := set_relevance_score 1%Q paper in
      let paper := set_extracted_keywords [negative_marker neg_kw] paper in
      let paper := set_one_line_summary (negative_summary neg_kw) paper in
      _save_paper paper ;;
      ret paper
  | None =>
      stage1_attempts max_retries 0 paper config (stage1_request paper config)
  end.

(** *** Questions against a fixed prefix *)

Definition question_request (cache_prefix question : string)
    (config : Config) : Request :=
  mkRequest (model config)
    [mkMessage System (system_prompt config);
     mkMessage User (user_turn cache_prefix question)]
    (temperature config) (max_tokens config) false false.

(** [_ask_question]; [None] when the call raises. *)
Definition _ask_question (cache_prefix question : string) (config : Config)
    (cache_id : string) : M (option string) :=
  create (question_request cache_prefix question config).

(** [_ask_question_with_retry]: a loop that ends without [return] gives
    [None]. *)
Fixpoint ask_attempts (remaining attempt retries : nat)
    (cache_prefix question : string) (config : Config) (cache_id : string)
    : M (option string) :=
  match remaining with
  | 0 => ret None
  | S k =>
      reply <- _ask_question cache_prefix question config cache_id ;;
      match reply with
      | Some text => ret (Some text)
      | None =>
          if attempt <? retries - 1
          then sleep (2 ^ attempt) ;;
               ask_attempts k (S attempt) retries cache_prefix question
                 config cache_id
          else ret None
      end
  end.

Definition _ask_question_with_retry (cache_prefix question : string)
    (config : Config) (cache_id : string) : M (option string) :=
  ask_attempts max_retries 0 max_retries cache_prefix question config cache_id.

(** *** Stage 2 *)

(** The loop over the preset questions: the paper as mutated so far and
    [all_success]. *)
Fixpoint ask_presets (questions : list string) (cache_prefix : string)
    (config : Config) (paper : Paper) : M (Paper * bool) :=
  match questions with
  | [] => ret (paper, true)
  | q :: rest =>
      reply <- _ask_question_with_retry cache_prefix q config (id paper) ;;
      match reply with
      | None => ret (paper, false)
      | Some text =>
          qa <- new_qa q text None false None ;;
          ask_presets rest cache_prefix config (append_qa qa paper)
      end
  end.

Definition stage2_qa (paper : Paper) (config : Config) : M Paper :=
  if negb (truthy (is_relevant paper)) then ret paper
  else
    let cache_prefix := single_cache_prefix paper in
    summary <- _ask_question_with_retry cache_prefix
                 detailed_summary_question config (id paper) ;;
    match summary with
    | None => ret paper
    | Some text =>
        let paper := set_detailed_summary text paper in
        r <- ask_presets (preset_questions config) cache_prefix config paper ;;
        let (paper, all_success) := r in
        if all_success
        then _save_paper paper ;; ret paper
        else ret paper
    end.

(** *** Cross-reference resolution (the same block in both Q&A variants) *)

(** [ArxivFetcher._extract_preview] *)
Definition _extract_preview (html abstract_text : string) : string :=
  let preview :=
    if nonempty html then abstract_text ++ nl ++ nl ++ py_take 1500 html
    else abstract_text in
  py_take 2000 preview.

(** [ArxivFetcher.fetch_single_paper]; [None] when it raises. *)
Definition fetch_single_paper (arxiv_id : string) : M (option Paper) :=
  fun w =>
    match find_paper arxiv_id (store w) with
    | Some p => (Some p, w)
    | None =>
        let w1 := snd (log (Fetch arxiv_id) w) in
        match arxiv_api (trace w) arxiv_id with
        | None => (None, w1)
        | Some entry =>
            (created <- datetime_now ;;
             updated <- datetime_now ;;
             let paper :=
               mkPaper arxiv_id (entry_title entry) (entry_authors entry)
                 (entry_summary entry) (entry_link entry)
                 ("https://arxiv.org/html/" ++ arxiv_id) (entry_html entry)
                 (_extract_preview (entry_html entry) (entry_summary entry))
                 None 0%Q [] "" "" [] false false (entry_published entry)
                 created updated in
             save_paper paper ;;
             ret (Some paper)) w1
        end
    end.

Definition short_title (t : string) : string :=
  if 60 <? py_len t then py_take 60 t ++ "..." else t.

(** [d[k] = v] on an insertion-ordered dict. *)
Fixpoint dict_set (k v : string) (d : list (string * string))
    : list (string * string) :=
  match d with
  | [] => [(k, v)]
  | (k', v') :: r =>
      if String.eqb k' k then (k, v) :: r else (k', v') :: dict_set k v r
  end.

Definition is_none {A} (o : option A) : bool :=
  match o with None => true | Some _ => false end.

Fixpoint resolve_references (referenced_ids : list string) (config : Config)
    (referenced_papers : list Paper) (id_to_title : list (string * string))
    : M (list Paper * list (string * string)) :=
  match referenced_ids with
  | [] => ret (referenced_papers, id_to_title)
  | ref_id :: rest =>
      fetched <- fetch_single_paper ref_id ;;
      match fetched with
      | None => resolve_references rest config referenced_papers id_to_title
      | Some ref_paper =>
          ref_paper <- (if is_none (is_relevant ref_paper)
                        then stage1_filter ref_paper config
                        else ret ref_paper) ;;
          ref_paper <- (if truthy (is_relevant ref_paper)
                           && negb (nonempty (detailed_summary ref_paper))
                        then stage2_qa ref_paper config
                        else ret ref_paper) ;;
          resolve_references rest config
            (referenced_papers ++ [ref_paper])%list
            (dict_set ref_id (short_title (title ref_paper)) id_to_title)
      end
  end.

(** *** Context assembly (the same block in both Q&A variants) *)

Fixpoint reference_parts (idx : nat) (referenced_papers : list Paper)
    : list string :=
  match referenced_papers with
  | [] => []
  | ref_paper :: rest =>
      app
        ["=== REFERENCE PAPER " ++ str_of_nat idx ++ " ===";
         "Title: " ++ title ref_paper;
         "Content:" ++ nl
           ++ str_or (html_content ref_paper) (abstract ref_paper);
         ""]
        (reference_parts (S idx) rest)
  end.

Definition enhance_question (question : string)
    (id_to_title : list (string * string)) : string :=
  fold_left
    (fun enhanced_question kv =>
       replace ("[" ++ fst kv ++ "]") (dq ++ snd kv ++ dq) enhanced_question)
    id_to_title question.

Record Context := mkContext {
  cache_prefix : string;
  final_question : string;
  cache_id : string
}.

Definition build_context (paper : Paper) (question : string)
    (referenced_papers : list Paper) (id_to_title : list (string * string))
    : Context :=
  match referenced_papers with
  | _ :: _ =>
      let context_parts :=
        app
          ["=== CURRENT PAPER ===";
           "Title: " ++ title paper;
           "Content:" ++ nl ++ str_or (html_content paper) (abstract paper);
           ""]
          (reference_parts 1 referenced_papers) in
      mkContext (join nl context_parts)
                (enhance_question question id_to_title)
                (id paper ++ "_with_refs")
  | [] => mkContext (single_cache_prefix paper) question (id paper)
  end.

(** *** Conversation threading *)

(** [l[i]] with Python's negative indices; [None] is [IndexError]. *)
Definition py_index {A} (l : list A) (i : Z) : option A :=
  let n := Z.of_nat (List.length l) in
  if ((0 <=? i) && (i <? n))%Z then nth_error l (Z.to_nat i)
  else if ((- n <=? i) && (i <? 0))%Z then nth_error l (Z.to_nat (n + i))
  else None.

(** The [while current_id is not None] loop; [fuel] bounds its iterations
    and [OutOfFuel] says the bound was reached with the loop still
    running. *)
Fixpoint walk_parents (fuel : nat) (pairs : list QAPair)
    (current_id : option Z) (conversation_history : list (string * string))
    : Completion (list (string * string)) :=
  match current_id with
  | None => Done conversation_history
  | Some i =>
      match fuel with
      | 0 => OutOfFuel
      | S f =>
          match py_index pairs i with
          | None => IndexError
          | Some qa =>
              walk_parents f pairs (parent_qa_id qa)
                ((question qa, answer qa) :: conversation_history)
          end
      end
  end.

Definition parent_in_range (pairs : list QAPair) (parent : option Z) : bool :=
  match parent with
  | Some i => ((0 <=? i) && (i <? Z.of_nat (List.length pairs)))%Z
  | None => false
  end.

Definition build_history (fuel : nat) (paper : Paper) (parent : option Z)
    : Completion (list (string * string)) :=
  if parent_in_range (qa_pairs paper) parent
  then walk_parents fuel (qa_pairs paper) parent []
  else Done [].

(** *** Streaming *)

(** What [_ask_question_stream] yields. *)
Inductive Chunk :=
| ThinkingChunk (text : string)
| ContentChunk (text : string).

Definition truthy_text (o : option string) : list string :=
  match o with
  | Some s => if nonempty s then [s] else []
  | None => []
  end.

Definition delta_chunks (reasoning : bool) (raw : option Delta) : list Chunk :=
  match raw with
  | None => []
  | Some delta =>
      if reasoning
      then (map ThinkingChunk (truthy_text (reasoning_content delta))
              ++ map ContentChunk (truthy_text (delta_content delta)))%list
      else map ContentChunk (truthy_text (delta_content delta))
  end.

Definition history_turns (conversation_history : list (string * string))
    : list Message :=
  flat_map
    (fun conv => [mkMessage User ("Question: " ++ fst conv);
                  mkMessage Assistant (snd conv)])
    conversation_history.

Definition stream_request (context_prefix question : string) (config : Config)
    (model_name : string) (conversation_history : option (list (string * string)))
    : Request :=
  mkRequest (str_or model_name (model config))
    ([mkMessage System (system_prompt config)]
       ++ history_turns (get conversation_history [])
       ++ [mkMessage User (user_turn context_prefix question)])%list
    (temperature config) (max_tokens config) false true.

(** [_ask_question_stream]: the chunks yielded and the exception that cut
    the stream short, if any. *)
Definition _ask_question_stream (context_prefix question : string)
    (config : Config) (cache : string) (model_name : string)
    (reasoning : bool) (conversation_history : option (list (string * string)))
    : M (list Chunk * option string) :=
  r <- create_stream
         (stream_request context_prefix question config model_name
            conversation_history) ;;
  ret (flat_map (delta_chunks reasoning) (fst r), snd r).

Definition chunk_event (c : Chunk) : StreamEvent :=
  match c with
  | ThinkingChunk t => mkEvent Thinking t
  | ContentChunk t => mkEvent Content t
  end.

Definition thinking_text (c : Chunk) : string :=
  match c with ThinkingChunk t => t | ContentChunk _ => "" end.

Definition content_text (c : Chunk) : string :=
  match c with ContentChunk t => t | ThinkingChunk _ => "" end.

(** [full_thinking] and [full_answer] after consuming the chunks, both
    starting from the empty string. *)
Definition accumulate_thinking (chunks : list Chunk) : string :=
  String.concat "" (map thinking_text chunks).

Definition accumulate_answer (chunks : list Chunk) : string :=
  String.concat "" (map content_text chunks).

Definition retry_notice (wait_time : nat) : StreamEvent :=
  mkEvent Error
    ("⚠️ Connection error, retrying in " ++ str_of_nat wait_time ++ "s..." ++ nl).

Definition failure_notice (e : string) : StreamEvent :=
  mkEvent Error ("❌ Failed after " ++ str_of_nat max_retries ++ " attempts: " ++ e).

(** The retry loop of [ask_custom_question_stream]: the events yielded, and
    [(full_answer, full_thinking)] when [success] is set. *)
Fixpoint stream_attempts (remaining attempt : nat) (ctx : Context)
    (config : Config) (model_name : string) (reasoning : bool)
    (conversation_history : option (list (string * string)))
    : M (list StreamEvent * option (string * string)) :=
  match remaining with
  | 0 => ret ([], None)
  | S k =>
      r <- _ask_question_stream (cache_prefix ctx) (final_question ctx) config
             (cache_id ctx) model_name reasoning conversation_history ;;
      let (chunks, exception) := r in
      let yielded := map chunk_event chunks in
      match exception with
      | None =>
          ret (yielded, Some (accumulate_answer chunks, accumulate_thinking chunks))
      | Some e =>
          if attempt <? max_retries - 1
          then
            let wait_time := 2 ^ attempt in
            sleep wait_time ;;
            later <- stream_attempts k (S attempt) ctx config model_name
                       reasoning conversation_history ;;
            ret ((yielded ++ [retry_notice wait_time] ++ fst later)%list,
                 snd later)
          else ret ((yielded ++ [failure_notice e])%list, None)
      end
  end.

Definition reasoning_requested (question : string) : bool :=
  startswith "think:" (lower question).

Definition parse_references (question : string) (config : Config)
    : M (list Paper * list (string * string)) :=
  resolve_references (findall_arxiv_ids question) config [] [].

Definition ask_custom_question_stream (fuel : nat) (paper : Paper)
    (question : string) (config : Config) (parent : option Z)
    : M (Completion (list StreamEvent * Paper)) :=
  let reasoning := reasoning_requested question in
  let original_question := question in
  let question := if reasoning then strip (py_drop 6 question) else question in
  refs <- parse_references question config ;;
  match build_history fuel paper parent with
  | IndexError => ret IndexError
  | OutOfFuel => ret OutOfFuel
  | Done conversation_history =>
      let ctx := build_context paper question (fst refs) (snd refs) in
      let model_name := if reasoning then "deepseek-reasoner" else model config in
      r <- stream_attempts max_retries 0 ctx config model_name reasoning
             (if is_none parent then None else Some conversation_history) ;;
      let (events, result) := r in
      match result with
      | Some (full_answer, full_thinking) =>
          if nonempty full_answer || nonempty full_thinking
          then
            qa <- new_qa original_question full_answer
                    (if reasoning then Some full_thinking else None)
                    reasoning parent ;;
            let paper := append_qa qa paper in
            _save_paper paper ;;
            ret (Done (events, paper))
          else ret (Done (events, paper))
      | None => ret (Done (events, paper))
      end
  end.

(** *** The synchronous variant; [None] when [_ask_question] raises. *)
Definition ask_custom_question (paper : Paper) (question : string)
    (config : Config) : M (option (string * Paper)) :=
  refs <- parse_references question config ;;
  let ctx := build_context paper question (fst refs) (snd refs) in
  reply <- _ask_question (cache_prefix ctx) (final_question ctx) config
             (cache_id ctx) ;;
  match reply with
  | None => ret None
  | Some text =>
      qa <- new_qa question text None false None ;;
      let paper := append_qa qa paper in
      _save_paper paper ;;
      ret (Some (text, paper))
  end.

(** ** [backend/api.py] and the store of [backend/fetcher.py] *)

(** [ArxivFetcher.load_paper]; [None] is [FileNotFoundError]. *)
Definition load_paper (arxiv_id : string) : M (option Paper) :=
  fun w => (find_paper arxiv_id (store w), w).

(** [ArxivFetcher.list_papers(skip, limit)]: the files by modification time,
    newest first; all of them from [skip] on when [limit] is [None] or not
    positive. *)
Definition list_papers (skip : nat) (limit : option Z) : M (list Paper) :=
  fun w =>
    let paper_files := store w in
    (match limit with
     | Some n =>
         if (n <=? 0)%Z then List.skipn skip paper_files
         else List.firstn (Z.to_nat n) (List.skipn skip paper_files)
     | None => List.skipn skip paper_files
     end, w).

(** [min(a, b)] and [max(a, b)]: the first argument unless the second is
    strictly smaller (larger). *)
Definition Qltb (a b : float) : bool := negb (Qle_bool b a).

Definition py_min (a b : float) : float := if Qltb b a then b else a.
Definition py_max (a b : float) : float := if Qltb a b then b else a.

(** [POST /papers/{paper_id}/update_relevance]; [None] is the 404 reply. *)
Definition update_relevance (paper_id : string) (request_is_relevant : bool)
    (request_relevance_score : float) : M (option Paper) :=
  loaded <- load_paper paper_id ;;
  match loaded with
  | None => ret None
  | Some paper =>
      let paper := set_is_relevant (Some request_is_relevant) paper in
      let paper :=
        set_relevance_score (py_max 0%Q (py_min 10%Q request_relevance_score))
          paper in
      now <- datetime_now ;;
      let paper := set_updated_at now paper in
      save_paper paper ;;
      ret (Some paper)
  end.

(** The filter of the re-check sweep:
    [p.is_relevant is True and p.relevance_score >= min_score]. *)
Definition recheck_candidate (min_score : float) (p : Paper) : bool :=
  match is_relevant p with
  | Some true => Qle_bool min_score (relevance_score p)
  | _ => false
  end.

(** The body of the sweep for one paper: the inner [for ... break]. *)
Definition recheck_paper (negative_keywords : list string) (paper : Paper)
    : M unit :=
  match first_negative negative_keywords paper with
  | Some neg_kw =>
      let paper := set_is_relevant (Some false) paper in
      let paper := set_relevance_score 1%Q paper in
      let paper :=
        set_extracted_keywords
          (negative_marker neg_kw :: extracted_keywords paper) paper in
      let paper := set_one_line_summary (negative_summary neg_kw) paper in
      save_paper paper
  | None => ret tt
  end.

Fixpoint for_each {A} (body : A -> M unit) (l : list A) : M unit :=
  match l with
  | [] => ret tt
  | x :: r => body x ;; for_each body r
  end.

(** [recheck_negative_keywords]; the set of keywords is given in its
    iteration order. *)
Definition recheck_negative_keywords (config : Config)
    (negative_keywords : list string) : M unit :=
  let min_score := min_relevance_score_for_stage2 config in
  all_papers <- list_papers 0 (Some 10000%Z) ;;
  let relevant_papers := filter (recheck_candidate min_score) all_papers in
  for_each (recheck_paper negative_keywords) relevant_papers.

(** *** User actions on a record *)

Definition set_is_hidden (v : bool) (p : Paper) : Paper :=
  mkPaper (id p) (title p) (authors p) (abstract p) (url p) (html_url p)
    (html_content p) (preview_text p) (is_relevant p) (relevance_score p)
    (extracted_keywords p) (one_line_summary p) (detailed_summary p)
    (qa_pairs p) v (is_starred p) (published_date p)
    (created_at p) (updated_at p).

Definition set_is_starred (v : bool) (p : Paper) : Paper :=
  mkPaper (id p) (title p) (authors p) (abstract p) (url p) (html_url p)
    (html_content p) (preview_text p) (is_relevant p) (relevance_score p)
    (extracted_keywords p) (one_line_summary p) (detailed_summary p)
    (qa_pairs p) (is_hidden p) v (published_date p)
    (created_at p) (updated_at p).

(** [POST /papers/{paper_id}/hide], [.../unhide] and [.../star]; [None] is
    the 404 reply, otherwise the record as saved. *)
Definition hide_paper (paper_id : string) : M (option Paper) :=
  loaded <- load_paper paper_id ;;
  match loaded with
  | None => ret None
  | Some paper =>
      let paper := set_is_hidden true paper in
      save_paper paper ;;
      ret (Some paper)
  end.

Definition unhide_paper (paper_id : string) : M (option Paper) :=
  loaded <- load_paper paper_id ;;
  match loaded with
  | None => ret None
  | Some paper =>
      let paper := set_is_hidden false paper in
      save_paper paper ;;
      ret (Some paper)
  end.

Definition star_paper (paper_id : string) : M (option Paper) :=
  loaded <- load_paper paper_id ;;
  match loaded with
  | None => ret None
  | Some paper =>
      let paper := set_is_starred (negb (is_starred paper)) paper in
      save_paper paper ;;
      ret (Some paper)
  end.

(** *** [GET /stats] *)

Record Stats := mkStats {
  total_papers : nat;
  analyzed_papers : nat;
  relevant_papers : nat;
  starred_papers : nat;
  hidden_papers : nat;
  pending_analysis : Z
}.

Definition get_stats : M Stats :=
  papers <- list_papers 0 (Some 10000%Z) ;;
  let total := List.length papers in
  let analyzed :=
    List.length (filter (fun p => negb (is_none (is_relevant p))) papers) in
  let relevant := List.length (filter (fun p => truthy (is_relevant p)) papers) in
  let starred := List.length (filter is_starred papers) in
  let hidden := List.length (filter is_hidden papers) in
  ret (mkStats total analyzed relevant starred hidden
         (Z.of_nat total - Z.of_nat analyzed)).

(** *** [PUT /config] *)

(** [UpdateConfigRequest]: every field is optional. *)
Record UpdateConfigRequest := mkUpdateConfigRequest {
  u_filter_keywords : option (list string);
  u_negative_keywords : option (list string);
  u_preset_questions : option (list string);
  u_system_prompt : option string;
  u_fetch_interval : option Z;
  u_max_papers_per_fetch : option Z;
  u_model : option string;
  u_temperature : option float;
  u_max_tokens : option Z;
  u_concurrent_papers : option Z;
  u_min_relevance_score_for_stage2 : option float
}.

(** [set(a) == set(b)] on lists of strings. *)
Definition subset (a b : list string) : bool :=
  forallb (fun x => existsb (String.eqb x) b) a.

Definition same_set (a b : list string) : bool := subset a b && subset b a.

(** [update_config] on the configuration it loaded: the configuration it
    saves, and whether the re-check sweep is started (the keyword sets
    before and after differ). *)
Definition update_config (request : UpdateConfigRequest) (config : Config)
    : Config * bool :=
  let old_negative_keywords := negative_keywords config in
  let config' :=
    mkConfig
      (get (u_filter_keywords request) (filter_keywords config))
      (get (u_negative_keywords request) (negative_keywords config))
      (get (u_preset_questions request) (preset_questions config))
      (get (u_system_prompt request) (system_prompt config))
      (match u_fetch_interval request with
       | Some v => Z.max 60 v
       | None => fetch_interval config
       end)
      (match u_max_papers_per_fetch request with
       | Some v => Z.max 1 (Z.min 500 v)
       | None => max_papers_per_fetch config
       end)
      (start_date config)
      (end_date config)
      (get (u_model request) (model config))
      (match u_temperature request with
       | Some v => py_max 0%Q (py_min 2%Q v)
       | None => temperature config
       end)
      (match u_max_tokens request with
       | Some v => Z.max 100 (Z.min 8000 v)
       | None => max_tokens config
       end)
      (match u_concurrent_papers request with
       | Some v => Z.to_nat (Z.max 1 (Z.min 50 v))
       | None => concurrent_papers config
       end)
      (match u_min_relevance_score_for_stage2 request with
       | Some v => py_max 0%Q (py_min 10%Q v)
       | None => min_relevance_score_for_stage2 config
       end) in
  (config', negb (same_set (negative_keywords config') old_negative_keywords)).

(** *** The gate and the batches of [process_papers] *)

(** [[p for p in papers if p.is_relevant and p.relevance_score >= min_score]] *)
Definition stage2_gate (min_score : float) (papers : list Paper) : list Paper :=
  filter
    (fun p => truthy (is_relevant p) && Qle_bool min_score (relevance_score p))
    papers.

(** [range(0, n, step)] for a positive [step]. *)
Definition range_step (n step : nat) : list nat :=
  map (fun k => k * step) (seq 0 ((n + step - 1) / step)).

(** The batches of the Stage 2 loop,
    [relevant_papers[i:i + concurrent] for i in range(0, len, concurrent)];
    [None] is the [ValueError] that [range] raises on a zero step.  The loop
    is only entered when there is a paper to analyze. *)
Definition stage2_batches (concurrent : nat) (relevant_papers : list Paper)
    : option (list (list Paper)) :=
  match relevant_papers with
  | [] => Some []
  | _ =>
      if concurrent =? 0 then None
      else Some (map (fun i => firstn concurrent (skipn i relevant_papers))
                   (range_step (List.length relevant_papers) concurrent))
  end.

(** *** [GET /papers] and [GET /search] *)

(** [l[start:stop]] for integers of either sign: an index below zero counts
    from the end, and both ends are clipped to the list. *)
Definition slice_index (n i : Z) : Z :=
  if (i <? 0)%Z then Z.max 0 (i + n) else Z.min i n.

Definition py_slice {A} (l : list A) (start stop : Z) : list A :=
  let n := Z.of_nat (List.length l) in
  let first := slice_index n start in
  let last := slice_index n stop in
  firstn (Z.to_nat (last - first)) (skipn (Z.to_nat first) l).

(** [l.sort(key=key, reverse=True)]: descending by key, and records with
    equal keys stay in the order they had (the sort is stable).  [lt] is [<]
    on the keys. *)
Fixpoint insert_desc {A K} (lt : K -> K -> bool) (key : A -> K) (x : A)
    (l : list A) : list A :=
  match l with
  | [] => [x]
  | y :: r =>
      if lt (key x) (key y) then y :: insert_desc lt key x r else x :: y :: r
  end.

Definition sort_desc {A K} (lt : K -> K -> bool) (key : A -> K) (l : list A)
    : list A :=
  fold_right (insert_desc lt key) [] l.

(** The dict both endpoints return for a record. *)
Record TimelineItem := mkTimelineItem {
  t_id : string;
  t_title : string;
  t_authors : list string;
  t_abstract : string;
  t_url : string;
  t_is_relevant : option bool;
  t_relevance_score : float;
  t_extracted_keywords : list string;
  t_one_line_summary : string;
  t_published_date : string;
  t_is_starred : bool;
  t_is_hidden : bool;
  t_created_at : string;
  t_has_qa : bool;
  t_detailed_summary : string
}.

(** [abstract[:200] + "..." if len(abstract) > 200 else abstract] *)
Definition short_abstract (abstract_text : string) : string :=
  if 200 <? py_len abstract_text then py_take 200 abstract_text ++ "..."
  else abstract_text.

Definition timeline_item (p : Paper) : TimelineItem :=
  mkTimelineItem (id p) (title p) (authors p) (short_abstract (abstract p))
    (url p) (is_relevant p) (relevance_score p) (extracted_keywords p)
    (one_line_summary p) (published_date p) (is_starred p) (is_hidden p)
    (created_at p) (0 <? List.length (qa_pairs p)) (detailed_summary p).

(** [bool(s and s.strip())] *)
Definition has_text (s : string) : bool :=
  if nonempty s then nonempty (strip s) else false.

(** The sort keys of the timeline and [<] on them: the pair (has deep
    analysis, score) compared as Python compares tuples, and the date string
    compared as Python compares [str] (by code point, which is the byte order
    of UTF-8). *)
Definition relevance_key (summary : string) (score : float) : bool * float :=
  (has_text summary, score).

Definition relevance_key_lt (a b : bool * float) : bool :=
  if Bool.eqb (fst a) (fst b) then Qltb (snd a) (snd b)
  else negb (fst a).

Definition latest_key (published created : string) : string :=
  str_or published created.

(** [list_papers] of [api.py], the timeline. *)
Definition api_list_papers (skip limit : Z) (sort_by : string)
    (keyword : option string) (starred_only : string)
    : M (list TimelineItem) :=
  let starred_only_bool := String.eqb (lower starred_only) "true" in
  papers <- (if starred_only_bool then list_papers 0 (Some 0%Z)
             else list_papers 0 (Some 1000%Z)) ;;
  let papers := filter (fun p => negb (is_hidden p)) papers in
  let papers :=
    if starred_only_bool then filter (fun p => is_starred p) papers
    else filter (fun p => negb (is_starred p)) papers in
  let papers :=
    match keyword with
    | Some kw =>
        if nonempty kw
        then filter
               (fun p =>
                  contains (lower kw) (lower (join " " (extracted_keywords p))))
               papers
        else papers
    | None => papers
    end in
  let papers :=
    if String.eqb sort_by "relevance"
    then sort_desc relevance_key_lt
           (fun p => relevance_key (detailed_summary p) (relevance_score p))
           papers
    else if String.eqb sort_by "latest"
    then sort_desc String.ltb
           (fun p => latest_key (published_date p) (created_at p)) papers
    else papers in
  ret (map timeline_item (py_slice papers skip (skip + limit))).

(** [s.count(sub)]: the occurrences of [sub] in [s] found left to right
    without overlap; the empty string occurs between any two characters and
    at both ends.  [skip] is the number of bytes of a match still to be
    passed over. *)
Fixpoint count_from (skip : nat) (sub s : string) : nat :=
  match s with
  | EmptyString => 0
  | String _ r =>
      match skip with
      | S k => count_from k sub r
      | 0 =>
          if String.prefix sub s
          then S (count_from (String.length sub - 1) sub r)
          else count_from 0 sub r
      end
  end.

Definition py_count (sub s : string) : nat :=
  match sub with
  | EmptyString => S (py_len s)
  | _ => count_from 0 sub s
  end.

Record SearchResult := mkSearchResult {
  sr_item : TimelineItem;
  search_score : nat
}.

Definition searchable (paper : Paper) : string :=
  lower (title paper ++ " " ++ abstract paper ++ " "
         ++ join " " (extracted_keywords paper) ++ " "
         ++ one_line_summary paper).

(** The keyword search of [search_papers], the branch taken when the query
    is not an arXiv identifier. *)
Definition search_by_keyword (q : string) (limit : Z) : M (list SearchResult) :=
  papers <- list_papers 0 (Some 1000%Z) ;;
  let q_lower := lower q in
  let results :=
    flat_map
      (fun paper =>
         if is_hidden paper then []
         else if contains q_lower (searchable paper)
         then [mkSearchResult (timeline_item paper)
                 (py_count q_lower (searchable paper))]
         else [])
      papers in
  let results := sort_desc Nat.ltb search_score results in
  ret (py_slice results 0 limit).

(** *** [ArxivFetcher._fetch_html] and [ArxivFetcher.fetch_latest] *)

(** What [await client.get(...)] gives back: a response with its status code
    and text, an [httpx.RequestError], or any other exception. *)
Inductive HttpOutcome :=
| HttpStatus (code : Z) (text : string)
| HttpRequestError
| HttpOtherError.

(** The HTTP client, given everything done so far: the download of a URL,
    and the query of the arXiv API with its [search_query] and
    [max_results]. *)
Variable http_get : list Effect -> string -> HttpOutcome.
Variable api_query : list Effect -> string -> Z -> HttpOutcome.

(** The text BeautifulSoup extracts from a page (the article, the main
    division, or the whole document); [None] when it raises. *)
Variable soup_text : string -> option string.

(** [client.get(url)], traced as a [Fetch] of the URL. *)
Definition client_get (url : string) : M HttpOutcome :=
  fun w => (http_get (trace w) url,
            mkWorld (store w) (trace w ++ [Fetch url])%list (clock w)).

(** [for attempt in range(max_retries)] of [_fetch_html]: a rate limit or a
    request error waits [retry_delay * 2 ** attempt], any other failure
    [retry_delay]; the last attempt waits for nothing and gives [""]. *)
Fixpoint fetch_html_attempts (remaining attempt : nat) (html_url : string)
    : M string :=
  match remaining with
  | 0 => ret ""
  | S k =>
      response <- client_get html_url ;;
      let again (wait_time : nat) : M string :=
        if attempt <? max_retries - 1
        then sleep wait_time ;; fetch_html_attempts k (S attempt) html_url
        else ret "" in
      match response with
      | HttpStatus code text =>
          if (code =? 429)%Z then again (2 * 2 ^ attempt)
          else if (code =? 200)%Z then
            match soup_text text with
            | Some article => ret article
            | None => again 2
            end
          else again 2
      | HttpRequestError => again (2 * 2 ^ attempt)
      | HttpOtherError => again 2
      end
  end.

Definition _fetch_html (arxiv_id : string) : M string :=
  fetch_html_attempts max_retries 0 ("https://arxiv.org/html/" ++ arxiv_id).

(** An entry of the feed [feedparser] reads from a response of the arXiv
    API: [entry.id], [entry.title], the names [_extract_authors] returns,
    [entry.summary], [entry.link] and [getattr(entry, "published", "")]. *)
Record FeedEntry := mkFeedEntry {
  fe_id : string;
  fe_title : string;
  fe_authors : list string;
  fe_summary : string;
  fe_link : string;
  fe_published : string
}.

(** [feedparser.parse(text).entries] *)
Variable feed_entries : string -> list FeedEntry.

Definition categories : list string :=
  ["cs.RO"; "cs.AI"; "cs.CV"; "cs.LG"; "cs.CL"; "cs.NE"].

Fixpoint drop_bytes (n : nat) (s : string) : string :=
  match n, s with
  | S k, String _ r => drop_bytes k r
  | _, _ => s
  end.

(** [s.split(sep)[-1]] for a non-empty [sep]: what follows the last of the
    occurrences of [sep] found left to right without overlap, and all of [s]
    when there is none. *)
Fixpoint last_part_from (skip : nat) (sep s : string) : option string :=
  match s with
  | EmptyString => None
  | String _ r =>
      match skip with
      | S k => last_part_from k sep r
      | 0 =>
          if String.prefix sep s
          then match last_part_from (String.length sep - 1) sep r with
               | Some later => Some later
               | None => Some (drop_bytes (String.length sep) s)
               end
          else last_part_from 0 sep r
      end
  end.

Definition last_part (sep s : string) : string :=
  match last_part_from 0 sep s with
  | Some part => part
  | None => s
  end.

(** [ArxivFetcher._paper_exists] *)
Definition _paper_exists (arxiv_id : string) : M bool :=
  fun w => (negb (is_none (find_paper arxiv_id (store w))), w).

(** [client.get(base_url, params=params)], traced as a [Fetch] of the
    query; of the parameters only the query and [max_results] vary. *)
Definition client_query (query : string) (max_results : Z) : M HttpOutcome :=
  fun w => (api_query (trace w) query max_results,
            mkWorld (store w) (trace w ++ [Fetch query])%list (clock w)).

(** The retry loop of one category; [response] is the variable of that name,
    a status code and a text, or [None]. *)
Fixpoint category_attempts (remaining attempt : nat) (query : string)
    (max_results : Z) (response : option (Z * string))
    : M (option (Z * string)) :=
  match remaining with
  | 0 => ret response
  | S k =>
      outcome <- client_query query max_results ;;
      match outcome with
      | HttpStatus code text =>
          let response := Some (code, text) in
          if (code =? 429)%Z then
            if attempt <? max_retries - 1
            then sleep (3 * 2 ^ attempt) ;;
                 category_attempts k (S attempt) query max_results response
            else ret None
          else ret response
      | HttpRequestError =>
          if attempt <? max_retries - 1
          then sleep (3 * 2 ^ attempt) ;;
               category_attempts k (S attempt) query max_results response
          else ret None
      | HttpOtherError => ret None
      end
  end.

(** [for entry in feed.entries]; [papers] and [processed_ids] are the
    variables of those names. *)
Fixpoint fetch_entries (entries : list FeedEntry) (papers : list Paper)
    (processed_ids : list string) : M (list Paper * list string) :=
  match entries with
  | [] => ret (papers, processed_ids)
  | entry :: rest =>
      let arxiv_id := last_part "/abs/" (fe_id entry) in
      on_disk <- _paper_exists arxiv_id ;;
      if on_disk || existsb (String.eqb arxiv_id) processed_ids
      then fetch_entries rest papers processed_ids
      else
        let processed_ids := arxiv_id :: processed_ids in
        html_content <- _fetch_html arxiv_id ;;
        sleep 1 ;;
        let preview_text := _extract_preview html_content (fe_summary entry) in
        created <- datetime_now ;;
        updated <- datetime_now ;;
        let paper :=
          mkPaper arxiv_id (fe_title entry) (fe_authors entry)
            (fe_summary entry) (fe_link entry)
            ("https://arxiv.org/html/" ++ arxiv_id) html_content preview_text
            None 0%Q [] "" "" [] false false (fe_published entry)
            created updated in
        save_paper paper ;;
        fetch_entries rest (papers ++ [paper]) processed_ids
  end.

(** [for idx, category in enumerate(self.categories)] *)
Fixpoint fetch_categories (remaining : list string) (idx : nat)
    (start_date end_date : string) (max_results : Z) (papers : list Paper)
    (processed_ids : list string) : M (list Paper * list string) :=
  match remaining with
  | [] => ret (papers, processed_ids)
  | category :: rest =>
      let query :=
        "cat:" ++ category ++ " AND submittedDate:[" ++ start_date ++ " TO "
        ++ end_date ++ "]" in
      response <- category_attempts max_retries 0 query max_results None ;;
      match response with
      | None =>
          fetch_categories rest (S idx) start_date end_date max_results papers
            processed_ids
      | Some (code, text) =>
          if negb (code =? 200)%Z
          then fetch_categories rest (S idx) start_date end_date max_results
                 papers processed_ids
          else
            (if idx <? List.length categories - 1 then sleep 3 else ret tt) ;;
            r <- fetch_entries (feed_entries text) papers processed_ids ;;
            fetch_categories rest (S idx) start_date end_date max_results
              (fst r) (snd r)
      end
  end.

(** [ArxivFetcher.fetch_latest]; without a configuration the dates are the
    defaults of the [Config] class. *)
Definition fetch_latest (max_results : Z) (config : option Config)
    : M (list Paper) :=
  let start_date :=
    match config with Some c => start_date c | None => "2025-12-28" end in
  let end_date :=
    match config with Some c => end_date c | None => "2025-12-29" end in
  let start_date := replace "-" "" start_date in
  let end_date := replace "-" "" (str_or end_date start_date) in
  r <- fetch_categories categories 0 start_date end_date max_results [] [] ;;
  ret (fst r).

(** ** Observations the statements are written with *)

(** A world with nothing but its trace: the inference service sees no more. *)
Definition bare (t : list Effect) : World := mkWorld [] t 0.

(** What a retried request adds to the trace: calls of that one request and
    sleeps. *)
Definition retry_effect (r : Request) (e : Effect) : Prop :=
  e = Call r \/ exists s, e = Sleep s.

Definition is_some {A} (o : option A) : bool :=
  match o with Some _ => true | None => false end.

(** The results of [_ask_question_with_retry] for the questions of a run, in
    the order they are issued after the effects [t], up to and including the
    first [None]. *)
Fixpoint outcomes (questions : list string) (prefix : string)
    (config : Config) (t : list Effect) : list (option string) :=
  match questions with
  | [] => []
  | q :: rest =>
      let r := _ask_question_with_retry prefix q config "" (bare t) in
      fst r ::
        match fst r with
        | None => []
        | Some _ => outcomes rest prefix config (trace (snd r))
        end
  end.

(** The trace once those requests have been made. *)
Fixpoint trace_after (questions : list string) (prefix : string)
    (config : Config) (t : list Effect) : list Effect :=
  match questions with
  | [] => t
  | q :: rest =>
      let r := _ask_question_with_retry prefix q config "" (bare t) in
      match fst r with
      | None => trace (snd r)
      | Some _ => trace_after rest prefix config (trace (snd r))
      end
  end.

(** The entries Stage 2 appends for the answered questions, the first one
    stamped at clock reading [n]. *)
Fixpoint preset_entries (n : nat) (questions : list string)
    (results : list (option string)) : list QAPair :=
  match questions, results with
  | q :: questions', Some a :: results' =>
      mkQAPair q a (isoformat n) None false None
        :: preset_entries (S n) questions' results'
  | _, _ => []
  end.

(** How a record the sweep demotes relates to what the fast path of Stage 1
    makes of it under a configuration [config'] carrying the keywords. *)
Definition swept_like_fast_path (config' : Config) (min_score : float)
    (p p' : Paper) : Prop :=
  is_relevant p = Some true /\
  (min_score <= relevance_score p)%Q /\
  forall w0,
    let fast := fst (stage1_filter p config' w0) in
    is_relevant p' = is_relevant fast /\
    relevance_score p' = relevance_score fast /\
    one_line_summary p' = one_line_summary fast /\
    extracted_keywords p' = (extracted_keywords fast ++ extracted_keywords p)%list /\
    p' = set_extracted_keywords (extracted_keywords p') fast.

(** Parent links that point to strictly earlier positions, and the turn the
    walk collects at a position. *)
Definition threaded (pairs : list QAPair) : Prop :=
  forall i qa,
    nth_error pairs i = Some qa ->
    match parent_qa_id qa with
    | None => True
    | Some p => (0 <= p < Z.of_nat i)%Z
    end.

Definition turn_at (pairs : list QAPair) (i : nat) : string * string :=
  match nth_error pairs i with
  | Some qa => (question qa, answer qa)
  | None => ("", "")
  end.

Fixpoint all_digits (s : string) : bool :=
  match s with
  | EmptyString => true
  | String c r => is_digit c && all_digits r
  end.

(** The shape of an arXiv identifier: four digits, a dot, four or five
    digits, and possibly [v] followed by digits. *)
Definition arxiv_id_shape (g : string) : Prop :=
  exists year number version,
    g = year ++ "." ++ number ++ version /\
    all_digits year = true /\ String.length year = 4 /\
    all_digits number = true /\
    4 <= String.length number <= 5 /\
    (version = ""
     \/ exists digits,
          version = "v" ++ digits /\ digits <> "" /\ all_digits digits = true).

(** [p'] is [p] with other Stage 1 results and nothing else changed. *)
Definition stage1_update (p p' : Paper) : Prop :=
  p' = set_one_line_summary (one_line_summary p')
         (set_extracted_keywords (extracted_keywords p')
           (set_relevance_score (relevance_score p')
             (set_is_relevant (is_relevant p') p))).

(** What a streaming call may yield: an error notice, or text that is not
    empty and, outside reasoning mode, is content. *)
Definition well_formed_event (reasoning : bool) (e : StreamEvent) : Prop :=
  ev_type e = Error
  \/ (ev_chunk e <> "" /\ (reasoning = false -> ev_type e = Content)).

(** A list in descending order of its keys: no element is below the next. *)
Definition descending {A K} (lt : K -> K -> bool) (key : A -> K)
    : list A -> Prop :=
  Sorted (fun a b => lt (key a) (key b) = false).

(** Text of ASCII characters only; there the class [\d] of the reference
    pattern is the ten ASCII digits. *)
Definition is_ascii (s : string) : bool :=
  forallb (fun c => nat_of_ascii c <? 128) (list_ascii_of_string s).

Definition fetches (t : list Effect) : list string :=
  flat_map (fun e => match e with Fetch a => [a] | _ => [] end) t.

(** What [fetch_latest] has done at a point of its loops, from the world [w0]
    it started in: the papers collected so far are new, distinct, unanalyzed
    and stored as collected; what was stored before is stored still; and the
    saves made are those papers, in order, with no request to the model. *)
Definition collected (w0 w : World) (papers : list Paper) : Prop :=
  NoDup (map id papers) /\
  (forall p,
     In p papers ->
     find_paper (id p) (store w0) = None /\
     find_paper (id p) (store w) = Some p /\
     is_relevant p = None /\ qa_pairs p = [] /\ detailed_summary p = "") /\
  (forall i q,
     find_paper i (store w0) = Some q -> find_paper i (store w) = Some q) /\
  exists added,
    trace w = (trace w0 ++ added)%list /\
    saves added = papers /\
    calls added = [].

(** ** Properties *)

(** *** Traces *)

Lemma saves_app (t1 t2 : list Effect) :
  saves (t1 ++ t2) = (saves t1 ++ saves t2)%list.
Proof. unfold saves. apply flat_map_app. Qed.

Lemma calls_app (t1 t2 : list Effect) :
  calls (t1 ++ t2) = (calls t1 ++ calls t2)%list.
Proof. unfold calls. apply flat_map_app. Qed.

Lemma app_two {A} (l : list A) (a b : A) : ((l ++ [a]) ++ [b] = l ++ [a; b])%list.
Proof. rewrite <- app_assoc. reflexivity. Qed.

Lemma sleeps_app (t1 t2 : list Effect) :
  sleeps (t1 ++ t2) = (sleeps t1 ++ sleeps t2)%list.
Proof. unfold sleeps. apply flat_map_app. Qed.

(** A retried request touches neither the store nor the clock, and what it
    returns depends on the trace alone. *)
Lemma ask_attempts_frame (remaining : nat) :
  forall attempt retries prefix q config cid cid' w,
    ask_attempts remaining attempt retries prefix q config cid w =
    (fst (ask_attempts remaining attempt retries prefix q config cid'
            (bare (trace w))),
     mkWorld (store w)
       (trace (snd (ask_attempts remaining attempt retries prefix q config cid'
                      (bare (trace w)))))
       (clock w)).
Proof.
  induction remaining as [|k IH]; intros attempt retries prefix q config cid cid' w.
  - destruct w; reflexivity.
  - cbn [ask_attempts]. unfold bind, _ask_question, create.
    cbn [trace store clock bare].
    destruct (chat (trace w) (question_request prefix q config)) as [text|].
    + reflexivity.
    + destruct (attempt <? retries - 1).
      * unfold sleep, log. cbn [trace store clock].
        rewrite (IH _ _ _ _ _ cid cid' (mkWorld (store w) _ (clock w))).
        rewrite (IH _ _ _ _ _ cid' cid' (mkWorld [] _ 0)).
        reflexivity.
      * reflexivity.
Qed.

Lemma ask_attempts_trace (remaining : nat) :
  forall attempt retries prefix q config cid w,
  exists added,
    trace (snd (ask_attempts remaining attempt retries prefix q config cid w))
    = (trace w ++ added)%list /\
    Forall (retry_effect (question_request prefix q config)) added.
Proof.
  induction remaining as [|k IH]; intros attempt retries prefix q config cid w.
  - exists []. cbn. rewrite app_nil_r. split; [reflexivity | constructor].
  - cbn [ask_attempts]. unfold bind, _ask_question, create.
    destruct (chat (trace w) (question_request prefix q config)) as [text|].
    + exists [Call (question_request prefix q config)]. cbn. split; [reflexivity|].
      constructor; [left; reflexivity | constructor].
    + destruct (attempt <? retries - 1).
      * unfold sleep, log. cbn [trace store clock].
        destruct (IH (S attempt) retries prefix q config cid
                    (mkWorld (store w)
                       ((trace w ++ [Call (question_request prefix q config)])
                          ++ [Sleep (2 ^ attempt)])%list (clock w)))
          as [added [Ht Hf]].
        exists (Call (question_request prefix q config) :: Sleep (2 ^ attempt) :: added).
        split.
        -- rewrite Ht. cbn [trace]. rewrite <- !app_assoc. reflexivity.
        -- constructor; [left; reflexivity|].
           constructor; [right; eexists; reflexivity | exact Hf].
      * exists [Call (question_request prefix q config)]. cbn. split; [reflexivity|].
        constructor; [left; reflexivity | constructor].
Qed.

Lemma retry_effects_no_save (r : Request) (added : list Effect) :
  Forall (retry_effect r) added -> saves added = [].
Proof.
  induction 1 as [|e l He _ IH]; [reflexivity|].
  destruct He as [-> | [s ->]]; cbn; exact IH.
Qed.

Lemma retry_effects_calls (r : Request) (added : list Effect) :
  Forall (retry_effect r) added -> Forall (eq r) (calls added).
Proof.
  induction 1 as [|e l He _ IH]; [constructor|].
  destruct He as [-> | [s ->]]; cbn; [constructor; [reflexivity | exact IH] | exact IH].
Qed.


(** *** Stage 2 *)

Lemma set_qa_pairs_same (p : Paper) : set_qa_pairs (qa_pairs p ++ [])%list p = p.
Proof. rewrite app_nil_r. destruct p; reflexivity. Qed.

Lemma retry_frame prefix q config cid w :
  _ask_question_with_retry prefix q config cid w =
  (fst (_ask_question_with_retry prefix q config "" (bare (trace w))),
   mkWorld (store w)
     (trace (snd (_ask_question_with_retry prefix q config "" (bare (trace w)))))
     (clock w)).
Proof. unfold _ask_question_with_retry. apply ask_attempts_frame. Qed.

(** The loop over the preset questions, in closed form. *)
Lemma ask_presets_run (questions : list string) :
  forall prefix config paper w,
    let results := outcomes questions prefix config (trace w) in
    let entries := preset_entries (clock w) questions results in
    ask_presets questions prefix config paper w =
    ((set_qa_pairs (qa_pairs paper ++ entries)%list paper,
      forallb is_some results),
     mkWorld (store w) (trace_after questions prefix config (trace w))
       (clock w + List.length entries)).
Proof.
  induction questions as [|q rest IH]; intros prefix config paper w; cbn zeta.
  - cbn. rewrite set_qa_pairs_same, Nat.add_0_r. destruct w; reflexivity.
  - cbn [ask_presets outcomes trace_after]. unfold bind at 1.
    rewrite retry_frame.
    destruct (fst (_ask_question_with_retry prefix q config "" (bare (trace w))))
      as [text|].
    + unfold bind, new_qa, datetime_now, ret. cbn [store trace clock fst snd].
      unfold bind. cbn [store trace clock fst snd].
      rewrite IH. cbn [store trace clock preset_entries forallb is_some andb].
      cbn [List.length]. rewrite Nat.add_succ_r.
      unfold append_qa, set_qa_pairs. cbn.
      rewrite <- app_assoc. reflexivity.
    + cbn. rewrite set_qa_pairs_same, Nat.add_0_r. reflexivity.
Qed.


(** Stage 2 on a record that enters it, in closed form. *)
Lemma stage2_qa_run (paper : Paper) (config : Config) (w : World) :
  truthy (is_relevant paper) = true ->
  let prefix := single_cache_prefix paper in
  let questions := detailed_summary_question :: preset_questions config in
  let t' := trace_after questions prefix config (trace w) in
  stage2_qa paper config w =
  match outcomes questions prefix config (trace w) with
  | Some s :: answers =>
      let entries := preset_entries (clock w) (preset_questions config) answers in
      let paper' :=
        set_qa_pairs (qa_pairs paper ++ entries)%list
          (set_detailed_summary s paper) in
      if forallb is_some answers
      then (paper',
            mkWorld (paper' :: remove_id (id paper) (store w))
              (t' ++ [Save paper'])%list (clock w + List.length entries))
      else (paper', mkWorld (store w) t' (clock w + List.length entries))
  | _ => (paper, mkWorld (store w) t' (clock w))
  end.
Proof.
  intros Hrel. cbn zeta. unfold stage2_qa. rewrite Hrel. cbn [negb].
  cbn [outcomes trace_after]. unfold bind at 1. rewrite retry_frame.
  destruct (fst (_ask_question_with_retry (single_cache_prefix paper)
                   detailed_summary_question config "" (bare (trace w))))
    as [text|]; [|reflexivity].
  unfold bind at 1. rewrite ask_presets_run. cbn [store trace clock].
  destruct (forallb is_some _); reflexivity.
Qed.

Lemma stage2_qa_skip (paper : Paper) (config : Config) (w : World) :
  truthy (is_relevant paper) = false -> stage2_qa paper config w = (paper, w).
Proof. intros H. unfold stage2_qa. rewrite H. reflexivity. Qed.

Lemma outcomes_trace (questions : list string) :
  forall prefix config t,
  exists added,
    trace_after questions prefix config t = (t ++ added)%list /\
    saves added = [] /\
    Forall (fun r => exists q, In q questions /\ r = question_request prefix q config)
      (calls added).
Proof.
  induction questions as [|q rest IH]; intros prefix config t.
  - exists []. cbn. rewrite app_nil_r. repeat split. constructor.
  - cbn [trace_after].
    destruct (ask_attempts_trace max_retries 0 max_retries prefix q config "" (bare t))
      as [added [Ht Hf]].
    fold (_ask_question_with_retry prefix q config "") in Ht.
    cbn [bare trace] in Ht.
    assert (Hq : Forall (fun r => exists q', In q' (q :: rest)
                                   /\ r = question_request prefix q' config)
                   (calls added)).
    { apply retry_effects_calls in Hf. revert Hf. apply Forall_impl.
      intros r <-. exists q. split; [left; reflexivity | reflexivity]. }
    destruct (fst (_ask_question_with_retry prefix q config "" (bare t))).
    + destruct (IH prefix config
                  (trace (snd (_ask_question_with_retry prefix q config "" (bare t)))))
        as [added' [Ht' [Hs' Hc']]].
      exists (added ++ added')%list. rewrite Ht', Ht, app_assoc. split; [reflexivity|].
      split.
      * rewrite saves_app, Hs', (retry_effects_no_save _ _ Hf). reflexivity.
      * rewrite calls_app. apply Forall_app. split; [exact Hq|].
        revert Hc'. apply Forall_impl. intros r [q' [Hin ->]].
        exists q'. split; [right; exact Hin | reflexivity].
    + exists added. rewrite Ht. split; [reflexivity|].
      split; [exact (retry_effects_no_save _ _ Hf) | exact Hq].
Qed.

Lemma outcomes_all_some (questions : list string) :
  forall prefix config t,
    forallb is_some (outcomes questions prefix config t) = true ->
    List.length (outcomes questions prefix config t) = List.length questions.
Proof.
  induction questions as [|q rest IH]; intros prefix config t; [reflexivity|].
  cbn [outcomes].
  destruct (fst (_ask_question_with_retry prefix q config "" (bare t))); cbn.
  - intros H. f_equal. apply IH. exact H.
  - discriminate.
Qed.

Lemma forallb_is_some_In {A} (l : list (option A)) :
  forallb is_some l = true <-> ~ In None l.
Proof.
  induction l as [|[a|] l IH]; cbn.
  - split; [intros _ [] | reflexivity].
  - rewrite IH. split.
    + intros H [Hc|Hc]; [discriminate | exact (H Hc)].
    + intros H Hc. apply H. right. exact Hc.
  - split; [discriminate | intros H; exfalso; apply H; left; reflexivity].
Qed.

Lemma preset_entries_fields (questions : list string) :
  forall n results,
    List.length results = List.length questions ->
    forallb is_some results = true ->
    let entries := preset_entries n questions results in
    map question entries = questions /\
    map (fun qa => Some (answer qa)) entries = results /\
    Forall (fun qa => thinking qa = None /\ is_reasoning qa = false
                      /\ parent_qa_id qa = None) entries.
Proof.
  induction questions as [|q rest IH]; intros n [|[a|] results] Hlen Hall;
    try discriminate; cbn zeta.
  - repeat split. constructor.
  - cbn in Hlen, Hall. injection Hlen as Hlen.
    destruct (IH (S n) results Hlen Hall) as [Hq [Ha Hf]].
    cbn [preset_entries map question answer]. rewrite Hq, Ha.
    repeat split. constructor; [repeat split | exact Hf].
Qed.


Lemma outcomes_length (questions : list string) :
  forall prefix config t,
    List.length (outcomes questions prefix config t) <= List.length questions.
Proof.
  induction questions as [|q rest IH]; intros prefix config t; [apply le_n|].
  cbn [outcomes List.length].
  destruct (fst (_ask_question_with_retry prefix q config "" (bare t))).
  - apply le_n_S, IH.
  - cbn. apply le_n_S, Nat.le_0_l.
Qed.

Lemma preset_entries_partial (questions : list string) :
  forall n answers,
    List.length answers < List.length questions ->
    let entries := preset_entries n questions (map Some answers ++ [None]) in
    map question entries = firstn (List.length answers) questions /\
    map answer entries = answers.
Proof.
  induction questions as [|q rest IH]; intros n answers Hlen; cbn zeta.
  - cbn in Hlen. lia.
  - destruct answers as [|a answers]; cbn.
    + split; reflexivity.
    + cbn in Hlen. apply Nat.succ_lt_mono in Hlen.
      destruct (IH (S n) answers Hlen) as [Hq Ha].
      rewrite Hq, Ha. split; reflexivity.
Qed.

(** C1: Deep-Analysis is all-or-nothing with respect to the store.  With
    [results] the outcomes of the detailed-summary request and of the preset
    questions in the order they are issued: if one of them is [None] (the
    request failed after its retries), the store and the list of saved
    records are what they were before the run; a record that enters the
    stage and whose [1 + N] requests all succeed is saved once, carrying the
    new summary and one entry per preset question; and nothing is saved in
    any other case. *)
Theorem stage2_all_or_nothing (paper : Paper) (config : Config) (w : World) :
  let results :=
    outcomes (detailed_summary_question :: preset_questions config)
      (single_cache_prefix paper) config (trace w) in
  let paper' := fst (stage2_qa paper config w) in
  let w' := snd (stage2_qa paper config w) in
  (In None results ->
     store w' = store w /\ saves (trace w') = saves (trace w)) /\
  (truthy (is_relevant paper) = true -> ~ In None results ->
     store w' = paper' :: remove_id (id paper) (store w) /\
     saves (trace w') = (saves (trace w) ++ [paper'])%list /\
     exists s entries,
       results = Some s :: map (fun qa => Some (answer qa)) entries /\
       paper' = set_qa_pairs (qa_pairs paper ++ entries)%list
                  (set_detailed_summary s paper) /\
       map question entries = preset_questions config) /\
  (saves (trace w') <> saves (trace w) ->
     truthy (is_relevant paper) = true /\ ~ In None results).
Proof.
  cbn zeta.
  destruct (truthy (is_relevant paper)) eqn:Hrel.
  2:{ rewrite (stage2_qa_skip _ _ _ Hrel). cbn [fst snd].
      split; [intros _; split; reflexivity|].
      split; [discriminate | intros H; exfalso; apply H; reflexivity]. }
  rewrite (stage2_qa_run _ _ _ Hrel). cbn zeta.
  destruct (outcomes_trace (detailed_summary_question :: preset_questions config)
              (single_cache_prefix paper) config (trace w))
    as [added [Ht [Hs _]]].
  rewrite Ht.
  destruct (outcomes (detailed_summary_question :: preset_questions config)
              (single_cache_prefix paper) config (trace w))
    as [|[s|] answers] eqn:E.
  - cbn [outcomes] in E. discriminate.
  - cbn [outcomes] in E.
    destruct (fst (_ask_question_with_retry (single_cache_prefix paper)
                     detailed_summary_question config "" (bare (trace w))))
      as [s'|] eqn:Er; [|discriminate].
    injection E as -> E.
    destruct (forallb is_some answers) eqn:Hall; cbn [fst snd store trace].
    + assert (Hnone : ~ In None answers) by (apply forallb_is_some_In; exact Hall).
      split; [|split].
      * intros [Hc|Hc]; [discriminate | contradiction].
      * intros _ _. split; [reflexivity|].
        split; [rewrite !saves_app, Hs, app_nil_r; reflexivity|].
        assert (Hlen : List.length answers = List.length (preset_questions config)).
        { rewrite <- E. apply outcomes_all_some. rewrite E. exact Hall. }
        destruct (preset_entries_fields (preset_questions config) (clock w)
                    answers Hlen Hall) as [Hq [Ha _]].
        exists s, (preset_entries (clock w) (preset_questions config) answers).
        rewrite Ha. repeat split. exact Hq.
      * intros _. split; [reflexivity|].
        intros [Hc|Hc]; [discriminate | contradiction].
    + split; [|split].
      * intros _. split; [reflexivity|].
        rewrite saves_app, Hs, app_nil_r. reflexivity.
      * intros _ Hn. exfalso. apply Hn. right.
        destruct (in_dec (fun a b : option string =>
                    ltac:(decide equality; apply string_dec)) None answers)
          as [Hin|Hnin]; [exact Hin|].
        apply forallb_is_some_In in Hnin. congruence.
      * intros Hc. exfalso. apply Hc.
        rewrite saves_app, Hs, app_nil_r. reflexivity.
  - cbn [fst snd store trace].
    split; [|split].
    + intros _. split; [reflexivity|].
      rewrite saves_app, Hs, app_nil_r. reflexivity.
    + intros _ Hn. exfalso. apply Hn. left. reflexivity.
    + intros Hc. exfalso. apply Hc.
      rewrite saves_app, Hs, app_nil_r. reflexivity.
Qed.


(** C3: every request Deep-Analysis sends for a record (the detailed-summary
    request, each preset question, and their retries) carries the same
    system prompt and a user turn that starts with the one cache prefix
    built from the record at entry, followed by the question: the requests
    differ in the trailing question text only. *)
Theorem stage2_requests_share_prefix (paper : Paper) (config : Config)
    (w : World) :
  exists added,
    trace (snd (stage2_qa paper config w)) = (trace w ++ added)%list /\
    Forall
      (fun r =>
         exists q,
           In q (detailed_summary_question :: preset_questions config) /\
           r = mkRequest (model config)
                 [mkMessage System (system_prompt config);
                  mkMessage User
                    (single_cache_prefix paper ++ nl ++ nl ++ "Question: " ++ q)]
                 (temperature config) (max_tokens config) false false)
      (calls added).
Proof.
  destruct (truthy (is_relevant paper)) eqn:Hrel.
  2:{ rewrite (stage2_qa_skip _ _ _ Hrel). exists []. cbn.
      rewrite app_nil_r. split; [reflexivity | constructor]. }
  rewrite (stage2_qa_run _ _ _ Hrel). cbn zeta.
  destruct (outcomes_trace (detailed_summary_question :: preset_questions config)
              (single_cache_prefix paper) config (trace w))
    as [added [Ht [_ Hc]]].
  rewrite Ht.
  destruct (outcomes _ _ _ _) as [|[s|] answers].
  - exists added. split; [reflexivity | exact Hc].
  - destruct (forallb is_some answers); cbn [snd trace].
    + eexists (added ++ [Save _])%list. rewrite app_assoc. split; [reflexivity|].
      rewrite calls_app. cbn. rewrite app_nil_r. exact Hc.
    + exists added. split; [reflexivity | exact Hc].
  - exists added. split; [reflexivity | exact Hc].
Qed.

(** C10: when the summary request succeeds with [s], the first preset
    questions are answered with [answers] and the next one fails after its
    retries, the record [stage2_qa] returns carries the new summary and one
    entry for every question answered before the failure, although the
    store is what it was before the run and nothing was saved. *)
Theorem stage2_partial_failure_mutates (paper : Paper) (config : Config)
    (w : World) (s : string) (answers : list string) :
  truthy (is_relevant paper) = true ->
  outcomes (detailed_summary_question :: preset_questions config)
    (single_cache_prefix paper) config (trace w)
  = (Some s :: map Some answers ++ [None])%list ->
  let paper' := fst (stage2_qa paper config w) in
  let w' := snd (stage2_qa paper config w) in
  (exists entries,
     paper' = set_qa_pairs (qa_pairs paper ++ entries)%list
                (set_detailed_summary s paper) /\
     map question entries = firstn (List.length answers) (preset_questions config) /\
     map answer entries = answers) /\
  detailed_summary paper' = s /\
  store w' = store w /\
  saves (trace w') = saves (trace w).
Proof.
  intros Hrel E. cbn zeta.
  rewrite (stage2_qa_run _ _ _ Hrel). cbn zeta.
  destruct (outcomes_trace (detailed_summary_question :: preset_questions config)
              (single_cache_prefix paper) config (trace w))
    as [added [Ht [Hs _]]].
  rewrite Ht, E.
  assert (Hlen : List.length answers < List.length (preset_questions config)).
  { pose proof E as E'. cbn [outcomes] in E'.
    destruct (fst (_ask_question_with_retry (single_cache_prefix paper)
                     detailed_summary_question config "" (bare (trace w))));
      [|discriminate].
    injection E' as _ E'.
    pose proof (outcomes_length (preset_questions config)
                  (single_cache_prefix paper) config
                  (trace (snd (_ask_question_with_retry (single_cache_prefix paper)
                                 detailed_summary_question config ""
                                 (bare (trace w)))))) as Hle.
    rewrite E', length_app, length_map in Hle. cbn in Hle. lia. }
  replace (forallb is_some (map Some answers ++ [None])%list) with false.
  2:{ rewrite forallb_app. cbn. rewrite andb_false_r. reflexivity. }
  cbn [fst snd store trace].
  destruct (preset_entries_partial (preset_questions config) (clock w) answers Hlen)
    as [Hq Ha].
  split; [|split; [reflexivity | split; [reflexivity|]]].
  - eexists. split; [reflexivity | split; [exact Hq | exact Ha]].
  - rewrite saves_app, Hs, app_nil_r. reflexivity.
Qed.


(** *** Stage 1 *)

Lemma find_first {A} (f : A -> bool) (l : list A) (x : A) :
  find f l = Some x ->
  exists before after,
    l = (before ++ x :: after)%list /\ f x = true /\
    forall y, In y before -> f y = false.
Proof.
  induction l as [|a l IH]; cbn; [discriminate|].
  destruct (f a) eqn:Ha.
  - intros [= ->]. exists [], l. repeat split; [exact Ha | intros y []].
  - intros H. destruct (IH H) as [before [after [-> [Hx Hb]]]].
    exists (a :: before), after. repeat split; [exact Hx|].
    intros y [<- | Hy]; [exact Ha | exact (Hb y Hy)].
Qed.

Lemma find_exists {A} (f : A -> bool) (l : list A) (x : A) :
  In x l -> f x = true -> exists y, find f l = Some y.
Proof.
  intros Hin Hx. destruct (find f l) as [y|] eqn:E; [exists y; reflexivity|].
  rewrite (find_none f l E x Hin) in Hx. discriminate.
Qed.

(** The fast path of [stage1_filter], in closed form. *)
Lemma stage1_filter_negative (paper : Paper) (config : Config) (w : World)
    (neg_kw : string) :
  first_negative (negative_keywords config) paper = Some neg_kw ->
  let paper' :=
    set_one_line_summary (negative_summary neg_kw)
      (set_extracted_keywords [negative_marker neg_kw]
        (set_relevance_score 1%Q (set_is_relevant (Some false) paper))) in
  stage1_filter paper config w =
  (paper',
   mkWorld (paper' :: remove_id (id paper) (store w))
     (trace w ++ [Save paper'])%list (clock w)).
Proof. intros H. unfold stage1_filter. rewrite H. reflexivity. Qed.

(** C2 (amended): a record whose lowered "title, space, preview" contains
    the lowered form of some configured negative keyword is demoted on the
    first such keyword of the list: [is_relevant = false], score exactly 1,
    [extracted_keywords] the one string made of the mark U+274C, a space and
    the keyword, the canned summary naming the keyword; the record is saved
    and the call returns without any request to the model, whatever the
    model would have answered. *)
Theorem negative_keyword_fast_path (paper : Paper) (config : Config)
    (w : World) (kw : string) :
  In kw (negative_keywords config) ->
  contains (lower kw) (lower (title paper ++ " " ++ preview_text paper)) = true ->
  exists neg_kw before after,
    negative_keywords config = (before ++ neg_kw :: after)%list /\
    contains (lower neg_kw) (lower (title paper ++ " " ++ preview_text paper)) = true /\
    (forall k, In k before ->
       contains (lower k) (lower (title paper ++ " " ++ preview_text paper)) = false) /\
    let paper' := fst (stage1_filter paper config w) in
    let w' := snd (stage1_filter paper config w) in
    is_relevant paper' = Some false /\
    relevance_score paper' = 1%Q /\
    extracted_keywords paper' = ["❌ " ++ neg_kw] /\
    one_line_summary paper' = "论文包含负面关键词「" ++ neg_kw ++ "」，自动标记为不相关" /\
    trace w' = (trace w ++ [Save paper'])%list /\
    calls (trace w') = calls (trace w) /\
    store w' = paper' :: remove_id (id paper) (store w).
Proof.
  intros Hin Hc.
  destruct (find_exists
              (fun k => contains (lower k) (searchable_text paper))
              (negative_keywords config) kw Hin Hc) as [neg_kw Hfind].
  destruct (find_first _ _ _ Hfind) as [before [after [Hl [Hm Hb]]]].
  exists neg_kw, before, after.
  split; [exact Hl|]. split; [exact Hm|]. split; [exact Hb|].
  rewrite (stage1_filter_negative paper config w neg_kw Hfind).
  cbn [fst snd store trace].
  repeat split.
  rewrite calls_app. cbn. apply app_nil_r.
Qed.

(** What the normal path stores when the first reply parses into a
    judgment with a numeric score: the score as the model gave it. *)
Lemma stage1_filter_judged (paper : Paper) (config : Config) (w : World)
    (text : string) (result : Judgment) (q : float) :
  first_negative (negative_keywords config) paper = None ->
  chat (trace w) (stage1_request paper config) = Some text ->
  json_loads text = Some result ->
  j_relevance_score result = ScoreNumber q ->
  let paper' := fst (stage1_filter paper config w) in
  let w' := snd (stage1_filter paper config w) in
  relevance_score paper' = q /\
  is_relevant paper' = get (j_is_relevant result) (Some false) /\
  store w' = paper' :: remove_id (id paper) (store w).
Proof.
  intros Hneg Hchat Hjson Hscore. cbn zeta.
  unfold stage1_filter. rewrite Hneg.
  cbn [max_retries stage1_attempts]. unfold bind, create.
  rewrite Hchat. unfold read_judgment. rewrite Hjson, Hscore.
  cbn. repeat split.
Qed.

(** *** Manual relevance update *)

Lemma clamp_range (x : float) :
  (0 <= py_max 0 (py_min 10 x) /\ py_max 0 (py_min 10 x) <= 10)%Q.
Proof.
  unfold py_min, py_max, Qltb.
  destruct (Qle_bool 10 x) eqn:H10; cbn [negb].
  - cbn. split; discriminate.
  - destruct (Qle_bool x 0) eqn:H0; cbn [negb].
    + split; [apply Qle_refl | discriminate].
    + assert (Hx0 : ~ (x <= 0)%Q) by (rewrite <- Qle_bool_iff; congruence).
      assert (Hx10 : ~ (10 <= x)%Q) by (rewrite <- Qle_bool_iff; congruence).
      split; apply Qlt_le_weak, Qnot_le_lt; assumption.
Qed.

Lemma update_relevance_clamps (paper_id : string) (b : bool) (x : float)
    (w : World) (paper' : Paper) :
  fst (update_relevance paper_id b x w) = Some paper' ->
  (0 <= relevance_score paper' <= 10)%Q /\
  is_relevant paper' = Some b /\
  find_paper (id paper') (store (snd (update_relevance paper_id b x w)))
  = Some paper'.
Proof.
  unfold update_relevance, bind, load_paper.
  destruct (find_paper paper_id (store w)) as [paper|]; [|discriminate].
  cbn. intros [= <-]. cbn.
  split; [apply clamp_range|]. split; [reflexivity|].
  unfold find_paper. cbn. rewrite String.eqb_refl. reflexivity.
Qed.


(** *** The re-check sweep *)

Lemma recheck_candidate_true (min_score : float) (p : Paper) :
  recheck_candidate min_score p = true ->
  is_relevant p = Some true /\ (min_score <= relevance_score p)%Q.
Proof.
  unfold recheck_candidate.
  destruct (is_relevant p) as [[|]|]; try discriminate.
  intros H. split; [reflexivity | apply Qle_bool_iff; exact H].
Qed.

Lemma for_each_recheck (config' : Config) (min_score : float)
    (keywords : list string) (l : list Paper) :
  negative_keywords config' = keywords ->
  Forall (fun p => recheck_candidate min_score p = true) l ->
  forall w,
  exists demoted,
    snd (for_each (recheck_paper keywords) l w)
    = mkWorld (fold_left (fun s p => p :: remove_id (id p) s) demoted (store w))
        (trace w ++ map Save demoted)%list (clock w) /\
    Forall2 (swept_like_fast_path config' min_score)
      (filter (fun p => is_some (first_negative keywords p)) l) demoted.
Proof.
  intros Hk Hl. induction Hl as [|p l Hp _ IH]; intros w.
  - exists []. cbn. rewrite app_nil_r. split; [destruct w; reflexivity | constructor].
  - cbn [for_each filter]. unfold bind at 1. unfold recheck_paper at 1.
    destruct (first_negative keywords p) as [neg_kw|] eqn:Hfirst; cbn [is_some].
    + unfold save_paper at 1.
      match goal with
      | |- context [for_each _ l ?w1] => destruct (IH w1) as [demoted [Hw Hf]]
      end.
      eexists (_ :: demoted). split.
      * rewrite Hw. cbn [store trace clock map fold_left].
        rewrite <- app_assoc. reflexivity.
      * constructor; [|exact Hf].
        destruct (recheck_candidate_true _ _ Hp) as [Hrel Hscore].
        split; [exact Hrel|]. split; [exact Hscore|].
        intros w0. cbn zeta.
        rewrite (stage1_filter_negative p config' w0 neg_kw)
          by (rewrite Hk; exact Hfirst).
        cbn. repeat split.
    + destruct (IH w) as [demoted [Hw Hf]].
      exists demoted. split; [exact Hw | exact Hf].
Qed.

(** C7 (amended): the sweep scans, among the 10000 most recently written
    records, only those with [is_relevant == true] and a score at or above
    the Stage-2 threshold; it saves exactly the scanned records that match a
    keyword, and each saved record has the [is_relevant], the score and the
    one-line summary the fast path of Stage 1 gives it for the same keywords,
    while its [extracted_keywords] are the fast path's marker followed by the
    keywords the record already had.  No request goes to the model. *)
Theorem recheck_demotes_matching_records (config config' : Config)
    (keywords : list string) (w : World) :
  negative_keywords config' = keywords ->
  let min_score := min_relevance_score_for_stage2 config in
  let scanned :=
    filter (recheck_candidate min_score) (firstn (Z.to_nat 10000) (store w)) in
  let w' := snd (recheck_negative_keywords config keywords w) in
  exists demoted,
    trace w' = (trace w ++ map Save demoted)%list /\
    store w' = fold_left (fun s p => p :: remove_id (id p) s) demoted (store w) /\
    Forall2 (swept_like_fast_path config' min_score)
      (filter (fun p => is_some (first_negative keywords p)) scanned) demoted.
Proof.
  intros Hk. cbn zeta.
  unfold recheck_negative_keywords, bind, list_papers.
  cbn [Z.leb Z.compare skipn].
  destruct (for_each_recheck config' (min_relevance_score_for_stage2 config)
              keywords
              (filter (recheck_candidate (min_relevance_score_for_stage2 config))
                 (firstn (Z.to_nat 10000) (store w))) Hk) with (w := w)
    as [demoted [Hw Hf]].
  { apply Forall_forall. intros p Hp. apply filter_In in Hp. apply Hp. }
  exists demoted. rewrite Hw. cbn [trace store]. repeat split. exact Hf.
Qed.


(** *** Streaming Q&A *)

(** One iteration of the retry loop. *)
Lemma stream_attempts_step (k attempt : nat) (ctx : Context) (config : Config)
    (model_name : string) (reasoning : bool)
    (hist : option (list (string * string))) (w : World) :
  let req :=
    stream_request (cache_prefix ctx) (final_question ctx) config model_name hist in
  let chunks := flat_map (delta_chunks reasoning) (fst (chat_stream (trace w) req)) in
  let later :=
    stream_attempts k (S attempt) ctx config model_name reasoning hist
      (mkWorld (store w) (trace w ++ [Call req; Sleep (2 ^ attempt)])%list
         (clock w)) in
  stream_attempts (S k) attempt ctx config model_name reasoning hist w =
  match snd (chat_stream (trace w) req) with
  | None =>
      ((map chunk_event chunks,
        Some (accumulate_answer chunks, accumulate_thinking chunks)),
       mkWorld (store w) (trace w ++ [Call req])%list (clock w))
  | Some e =>
      if attempt <? max_retries - 1
      then ((map chunk_event chunks ++ [retry_notice (2 ^ attempt)]
               ++ fst (fst later))%list, snd (fst later), snd later)
      else ((map chunk_event chunks ++ [failure_notice e])%list, None,
            mkWorld (store w) (trace w ++ [Call req])%list (clock w))
  end.
Proof.
  cbn zeta. cbn [stream_attempts].
  unfold bind at 1. unfold _ask_question_stream. unfold bind at 1.
  unfold create_stream, ret. cbn [fst snd].
  destruct (chat_stream (trace w) _) as [raw [e|]]; cbn [fst snd];
    [|reflexivity].
  destruct (attempt <? max_retries - 1); [|reflexivity].
  unfold bind at 1. unfold sleep, log. cbn [store trace clock].
  unfold bind at 1. rewrite <- app_assoc. cbn [app].
  destruct (stream_attempts k (S attempt) ctx config model_name reasoning hist _)
    as [[later_events later_result] w2].
  reflexivity.
Qed.

(** The three attempts of the retry loop, one after the other. *)
Lemma stream_attempts_three (ctx : Context) (config : Config)
    (model_name : string) (reasoning : bool)
    (hist : option (list (string * string))) (w1 : World) :
  let req :=
    stream_request (cache_prefix ctx) (final_question ctx) config model_name hist in
  let t0 := trace w1 in
  let t1 := (t0 ++ [Call req; Sleep 1])%list in
  let t2 := (t1 ++ [Call req; Sleep 2])%list in
  let chunks t := flat_map (delta_chunks reasoning) (fst (chat_stream t req)) in
  let events t := map chunk_event (chunks t) in
  let result t := Some (accumulate_answer (chunks t), accumulate_thinking (chunks t)) in
  let after t := mkWorld (store w1) (t ++ [Call req])%list (clock w1) in
  stream_attempts max_retries 0 ctx config model_name reasoning hist w1 =
  match snd (chat_stream t0 req) with
  | None => ((events t0, result t0), after t0)
  | Some _ =>
      match snd (chat_stream t1 req) with
      | None =>
          ((events t0 ++ [retry_notice 1] ++ events t1, result t1)%list, after t1)
      | Some _ =>
          match snd (chat_stream t2 req) with
          | None =>
              ((events t0 ++ [retry_notice 1] ++ events t1
                  ++ [retry_notice 2] ++ events t2, result t2)%list, after t2)
          | Some e =>
              ((events t0 ++ [retry_notice 1] ++ events t1
                  ++ [retry_notice 2] ++ events t2 ++ [failure_notice e],
                None)%list, after t2)
          end
      end
  end.
Proof.
  cbn zeta. unfold max_retries at 1.
  rewrite stream_attempts_step.
  destruct (snd (chat_stream (trace w1) _)) as [e0|]; [|reflexivity].
  change (0 <? max_retries - 1) with true. cbn iota.
  rewrite stream_attempts_step. cbn [store trace clock].
  change (2 ^ 0) with 1.
  destruct (snd (chat_stream (trace w1 ++ [Call _; Sleep 1])%list _)) as [e1|];
    [|reflexivity].
  change (1 <? max_retries - 1) with true. cbn iota.
  rewrite stream_attempts_step. cbn [store trace clock].
  change (2 ^ 1) with 2.
  destruct (snd (chat_stream _ _)) as [e2|]; [|rewrite <- !app_assoc; reflexivity].
  change (2 <? max_retries - 1) with false. cbn iota.
  rewrite <- !app_assoc. reflexivity.
Qed.


(** [ask_custom_question_stream] once the history is built: reference
    resolution, the retry loop, then the guarded save. *)
Lemma ask_stream_unfold (fuel : nat) (paper : Paper) (question : string)
    (config : Config) (parent : option Z) (w : World)
    (h : list (string * string)) :
  build_history fuel paper parent = Done h ->
  let reasoning := reasoning_requested question in
  let asked := if reasoning then strip (py_drop 6 question) else question in
  let resolved := parse_references asked config w in
  let ctx := build_context paper asked (fst (fst resolved)) (snd (fst resolved)) in
  let model_name := if reasoning then "deepseek-reasoner" else model config in
  let loop :=
    stream_attempts max_retries 0 ctx config model_name reasoning
      (if is_none parent then None else Some h) (snd resolved) in
  ask_custom_question_stream fuel paper question config parent w =
  match snd (fst loop) with
  | Some (full_answer, full_thinking) =>
      if nonempty full_answer || nonempty full_thinking
      then
        let paper' :=
          append_qa
            (mkQAPair question full_answer (isoformat (clock (snd loop)))
               (if reasoning then Some full_thinking else None) reasoning parent)
            paper in
        (Done (fst (fst loop), paper'),
         mkWorld (paper' :: remove_id (id paper) (store (snd loop)))
           (trace (snd loop) ++ [Save paper'])%list (S (clock (snd loop))))
      else (Done (fst (fst loop), paper), snd loop)
  | None => (Done (fst (fst loop), paper), snd loop)
  end.
Proof.
  intros Hh. cbn zeta. unfold ask_custom_question_stream.
  unfold bind at 1.
  destruct (parse_references _ config w) as [refs w1]. cbn [fst snd].
  rewrite Hh. unfold bind at 1.
  destruct (stream_attempts _ _ _ _ _ _ _ w1) as [[events [[a th]|]] w2];
    cbn [fst snd]; [|reflexivity].
  destruct (nonempty a || nonempty th); reflexivity.
Qed.

Lemma stream_attempts_frame (remaining : nat) :
  forall attempt ctx config model_name reasoning hist w,
  exists added,
    snd (stream_attempts remaining attempt ctx config model_name reasoning hist w)
    = mkWorld (store w) (trace w ++ added)%list (clock w) /\
    saves added = [].
Proof.
  induction remaining as [|k IH];
    intros attempt ctx config model_name reasoning hist w.
  - exists []. cbn. rewrite app_nil_r. destruct w. split; reflexivity.
  - rewrite stream_attempts_step.
    destruct (snd (chat_stream _ _)) as [e|].
    + destruct (attempt <? max_retries - 1).
      * cbn [snd].
        match goal with
        | |- context [stream_attempts k ?a ?c ?g ?m ?r ?hh ?w1] =>
            destruct (IH a c g m r hh w1) as [added [Hw Hs]]
        end.
        eexists (Call _ :: Sleep _ :: added). rewrite Hw.
        cbn [store trace clock]. rewrite <- app_assoc. cbn [app].
        split; [reflexivity | exact Hs].
      * eexists [Call _]. split; reflexivity.
    + eexists [Call _]. split; reflexivity.
Qed.

(** C9: when the retry loop of a streaming call ends in success with an
    empty accumulated answer and an empty accumulated thinking trace, the
    call returns the record as it was and leaves the world as the loop left
    it: no entry is appended and nothing is saved.  A record is saved exactly
    when the loop succeeded and the answer or the thinking trace is not
    empty. *)
Theorem empty_stream_is_not_persisted (fuel : nat) (paper : Paper)
    (question : string) (config : Config) (parent : option Z) (w : World)
    (h : list (string * string)) :
  build_history fuel paper parent = Done h ->
  let reasoning := reasoning_requested question in
  let asked := if reasoning then strip (py_drop 6 question) else question in
  let resolved := parse_references asked config w in
  let ctx := build_context paper asked (fst (fst resolved)) (snd (fst resolved)) in
  let model_name := if reasoning then "deepseek-reasoner" else model config in
  let loop :=
    stream_attempts max_retries 0 ctx config model_name reasoning
      (if is_none parent then None else Some h) (snd resolved) in
  let run := ask_custom_question_stream fuel paper question config parent w in
  (snd (fst loop) = Some ("", "") ->
     run = (Done (fst (fst loop), paper), snd loop) /\
     store (snd run) = store (snd resolved) /\
     saves (trace (snd run)) = saves (trace (snd resolved))) /\
  (saves (trace (snd run)) <> saves (trace (snd resolved)) <->
     exists full_answer full_thinking,
       snd (fst loop) = Some (full_answer, full_thinking) /\
       nonempty full_answer || nonempty full_thinking = true).
Proof.
  intros Hh. cbn zeta.
  rewrite (ask_stream_unfold fuel paper question config parent w h Hh). cbn zeta.
  destruct (stream_attempts_frame max_retries 0
              (build_context paper
                 (if reasoning_requested question
                  then strip (py_drop 6 question) else question)
                 (fst (fst (parse_references
                    (if reasoning_requested question
                     then strip (py_drop 6 question) else question) config w)))
                 (snd (fst (parse_references
                    (if reasoning_requested question
                     then strip (py_drop 6 question) else question) config w))))
              config
              (if reasoning_requested question then "deepseek-reasoner"
               else model config)
              (reasoning_requested question)
              (if is_none parent then None else Some h)
              (snd (parse_references
                 (if reasoning_requested question
                  then strip (py_drop 6 question) else question) config w)))
    as [added [Hw Hs]].
  destruct (stream_attempts _ _ _ _ _ _ _ _) as [[events result] w2].
  cbn [fst snd] in *. subst w2. cbn [store trace clock].
  assert (Hsame : saves (trace (snd (parse_references
                    (if reasoning_requested question
                     then strip (py_drop 6 question) else question) config w))
                    ++ added)
                  = saves (trace (snd (parse_references
                    (if reasoning_requested question
                     then strip (py_drop 6 question) else question) config w)))).
  { rewrite saves_app, Hs, app_nil_r. reflexivity. }
  split.
  - intros ->. cbn. repeat split. exact Hsame.
  - destruct result as [[a th]|].
    + destruct (nonempty a || nonempty th) eqn:Hne; cbn [fst snd store trace].
      * split.
        -- intros _. exists a, th. split; [reflexivity | exact Hne].
        -- intros _. rewrite saves_app, Hsame. cbn.
           intros Hc. apply (f_equal (@List.length _)) in Hc.
           rewrite length_app in Hc. cbn in Hc. lia.
      * split.
        -- intros Hc. exfalso. apply Hc. exact Hsame.
        -- intros [a' [th' [[= <- <-] Hc]]]. congruence.
    + cbn [fst snd store trace]. split.
      * intros Hc. exfalso. apply Hc. exact Hsame.
      * intros [a' [th' [Hc _]]]. discriminate.
Qed.


(** C5 (amended): after reference resolution has left the world [w1], the
    streaming call makes at most three attempts with the same request,
    sleeping 1s after the first failure and 2s after the second.  Every
    failed attempt but the third is followed by a transient error event, and
    the answer and thinking trace are accumulated from the chunks of the
    last attempt alone.  After a third failure the call yields a terminal
    error event, returns the record unchanged and saves nothing.  When an
    attempt succeeds and the accumulated answer or thinking trace is not
    empty, exactly one entry is appended and the record is saved once: the
    entry holds the question as it was asked (marker included), the answer,
    the thinking trace in reasoning mode only, the reasoning flag and the
    parent position as supplied.  When both are empty, nothing is appended
    or saved. *)
Theorem stream_retries_then_persists (fuel : nat) (paper : Paper)
    (question : string) (config : Config) (parent : option Z) (w : World)
    (h : list (string * string)) :
  build_history fuel paper parent = Done h ->
  let reasoning := reasoning_requested question in
  let asked := if reasoning then strip (py_drop 6 question) else question in
  let resolved := parse_references asked config w in
  let w1 := snd resolved in
  let ctx := build_context paper asked (fst (fst resolved)) (snd (fst resolved)) in
  let req :=
    stream_request (cache_prefix ctx) (final_question ctx) config
      (if reasoning then "deepseek-reasoner" else model config)
      (if is_none parent then None else Some h) in
  let t0 := trace w1 in
  let t1 := (t0 ++ [Call req; Sleep 1])%list in
  let t2 := (t1 ++ [Call req; Sleep 2])%list in
  let chunks t := flat_map (delta_chunks reasoning) (fst (chat_stream t req)) in
  let failure t := snd (chat_stream t req) in
  let events t := map chunk_event (chunks t) in
  let run := ask_custom_question_stream fuel paper question config parent w in
  let succeeds_at t yielded :=
    let full_answer := accumulate_answer (chunks t) in
    let full_thinking := accumulate_thinking (chunks t) in
    let paper' :=
      append_qa
        (mkQAPair question full_answer (isoformat (clock w1))
           (if reasoning then Some full_thinking else None) reasoning parent)
        paper in
    if nonempty full_answer || nonempty full_thinking
    then run = (Done (yielded, paper'),
                mkWorld (paper' :: remove_id (id paper) (store w1))
                  (t ++ [Call req; Save paper'])%list (S (clock w1)))
    else run = (Done (yielded, paper),
                mkWorld (store w1) (t ++ [Call req])%list (clock w1)) in
  (failure t0 = None -> succeeds_at t0 (events t0)) /\
  (failure t0 <> None -> failure t1 = None ->
     succeeds_at t1 (events t0 ++ [retry_notice 1] ++ events t1)%list) /\
  (failure t0 <> None -> failure t1 <> None -> failure t2 = None ->
     succeeds_at t2
       (events t0 ++ [retry_notice 1] ++ events t1
          ++ [retry_notice 2] ++ events t2)%list) /\
  (forall e,
     failure t0 <> None -> failure t1 <> None -> failure t2 = Some e ->
     run = (Done ((events t0 ++ [retry_notice 1] ++ events t1
                     ++ [retry_notice 2] ++ events t2 ++ [failure_notice e])%list,
                  paper),
            mkWorld (store w1) (t2 ++ [Call req])%list (clock w1))).
Proof.
  intros Hh. cbn zeta.
  rewrite (ask_stream_unfold fuel paper question config parent w h Hh). cbn zeta.
  rewrite stream_attempts_three. cbn zeta.
  destruct (parse_references _ config w) as [refs w1]. cbn [fst snd].
  set (req := stream_request _ _ config _ _).
  destruct (snd (chat_stream (trace w1) req)) as [e0|].
  2:{ cbn [fst snd store trace clock]. split; [intros _|].
      - destruct (nonempty _ || nonempty _);
          [rewrite app_two|]; reflexivity.
      - split; [intros Hc; now elim Hc|].
        split; [intros Hc; now elim Hc|].
        intros e Hc. now elim Hc. }
  split; [discriminate|].
  destruct (snd (chat_stream (trace w1 ++ [Call req; Sleep 1])%list req)) as [e1|].
  2:{ cbn [fst snd store trace clock]. split; [intros _ _|].
      - destruct (nonempty _ || nonempty _);
          [rewrite app_two|]; reflexivity.
      - split; [intros _ Hc; now elim Hc|].
        intros e _ Hc. now elim Hc. }
  split; [discriminate|].
  destruct (snd (chat_stream _ req)) as [e2|].
  - cbn [fst snd store trace clock]. split; [discriminate|].
    intros e _ _ [= <-]. reflexivity.
  - cbn [fst snd store trace clock]. split; [intros _ _ _|].
    + destruct (nonempty _ || nonempty _);
        [rewrite app_two|]; reflexivity.
    + intros e _ _ Hc. discriminate.
Qed.


Lemma stream_attempts_first_call (k attempt : nat) (ctx : Context)
    (config : Config) (model_name : string) (reasoning : bool)
    (hist : option (list (string * string))) (w : World) :
  exists rest,
    trace (snd (stream_attempts (S k) attempt ctx config model_name reasoning
                  hist w))
    = (trace w
         ++ Call (stream_request (cache_prefix ctx) (final_question ctx) config
                    model_name hist) :: rest)%list.
Proof.
  rewrite stream_attempts_step.
  destruct (snd (chat_stream _ _)) as [e|].
  - destruct (attempt <? max_retries - 1).
    + cbn [snd].
      match goal with
      | |- context [stream_attempts k ?a ?c ?g ?m ?r ?hh ?w1] =>
          destruct (stream_attempts_frame k a c g m r hh w1) as [added [Hw _]]
      end.
      rewrite Hw. cbn [trace]. rewrite <- app_assoc. cbn [app].
      eexists. reflexivity.
    + exists []. reflexivity.
  - exists []. reflexivity.
Qed.

Lemma parse_references_none (question : string) (config : Config) (w : World) :
  findall_arxiv_ids question = [] ->
  parse_references question config w = (([], []), w).
Proof. intros H. unfold parse_references. rewrite H. reflexivity. Qed.

Lemma str_or_same (s : string) : str_or s s = s.
Proof. unfold str_or. destruct (nonempty s); reflexivity. Qed.

(** The first request a streaming call without parent sends once the
    references are resolved. *)
Lemma ask_stream_first_call (fuel : nat) (paper : Paper) (question : string)
    (config : Config) (w : World) :
  let reasoning := reasoning_requested question in
  let asked := if reasoning then strip (py_drop 6 question) else question in
  let resolved := parse_references asked config w in
  let ctx := build_context paper asked (fst (fst resolved)) (snd (fst resolved)) in
  exists rest,
    trace (snd (ask_custom_question_stream fuel paper question config None w))
    = (trace (snd resolved)
         ++ Call (stream_request (cache_prefix ctx) (final_question ctx) config
                    (if reasoning then "deepseek-reasoner" else model config)
                    None) :: rest)%list.
Proof.
  cbn zeta.
  rewrite (ask_stream_unfold fuel paper question config None w [] eq_refl).
  cbn zeta. cbn [is_none].
  destruct (stream_attempts_first_call 2 0
              (build_context paper
                 (if reasoning_requested question
                  then strip (py_drop 6 question) else question)
                 (fst (fst (parse_references
                    (if reasoning_requested question
                     then strip (py_drop 6 question) else question) config w)))
                 (snd (fst (parse_references
                    (if reasoning_requested question
                     then strip (py_drop 6 question) else question) config w))))
              config
              (if reasoning_requested question then "deepseek-reasoner"
               else model config)
              (reasoning_requested question) None
              (snd (parse_references
                 (if reasoning_requested question
                  then strip (py_drop 6 question) else question) config w)))
    as [rest Hrest].
  fold max_retries in Hrest.
  destruct (stream_attempts max_retries 0 _ _ _ _ _ _) as [[events result] w2].
  cbn [fst snd] in *.
  destruct result as [[a th]|].
  - destruct (nonempty a || nonempty th); cbn [snd trace].
    + rewrite Hrest, <- app_assoc. cbn [app]. eexists. reflexivity.
    + exists rest. exact Hrest.
  - exists rest. exact Hrest.
Qed.

(** C6 (amended): only the streaming variant knows the reasoning marker.
    The synchronous variant resolves references and assembles the context
    from the question as typed and sends it to the configured model, marker
    included.  The streaming variant, on a question whose lowered form
    starts with "think:", drops the first six characters, strips the rest,
    and sends that to "deepseek-reasoner"; on any other question, and with no
    parent supplied, its request has the model, the messages, the
    temperature and the token limit of the synchronous one and differs in
    the stream flag only. *)
Theorem reasoning_mode_is_streaming_only (fuel : nat) (paper : Paper)
    (question : string) (config : Config) (w : World) :
  let resolved := parse_references question config w in
  let ctx := build_context paper question (fst (fst resolved)) (snd (fst resolved)) in
  let asked := strip (py_drop 6 question) in
  let resolved' := parse_references asked config w in
  let ctx' := build_context paper asked (fst (fst resolved')) (snd (fst resolved')) in
  let sync := ask_custom_question paper question config w in
  let stream := ask_custom_question_stream fuel paper question config None w in
  let turns c :=
    [mkMessage System (system_prompt config);
     mkMessage User
       (cache_prefix c ++ nl ++ nl ++ "Question: " ++ final_question c)] in
  (exists rest,
     trace (snd sync)
     = (trace (snd resolved)
          ++ Call (mkRequest (model config) (turns ctx) (temperature config)
                     (max_tokens config) false false) :: rest)%list) /\
  (findall_arxiv_ids question = [] -> final_question ctx = question) /\
  (reasoning_requested question = true ->
     (exists rest,
        trace (snd stream)
        = (trace (snd resolved')
             ++ Call (mkRequest "deepseek-reasoner" (turns ctx')
                        (temperature config) (max_tokens config) false true)
             :: rest)%list) /\
     (findall_arxiv_ids asked = [] -> final_question ctx' = asked)) /\
  (reasoning_requested question = false ->
     exists rest,
       trace (snd stream)
       = (trace (snd resolved)
            ++ Call (mkRequest (model config) (turns ctx) (temperature config)
                       (max_tokens config) false true) :: rest)%list).
Proof.
  cbn zeta. split; [|split; [|split]].
  - unfold ask_custom_question. unfold bind at 1.
    destruct (parse_references question config w) as [refs w1]. cbn [fst snd].
    unfold bind at 1. unfold _ask_question, create.
    destruct (chat (trace w1) _) as [text|].
    + unfold new_qa, datetime_now, _save_paper, save_paper, ret.
      unfold bind. cbn [fst snd store trace clock].
      rewrite <- app_assoc. cbn [app].
      eexists. reflexivity.
    + exists []. reflexivity.
  - intros H. rewrite (parse_references_none _ _ _ H). reflexivity.
  - intros Hr. split.
    + destruct (ask_stream_first_call fuel paper question config w) as [rest H].
      cbn zeta in H. rewrite Hr in H. exists rest. exact H.
    + intros H. rewrite (parse_references_none _ _ _ H). reflexivity.
  - intros Hr.
    destruct (ask_stream_first_call fuel paper question config w) as [rest H].
    cbn zeta in H. rewrite Hr in H. exists rest. rewrite H.
    unfold stream_request. rewrite str_or_same. reflexivity.
Qed.


(** *** Conversation threads *)

(** An entry that is its own parent keeps the walk going for ever. *)
Lemma walk_parents_self (pairs : list QAPair) (i : Z) (qa : QAPair) :
  py_index pairs i = Some qa ->
  parent_qa_id qa = Some i ->
  forall fuel hist, walk_parents fuel pairs (Some i) hist = OutOfFuel.
Proof.
  intros Hi Hp fuel. induction fuel as [|f IH]; intros hist; [reflexivity|].
  cbn [walk_parents]. rewrite Hi, Hp. apply IH.
Qed.

Lemma ask_stream_out_of_fuel (fuel : nat) (paper : Paper) (question : string)
    (config : Config) (parent : option Z) (w : World) :
  build_history fuel paper parent = OutOfFuel ->
  fst (ask_custom_question_stream fuel paper question config parent w)
  = OutOfFuel.
Proof.
  intros H. unfold ask_custom_question_stream. unfold bind at 1.
  destruct (parse_references _ config w) as [refs w1].
  rewrite H. reflexivity.
Qed.

(** On such a record the walk from position [i] ends within [i + 1]
    iterations, and what it collects runs through strictly increasing
    positions up to [i]: oldest first, questions and answers only. *)
Lemma walk_parents_threaded (pairs : list QAPair) :
  threaded pairs ->
  forall fuel i hist,
    i < List.length pairs -> i < fuel ->
    exists positions,
      walk_parents fuel pairs (Some (Z.of_nat i)) hist
      = Done (map (turn_at pairs) (positions ++ [i]) ++ hist)%list /\
      Forall (fun j => j < i) positions /\
      StronglySorted lt positions.
Proof.
  intros Hthr fuel. induction fuel as [|f IH]; intros i hist Hi Hfuel; [lia|].
  cbn [walk_parents]. unfold py_index.
  replace ((0 <=? Z.of_nat i) && (Z.of_nat i <? Z.of_nat (List.length pairs)))%Z
    with true
    by (symmetry; apply andb_true_iff; split;
        [apply Z.leb_le | apply Z.ltb_lt]; lia).
  rewrite Nat2Z.id.
  destruct (nth_error pairs i) as [qa|] eqn:Hqa.
  2:{ apply nth_error_None in Hqa. lia. }
  pose proof (Hthr i qa Hqa) as Hp.
  destruct (parent_qa_id qa) as [p|].
  - assert (Hp' : Z.to_nat p < i) by lia.
    destruct (IH (Z.to_nat p) ((question qa, answer qa) :: hist)) as
      [positions [Hw [Hlt Hs]]]; [lia | lia |].
    rewrite Z2Nat.id in Hw by lia.
    exists (positions ++ [Z.to_nat p])%list. split; [|split].
    + assert (Ht : turn_at pairs i = (question qa, answer qa))
        by (unfold turn_at; rewrite Hqa; reflexivity).
      rewrite Hw, (map_app _ (positions ++ [Z.to_nat p])%list [i]).
      cbn [map]. rewrite Ht, <- app_assoc. reflexivity.
    + apply Forall_app. split.
      * revert Hlt. apply Forall_impl. intros j Hj. lia.
      * constructor; [exact Hp' | constructor].
    + clear Hw. induction positions as [|a l IHl]; cbn.
      * constructor; constructor.
      * inversion Hs; subst. inversion Hlt; subst.
        constructor; [apply IHl; assumption|].
        apply Forall_app. split; [assumption|].
        constructor; [assumption | constructor].
  - exists []. cbn [app map]. unfold turn_at. rewrite Hqa.
    split; [destruct f; reflexivity|]. split; constructor.
Qed.


(** *** The record store *)

Lemma find_paper_id (i : string) (l : list Paper) (p : Paper) :
  find_paper i l = Some p -> id p = i.
Proof.
  unfold find_paper. intros H. apply find_some in H. destruct H as [_ H].
  apply String.eqb_eq. exact H.
Qed.

Lemma find_paper_remove_other (i other : string) (l : list Paper) :
  other <> i -> find_paper other (remove_id i l) = find_paper other l.
Proof.
  intros Hne. unfold find_paper, remove_id.
  induction l as [|q l IH]; [reflexivity|].
  cbn [filter find].
  destruct (String.eqb (id q) i) eqn:Hq; cbn [negb].
  - apply String.eqb_eq in Hq.
    destruct (String.eqb (id q) other) eqn:Ho; [|exact IH].
    apply String.eqb_eq in Ho. congruence.
  - cbn [find]. destruct (String.eqb (id q) other); [reflexivity | exact IH].
Qed.

Lemma find_paper_remove_same (i : string) (l : list Paper) :
  find_paper i (remove_id i l) = None.
Proof.
  unfold find_paper, remove_id.
  induction l as [|q l IH]; [reflexivity|].
  cbn [filter]. destruct (String.eqb (id q) i) eqn:Hq; cbn [negb]; [exact IH|].
  cbn [find]. rewrite Hq. exact IH.
Qed.

Lemma remove_id_length (i : string) (l : list Paper) :
  List.length (remove_id i l) <= List.length l.
Proof. unfold remove_id. apply filter_length_le. Qed.

Lemma remove_id_absent (i : string) (l : list Paper) :
  find_paper i l = None -> remove_id i l = l.
Proof.
  unfold find_paper, remove_id.
  induction l as [|q l IH]; [reflexivity|].
  cbn [find filter]. destruct (String.eqb (id q) i); [discriminate|].
  intros H. cbn [negb]. rewrite (IH H). reflexivity.
Qed.

Lemma remove_id_ids (i : string) (l : list Paper) :
  map id (remove_id i l)
  = filter (fun j => negb (String.eqb j i)) (map id l).
Proof.
  unfold remove_id. induction l as [|q l IH]; [reflexivity|].
  cbn [filter map]. destruct (String.eqb (id q) i); cbn [negb map];
    rewrite IH; reflexivity.
Qed.

Lemma remove_id_unique (i : string) (l : list Paper) :
  NoDup (map id l) -> NoDup (map id (remove_id i l)).
Proof. intros H. rewrite remove_id_ids. apply NoDup_filter. exact H. Qed.

Lemma remove_id_not_in (i : string) (l : list Paper) :
  ~ In i (map id (remove_id i l)).
Proof.
  rewrite remove_id_ids. intros H. apply filter_In in H. destruct H as [_ H].
  rewrite String.eqb_refl in H. discriminate.
Qed.

Lemma remove_id_present_length (i : string) (l : list Paper) (p : Paper) :
  NoDup (map id l) -> find_paper i l = Some p ->
  S (List.length (remove_id i l)) = List.length l.
Proof.
  unfold find_paper, remove_id.
  induction l as [|q l IH]; [discriminate|].
  cbn [map find filter List.length]. intros Hnd Hf.
  inversion Hnd as [|x xs Hnin Hnd']; subst.
  destruct (String.eqb (id q) i) eqn:Hq; cbn [negb].
  - apply String.eqb_eq in Hq. f_equal.
    fold (remove_id i l). rewrite remove_id_absent; [reflexivity|].
    unfold find_paper. destruct (find _ l) as [r|] eqn:Hr; [|reflexivity].
    exfalso. apply Hnin. apply find_some in Hr. destruct Hr as [Hin Hr].
    apply String.eqb_eq in Hr. rewrite Hq, <- Hr. apply in_map. exact Hin.
  - cbn [List.length]. f_equal. apply IH; assumption.
Qed.



Lemma firstn_firstn_skipn {A} (n m : nat) (l : list A) :
  (firstn n l ++ firstn m (skipn n l))%list = firstn (n + m) l.
Proof.
  revert l. induction n as [|n IH]; intros l; [reflexivity|].
  destruct l as [|a l]; cbn; [destruct m; reflexivity|].
  rewrite IH. reflexivity.
Qed.

Lemma skipn_add {A} (n m : nat) (l : list A) :
  skipn (n + m) l = skipn m (skipn n l).
Proof.
  revert l. induction n as [|n IH]; intros l; [reflexivity|].
  destruct l as [|a l]; cbn; [destruct m; reflexivity | apply IH].
Qed.

(** X3: [list_papers] is read-only and pages through the store by recency:
    with a positive limit it returns at most that many records, two
    consecutive pages make the page of their joint size, and a limit that
    is missing, zero or negative returns everything from [skip] on. *)
Theorem list_papers_pages (skip : nat) (n m : Z) (w : World) :
  (0 < n)%Z -> (0 < m)%Z ->
  snd (list_papers skip (Some n) w) = w /\
  List.length (fst (list_papers skip (Some n) w)) <= Z.to_nat n /\
  (fst (list_papers skip (Some n) w)
     ++ fst (list_papers (skip + Z.to_nat n) (Some m) w))%list
  = fst (list_papers skip (Some (n + m)%Z) w) /\
  (forall limit, (limit <= 0)%Z ->
     fst (list_papers skip (Some limit) w) = skipn skip (store w)) /\
  fst (list_papers skip None w) = skipn skip (store w).
Proof.
  intros Hn Hm. unfold list_papers. cbn [fst snd].
  replace (n <=? 0)%Z with false by (symmetry; apply Z.leb_gt; exact Hn).
  replace (m <=? 0)%Z with false by (symmetry; apply Z.leb_gt; exact Hm).
  replace (n + m <=? 0)%Z with false by (symmetry; apply Z.leb_gt; lia).
  split; [reflexivity|]. split; [apply firstn_le_length|].
  split; [|split; [|reflexivity]].
  - rewrite skipn_add, firstn_firstn_skipn, Z2Nat.inj_add by lia. reflexivity.
  - intros limit Hl.
    replace (limit <=? 0)%Z with true by (symmetry; apply Z.leb_le; exact Hl).
    reflexivity.
Qed.

Lemma fetch_single_paper_stored (arxiv_id : string) (w : World) (p : Paper) :
  find_paper arxiv_id (store w) = Some p ->
  fetch_single_paper arxiv_id w = (Some p, w).
Proof. intros H. unfold fetch_single_paper. rewrite H. reflexivity. Qed.

Lemma find_paper_head (i : string) (l : list Paper) (p : Paper) :
  id p = i -> find_paper i (p :: l) = Some p.
Proof.
  intros H. unfold find_paper. cbn [find]. rewrite H, String.eqb_refl.
  reflexivity.
Qed.

(** X4: [fetch_single_paper] reads through the store.  A record it returns
    carries the id asked for and is stored under it, so asking again returns
    the same record and leaves the world as it is (no second download);
    when it raises, the id was not stored and the store is unchanged. *)
Theorem fetch_single_paper_reads_through (arxiv_id : string) (w : World) :
  let w1 := snd (fetch_single_paper arxiv_id w) in
  (forall p,
     fst (fetch_single_paper arxiv_id w) = Some p ->
     id p = arxiv_id /\
     find_paper arxiv_id (store w1) = Some p /\
     fetch_single_paper arxiv_id w1 = (Some p, w1)) /\
  (fst (fetch_single_paper arxiv_id w) = None ->
     find_paper arxiv_id (store w) = None /\ store w1 = store w).
Proof.
  cbn zeta.
  destruct (find_paper arxiv_id (store w)) as [q|] eqn:Hq.
  - rewrite (fetch_single_paper_stored _ _ _ Hq). cbn [fst snd].
    split; [|discriminate].
    intros p [= <-]. split; [exact (find_paper_id _ _ _ Hq)|].
    split; [exact Hq | exact (fetch_single_paper_stored _ _ _ Hq)].
  - assert (Hrun : fetch_single_paper arxiv_id w
                   = match arxiv_api (trace w) arxiv_id with
                     | None => (None, snd (log (Fetch arxiv_id) w))
                     | Some entry =>
                         let paper :=
                           mkPaper arxiv_id (entry_title entry)
                             (entry_authors entry) (entry_summary entry)
                             (entry_link entry)
                             ("https://arxiv.org/html/" ++ arxiv_id)
                             (entry_html entry)
                             (_extract_preview (entry_html entry)
                                (entry_summary entry))
                             None 0%Q [] "" "" [] false false
                             (entry_published entry)
                             (isoformat (clock w)) (isoformat (S (clock w))) in
                         (Some paper,
                          mkWorld (paper :: remove_id arxiv_id (store w))
                            ((trace w ++ [Fetch arxiv_id]) ++ [Save paper])%list
                            (S (S (clock w))))
                     end).
    { unfold fetch_single_paper. rewrite Hq.
      destruct (arxiv_api (trace w) arxiv_id); reflexivity. }
    rewrite Hrun. destruct (arxiv_api (trace w) arxiv_id) as [entry|].
    + cbn zeta. cbn [fst snd store]. split; [|discriminate].
      intros p [= <-]. split; [reflexivity|].
      split; [apply find_paper_head; reflexivity|].
      apply fetch_single_paper_stored. apply find_paper_head. reflexivity.
    + cbn [fst snd]. split; [discriminate|]. intros _. split; reflexivity.
Qed.


(** *** Text handed to the model *)

Lemma py_len_take (n : nat) (s : string) : py_len (py_take n s) <= n.
Proof.
  revert n. induction s as [|c r IH]; intros n; cbn [py_take py_len];
    [apply Nat.le_0_l|].
  destruct (is_continuation c) eqn:Hc.
  - cbn [py_len]. rewrite Hc. apply IH.
  - destruct n as [|n]; [apply Nat.le_0_l|].
    cbn [py_len]. rewrite Hc. apply le_n_S, IH.
Qed.

Lemma py_len_app (a b : string) : py_len (a ++ b) = py_len a + py_len b.
Proof.
  induction a as [|c r IH]; [reflexivity|].
  cbn [append py_len]. destruct (is_continuation c); rewrite IH; reflexivity.
Qed.

Lemma py_take_app (a b : string) :
  forall n, py_len a <= n ->
  py_take n (a ++ b) = a ++ py_take (n - py_len a) b.
Proof.
  induction a as [|c r IH]; intros n Hn.
  - cbn. rewrite Nat.sub_0_r. reflexivity.
  - cbn [append py_take py_len] in *. destruct (is_continuation c).
    + rewrite IH by exact Hn. reflexivity.
    + destruct n as [|n]; [lia|]. rewrite IH by lia. reflexivity.
Qed.

Lemma py_take_all (s : string) : forall n, py_len s <= n -> py_take n s = s.
Proof.
  induction s as [|c r IH]; intros n Hn; [reflexivity|].
  cbn [py_take py_len] in *. destruct (is_continuation c).
  - rewrite IH by exact Hn. reflexivity.
  - destruct n as [|n]; [lia|]. rewrite IH by lia. reflexivity.
Qed.

Lemma prefix_app (a b : string) : String.prefix a (a ++ b) = true.
Proof.
  induction a as [|c r IH]; [destruct b; reflexivity|].
  cbn. destruct (ascii_dec c c) as [_|Hc]; [exact IH | now elim Hc].
Qed.

Lemma prefix_of_eq (a b s : string) : s = a ++ b -> String.prefix a s = true.
Proof. intros ->. apply prefix_app. Qed.

Lemma prefix_refl (a : string) : String.prefix a a = true.
Proof.
  induction a as [|c r IH]; [reflexivity|].
  cbn. destruct (ascii_dec c c) as [_|Hc]; [exact IH | now elim Hc].
Qed.

(** X5: the preview Stage 1 reads is capped at 2000 characters; an abstract
    of at most 2000 characters is always there in full at its start, and
    without HTML the preview is that abstract and nothing else. *)
Theorem preview_is_capped (html abstract_text : string) :
  py_len (_extract_preview html abstract_text) <= 2000 /\
  (py_len abstract_text <= 2000 ->
     String.prefix abstract_text (_extract_preview html abstract_text) = true) /\
  (html = "" -> py_len abstract_text <= 2000 ->
     _extract_preview html abstract_text = abstract_text).
Proof.
  unfold _extract_preview. split; [apply py_len_take|]. split.
  - intros Hlen. destruct (nonempty html).
    + rewrite py_take_app by exact Hlen. apply prefix_app.
    + rewrite py_take_all by exact Hlen. apply prefix_refl.
  - intros -> Hlen. cbn [nonempty]. apply py_take_all. exact Hlen.
Qed.


(** *** Reference extraction *)

Lemma take_digits_spec (n : nat) :
  forall s d rest,
    take_digits n s = (d, rest) ->
    s = d ++ rest /\ all_digits d = true /\ String.length d <= n.
Proof.
  induction n as [|n IH]; intros s d rest H.
  - cbn in H. destruct s; injection H as <- <-; repeat split; apply le_n.
  - destruct s as [|c r]; cbn [take_digits] in H.
    + injection H as <- <-. repeat split. apply Nat.le_0_l.
    + destruct (is_digit c) eqn:Hc.
      * destruct (take_digits n r) as [d' rest'] eqn:E.
        injection H as <- <-.
        destruct (IH r d' rest' E) as [-> [Hd Hl]].
        cbn. rewrite Hc, Hd. repeat split. apply le_n_S. exact Hl.
      * injection H as <- <-. repeat split. apply Nat.le_0_l.
Qed.

Lemma append_assoc (a b c : string) : (a ++ b) ++ c = a ++ (b ++ c).
Proof. induction a as [|x a IH]; [reflexivity|]. cbn. rewrite IH. reflexivity. Qed.

Lemma append_empty (a : string) : a ++ "" = a.
Proof. induction a as [|x a IH]; [reflexivity|]. cbn. rewrite IH. reflexivity. Qed.

Lemma length_append (a b : string) :
  String.length (a ++ b) = String.length a + String.length b.
Proof. induction a as [|x a IH]; [reflexivity|]. cbn. rewrite IH. reflexivity. Qed.

Lemma match_reference_spec (s g : string) (n : nat) :
  match_reference s = Some (g, n) ->
  arxiv_id_shape g /\ String.prefix ("[" ++ g ++ "]") s = true.
Proof.
  unfold match_reference.
  destruct s as [|c s1]; [discriminate|].
  destruct (ascii_dec c "["%char) as [->|Hc].
  2:{ destruct c as [[] [] [] [] [] [] [] []]; try discriminate.
      now elim Hc. }
  destruct (take_digits 4 s1) as [year s2] eqn:Ey.
  destruct (take_digits_spec _ _ _ _ Ey) as [-> [Hy _]].
  destruct (String.length year =? 4) eqn:Hly; [|discriminate].
  apply Nat.eqb_eq in Hly.
  destruct s2 as [|c2 s3]; [discriminate|].
  destruct (ascii_dec c2 "."%char) as [->|Hc].
  2:{ destruct c2 as [[] [] [] [] [] [] [] []]; try discriminate.
      now elim Hc. }
  destruct (take_digits 5 s3) as [num s4] eqn:En.
  destruct (take_digits_spec _ _ _ _ En) as [-> [Hn Hn5]].
  destruct (4 <=? String.length num) eqn:Hn4; [|discriminate].
  apply Nat.leb_le in Hn4.
  destruct s4 as [|c4 s5]; [discriminate|].
  destruct (ascii_dec c4 "]"%char) as [->|Hc4].
  { intros [= <- _]. split.
    - exists year, num, "". rewrite append_empty.
      repeat split; try assumption. left. reflexivity.
    - apply prefix_of_eq with (b := s5).
      cbn [append]. repeat rewrite append_assoc. reflexivity. }
  destruct (ascii_dec c4 "v"%char) as [->|Hc4'].
  2:{ destruct c4 as [[] [] [] [] [] [] [] []]; try discriminate;
        [now elim Hc4 | now elim Hc4']. }
  destruct (take_digits (String.length s5) s5) as [ver s6] eqn:Ev.
  destruct (take_digits_spec _ _ _ _ Ev) as [-> [Hv _]].
  destruct ver as [|v0 ver]; [discriminate|].
  destruct s6 as [|c6 s7]; [discriminate|].
  destruct (ascii_dec c6 "]"%char) as [->|Hc6].
  2:{ destruct c6 as [[] [] [] [] [] [] [] []]; try discriminate.
      now elim Hc6. }
  intros [= <- _]. split.
  - exists year, num, ("v" ++ String v0 ver).
    repeat split; try assumption.
    + repeat rewrite append_assoc. reflexivity.
    + right. exists (String v0 ver). repeat split; [discriminate | exact Hv].
  - apply prefix_of_eq with (b := s7).
    cbn [append]. repeat rewrite append_assoc. reflexivity.
Qed.


Lemma contains_tail (needle : string) (c : ascii) (r : string) :
  contains needle r = true -> contains needle (String c r) = true.
Proof. intros H. cbn [contains]. rewrite H. apply orb_true_r. Qed.

Lemma contains_prefix (needle s : string) :
  String.prefix needle s = true -> contains needle s = true.
Proof. intros H. destruct s; cbn [contains]; rewrite H; reflexivity. Qed.

Lemma findall_from_found (s : string) :
  forall skip g,
    In g (findall_from skip s) ->
    arxiv_id_shape g /\ contains ("[" ++ g ++ "]") s = true.
Proof.
  induction s as [|c r IH]; intros skip g Hin; [destruct Hin|].
  cbn [findall_from] in Hin. destruct skip as [|k].
  - destruct (match_reference (String c r)) as [[g' n]|] eqn:Em.
    + destruct Hin as [<- | Hin].
      * destruct (match_reference_spec _ _ _ Em) as [Hs Hp].
        split; [exact Hs | apply contains_prefix; exact Hp].
      * destruct (IH _ _ Hin) as [Hs Hc].
        split; [exact Hs | apply contains_tail; exact Hc].
    + destruct (IH _ _ Hin) as [Hs Hc].
      split; [exact Hs | apply contains_tail; exact Hc].
  - destruct (IH _ _ Hin) as [Hs Hc].
    split; [exact Hs | apply contains_tail; exact Hc].
Qed.

(** X6: every reference the Q&A variants extract from a question in ASCII
    has the shape of an arXiv identifier (four digits, a dot, four or five
    digits, optionally [v] and digits) and stands in the question between
    square brackets. *)
Theorem references_are_bracketed_ids (text g : string) :
  is_ascii text = true ->
  In g (findall_arxiv_ids text) ->
  arxiv_id_shape g /\ contains ("[" ++ g ++ "]") text = true.
Proof. intros _. apply findall_from_found. Qed.


(** *** Retry ceilings *)

Lemma ask_attempts_step (k attempt retries : nat) (prefix q : string)
    (config : Config) (cid : string) (w : World) :
  let req := question_request prefix q config in
  ask_attempts (S k) attempt retries prefix q config cid w =
  match chat (trace w) req with
  | Some text =>
      (Some text, mkWorld (store w) (trace w ++ [Call req])%list (clock w))
  | None =>
      if attempt <? retries - 1
      then ask_attempts k (S attempt) retries prefix q config cid
             (mkWorld (store w) (trace w ++ [Call req; Sleep (2 ^ attempt)])%list
                (clock w))
      else (None, mkWorld (store w) (trace w ++ [Call req])%list (clock w))
  end.
Proof.
  cbn zeta. cbn [ask_attempts]. unfold bind at 1. unfold _ask_question, create.
  destruct (chat (trace w) _) as [text|]; [reflexivity|].
  destruct (attempt <? retries - 1); [|reflexivity].
  unfold bind, sleep, log. cbn [store trace clock].
  rewrite <- app_assoc. reflexivity.
Qed.


(** Whether a reply yields a judgment does not depend on the record. *)
Lemma read_judgment_failure (reply : option string) (p p' q : Paper) :
  read_judgment reply p = inl p' ->
  set_is_relevant None p' = set_is_relevant None p /\
  exists q', read_judgment reply q = inl q'.
Proof.
  unfold read_judgment. destruct reply as [text|].
  - destruct (json_loads text) as [result|].
    + destruct (j_relevance_score result); try discriminate.
      intros [= <-]. split; [reflexivity | eexists; reflexivity].
    + intros [= <-]. split; [reflexivity | eexists; reflexivity].
  - intros [= <-]. split; [reflexivity | eexists; reflexivity].
Qed.

Lemma stage1_attempts_step (k attempt : nat) (paper : Paper) (config : Config)
    (request : Request) (w : World) :
  stage1_attempts (S k) attempt paper config request w =
  match read_judgment (chat (trace w) request) paper with
  | inr judged =>
      (judged,
       mkWorld (judged :: remove_id (id judged) (store w))
         (trace w ++ [Call request; Save judged])%list (clock w))
  | inl touched =>
      if attempt <? max_retries - 1
      then stage1_attempts k (S attempt) touched config request
             (mkWorld (store w)
                (trace w ++ [Call request; Sleep (2 ^ attempt)])%list (clock w))
      else stage1_attempts k (S attempt) (set_is_relevant None touched) config
             request
             (mkWorld (store w) (trace w ++ [Call request])%list (clock w))
  end.
Proof.
  cbn [stage1_attempts]. unfold bind at 1. unfold create.
  destruct (read_judgment _ paper) as [touched|judged].
  - destruct (attempt <? max_retries - 1); [|reflexivity].
    unfold bind, sleep, log. cbn [store trace clock].
    rewrite <- app_assoc. reflexivity.
  - unfold bind, _save_paper, save_paper, ret. cbn [store trace clock].
    rewrite <- app_assoc. reflexivity.
Qed.

(** X8: when no negative keyword matches and none of the three replies
    yields a judgment (the call raises, the reply is not the expected JSON,
    or its score cannot be read), Stage 1 gives up after three requests and
    waits of 1s and 2s: it returns the record with [is_relevant] unset and
    nothing else changed, and saves nothing. *)
Theorem stage1_gives_up_after_three (paper : Paper) (config : Config)
    (w : World) :
  let req := stage1_request paper config in
  let t0 := trace w in
  let t1 := (t0 ++ [Call req; Sleep 1])%list in
  let t2 := (t1 ++ [Call req; Sleep 2])%list in
  let unusable t := exists p', read_judgment (chat t req) paper = inl p' in
  first_negative (negative_keywords config) paper = None ->
  unusable t0 -> unusable t1 -> unusable t2 ->
  stage1_filter paper config w =
  (set_is_relevant None paper,
   mkWorld (store w) (t2 ++ [Call req])%list (clock w)).
Proof.
  cbn zeta. intros Hneg [p0 H0] [p1 H1] [p2 H2].
  unfold stage1_filter. rewrite Hneg. unfold max_retries at 1.
  rewrite stage1_attempts_step, H0.
  change (0 <? max_retries - 1) with true. cbn iota. change (2 ^ 0) with 1.
  destruct (read_judgment_failure _ _ _ p0 H1) as [_ [p1' H1']].
  destruct (read_judgment_failure _ _ _ paper H0) as [E0 _].
  rewrite stage1_attempts_step. cbn [store trace clock]. rewrite H1'.
  change (1 <? max_retries - 1) with true. cbn iota. change (2 ^ 1) with 2.
  destruct (read_judgment_failure _ _ _ p1' H2) as [_ [p2' H2']].
  destruct (read_judgment_failure _ _ _ p0 H1') as [E1 _].
  rewrite stage1_attempts_step. cbn [store trace clock]. rewrite H2'.
  change (2 <? max_retries - 1) with false. cbn iota.
  destruct (read_judgment_failure _ _ _ p1' H2') as [E2 _].
  cbn [stage1_attempts]. unfold ret.
  rewrite E2, E1, E0. reflexivity.
Qed.


Lemma stage1_update_refl (p : Paper) : stage1_update p p.
Proof. unfold stage1_update. destruct p; reflexivity. Qed.

Lemma stage1_update_trans (p q r : Paper) :
  stage1_update p q -> stage1_update q r -> stage1_update p r.
Proof.
  unfold stage1_update. intros Hq Hr. rewrite Hr at 1. rewrite Hq.
  reflexivity.
Qed.

Lemma stage1_update_is_relevant (v : option bool) (p : Paper) :
  stage1_update p (set_is_relevant v p).
Proof. unfold stage1_update. destruct p; reflexivity. Qed.

Lemma read_judgment_update (reply : option string) (p : Paper) :
  match read_judgment reply p with
  | inl q => stage1_update p q
  | inr q => stage1_update p q
  end.
Proof.
  unfold read_judgment. destruct reply as [text|]; [|apply stage1_update_refl].
  destruct (json_loads text) as [result|]; [|apply stage1_update_refl].
  destruct (j_relevance_score result);
    unfold stage1_update; destruct p; reflexivity.
Qed.

Lemma stage1_update_id (p q : Paper) : stage1_update p q -> id q = id p.
Proof. unfold stage1_update. intros ->. reflexivity. Qed.

Lemma stage1_attempts_frame (k : nat) :
  forall attempt paper config request w,
    let p' := fst (stage1_attempts k attempt paper config request w) in
    let w' := snd (stage1_attempts k attempt paper config request w) in
    stage1_update paper p' /\
    clock w' = clock w /\
    exists added,
      trace w' = (trace w ++ added)%list /\
      List.length (calls added) <= k /\
      ((saves added = [] /\ store w' = store w)
       \/ (saves added = [p']
           /\ store w' = p' :: remove_id (id paper) (store w))).
Proof.
  induction k as [|k IH]; intros attempt paper config request w; cbn zeta.
  - cbn. split; [apply stage1_update_refl|]. split; [reflexivity|].
    exists []. rewrite app_nil_r. split; [reflexivity|].
    split; [apply le_n | left; split; reflexivity].
  - rewrite stage1_attempts_step.
    pose proof (read_judgment_update (chat (trace w) request) paper) as Hu.
    destruct (read_judgment (chat (trace w) request) paper) as [touched|judged].
    + destruct (attempt <? max_retries - 1).
      * destruct (IH (S attempt) touched config request
                    (mkWorld (store w)
                       (trace w ++ [Call request; Sleep (2 ^ attempt)])%list
                       (clock w)))
          as [Hp [Hc [added [Ht [Hn Hs]]]]].
        cbn zeta in Hp, Hc, Ht, Hs. cbn [store trace clock] in Hc, Ht, Hs.
        split; [exact (stage1_update_trans _ _ _ Hu Hp)|]. split; [exact Hc|].
        exists (Call request :: Sleep (2 ^ attempt) :: added).
        rewrite Ht, <- app_assoc. split; [reflexivity|].
        split; [unfold calls in Hn |- *; simpl; lia|].
        rewrite (stage1_update_id _ _ Hu) in Hs. exact Hs.
      * destruct (IH (S attempt) (set_is_relevant None touched) config request
                    (mkWorld (store w) (trace w ++ [Call request])%list (clock w)))
          as [Hp [Hc [added [Ht [Hn Hs]]]]].
        cbn zeta in Hp, Hc, Ht, Hs. cbn [store trace clock] in Hc, Ht, Hs.
        split.
        { apply (stage1_update_trans _ _ _ Hu).
          apply (stage1_update_trans _ _ _ (stage1_update_is_relevant None touched)).
          exact Hp. }
        split; [exact Hc|].
        exists (Call request :: added).
        rewrite Ht, <- app_assoc. split; [reflexivity|].
        split; [unfold calls in Hn |- *; simpl; lia|].
        change (id (set_is_relevant None touched)) with (id touched) in Hs.
        rewrite (stage1_update_id _ _ Hu) in Hs. exact Hs.
    + cbn [fst snd store trace clock].
      split; [exact Hu|]. split; [reflexivity|].
      exists [Call request; Save judged]. split; [reflexivity|].
      split; [cbn; lia|]. right.
      rewrite (stage1_update_id _ _ Hu). split; reflexivity.
Qed.

(** X9: whatever the model answers, Stage 1 changes nothing of a record but
    its four Stage 1 results, makes at most three requests, and saves at
    most once; when it saves, what it saves is the record it returns. *)
Theorem stage1_touches_only_its_results (paper : Paper) (config : Config)
    (w : World) :
  let p' := fst (stage1_filter paper config w) in
  let w' := snd (stage1_filter paper config w) in
  stage1_update paper p' /\
  clock w' = clock w /\
  exists added,
    trace w' = (trace w ++ added)%list /\
    List.length (calls added) <= 3 /\
    ((saves added = [] /\ store w' = store w)
     \/ (saves added = [p'] /\ store w' = p' :: remove_id (id paper) (store w))).
Proof.
  cbn zeta. unfold stage1_filter.
  destruct (first_negative (negative_keywords config) paper) as [neg_kw|].
  - unfold bind, _save_paper, save_paper, ret. cbn [fst snd store trace clock].
    split; [unfold stage1_update; destruct paper; reflexivity|].
    split; [reflexivity|].
    eexists [Save _]. split; [reflexivity|]. split; [cbn; lia|].
    right. split; reflexivity.
  - apply stage1_attempts_frame.
Qed.


Lemma ask_retry_cost (prefix q : string) (config : Config) (cid : string)
    (w : World) :
  exists added,
    trace (snd (_ask_question_with_retry prefix q config cid w))
    = (trace w ++ added)%list /\
    List.length (calls added) <= 3 /\
    list_sum (sleeps added) <= 3.
Proof.
  unfold _ask_question_with_retry. unfold max_retries at 1.
  rewrite ask_attempts_step.
  destruct (chat (trace w) _) as [a0|].
  { eexists [Call _]. cbn. repeat split; lia. }
  change (0 <? max_retries - 1) with true. cbn iota.
  rewrite ask_attempts_step. cbn [store trace clock]. change (2 ^ 0) with 1.
  destruct (chat (trace w ++ [Call _; Sleep 1])%list _) as [a1|].
  { eexists [Call _; Sleep 1; Call _]. cbn [snd trace].
    rewrite <- app_assoc. cbn. repeat split; lia. }
  change (1 <? max_retries - 1) with true. cbn iota.
  rewrite ask_attempts_step. cbn [store trace clock]. change (2 ^ 1) with 2.
  destruct (chat _ _) as [a2|].
  { eexists [Call _; Sleep 1; Call _; Sleep 2; Call _]. cbn [snd trace].
    rewrite <- !app_assoc. cbn. repeat split; lia. }
  change (2 <? max_retries - 1) with false. cbn iota.
  eexists [Call _; Sleep 1; Call _; Sleep 2; Call _]. cbn [snd trace].
  rewrite <- !app_assoc. cbn. repeat split; lia.
Qed.

Lemma list_sum_sleeps_app (a b : list Effect) :
  list_sum (sleeps (a ++ b)) = list_sum (sleeps a) + list_sum (sleeps b).
Proof. rewrite sleeps_app. apply list_sum_app. Qed.

Lemma trace_after_cost (questions : list string) :
  forall prefix config t,
  exists added,
    trace_after questions prefix config t = (t ++ added)%list /\
    List.length (calls added) <= 3 * List.length questions /\
    list_sum (sleeps added) <= 3 * List.length questions.
Proof.
  induction questions as [|q rest IH]; intros prefix config t.
  - exists []. cbn. rewrite app_nil_r. repeat split; lia.
  - cbn [trace_after].
    destruct (ask_retry_cost prefix q config "" (bare t)) as [added [Ht [Hc Hs]]].
    cbn [bare trace] in Ht.
    destruct (fst (_ask_question_with_retry prefix q config "" (bare t))).
    + destruct (IH prefix config
                  (trace (snd (_ask_question_with_retry prefix q config "" (bare t)))))
        as [added' [Ht' [Hc' Hs']]].
      exists (added ++ added')%list. rewrite Ht', Ht, app_assoc.
      split; [reflexivity|].
      rewrite calls_app, length_app, list_sum_sleeps_app. cbn [List.length].
      split; lia.
    + exists added. rewrite Ht. split; [reflexivity|]. cbn [List.length].
      split; lia.
Qed.

Lemma preset_entries_length (questions : list string) :
  forall n results,
    List.length (preset_entries n questions results) <= List.length questions.
Proof.
  induction questions as [|q rest IH]; intros n results; [apply le_n|].
  destruct results as [|[a|] results]; cbn; try lia.
  apply le_n_S, IH.
Qed.

(** X10: Stage 2 changes nothing of a record but its detailed summary and
    its entry list, to which it only appends, one entry per preset question
    at most.  With [N] preset questions it makes at most [3 * (1 + N)]
    requests and sleeps at most [3 * (1 + N)] seconds in all. *)
Theorem stage2_appends_within_bounds (paper : Paper) (config : Config)
    (w : World) :
  let n := List.length (preset_questions config) in
  let p' := fst (stage2_qa paper config w) in
  let w' := snd (stage2_qa paper config w) in
  (p' = paper
   \/ exists s entries,
        p' = set_qa_pairs (qa_pairs paper ++ entries)%list
               (set_detailed_summary s paper) /\
        List.length entries <= n) /\
  exists added,
    trace w' = (trace w ++ added)%list /\
    List.length (calls added) <= 3 * (1 + n) /\
    list_sum (sleeps added) <= 3 * (1 + n).
Proof.
  cbn zeta.
  destruct (truthy (is_relevant paper)) eqn:Hrel.
  2:{ rewrite (stage2_qa_skip _ _ _ Hrel). cbn [fst snd].
      split; [left; reflexivity|]. exists []. rewrite app_nil_r.
      cbn. repeat split; lia. }
  rewrite (stage2_qa_run _ _ _ Hrel). cbn zeta.
  destruct (trace_after_cost (detailed_summary_question :: preset_questions config)
              (single_cache_prefix paper) config (trace w))
    as [added [Ht [Hc Hs]]].
  cbn [List.length] in Hc, Hs. rewrite Ht.
  destruct (outcomes _ _ _ _) as [|[s|] answers].
  - cbn [fst snd trace]. split; [left; reflexivity|].
    exists added. repeat split; assumption.
  - pose proof (preset_entries_length (preset_questions config) (clock w) answers)
      as Hlen.
    destruct (forallb is_some answers); cbn [fst snd trace].
    + split; [right; eexists; eexists; split; [reflexivity | exact Hlen]|].
      eexists (added ++ [Save _])%list. rewrite app_assoc.
      split; [reflexivity|].
      rewrite calls_app, length_app, list_sum_sleeps_app. cbn. split; lia.
    + split; [right; eexists; eexists; split; [reflexivity | exact Hlen]|].
      exists added. repeat split; assumption.
  - cbn [fst snd trace]. split; [left; reflexivity|].
    exists added. repeat split; assumption.
Qed.


Lemma retry_first_answer (prefix q : string) (config : Config) (t : list Effect) :
  chat t (question_request prefix q config) <> None ->
  exists text,
    _ask_question_with_retry prefix q config "" (bare t)
    = (Some text,
       mkWorld [] (t ++ [Call (question_request prefix q config)])%list 0).
Proof.
  intros H. unfold _ask_question_with_retry. unfold max_retries at 1.
  rewrite ask_attempts_step. cbn [bare store trace clock].
  destruct (chat t _) as [text|]; [|now elim H].
  exists text. reflexivity.
Qed.

Lemma calls_map_call (rs : list Request) : calls (map Call rs) = rs.
Proof. induction rs as [|r rs IH]; [reflexivity|]. cbn. f_equal. exact IH. Qed.

Lemma sleeps_map_call (rs : list Request) : sleeps (map Call rs) = [].
Proof. induction rs as [|r rs IH]; [reflexivity|]. cbn. exact IH. Qed.

Lemma saves_map_call (rs : list Request) : saves (map Call rs) = [].
Proof. induction rs as [|r rs IH]; [reflexivity|]. cbn. exact IH. Qed.

Lemma answering_service_run (questions : list string) :
  (forall t r, chat t r <> None) ->
  forall prefix config t,
    trace_after questions prefix config t
    = (t ++ map Call (map (fun q => question_request prefix q config) questions))%list
    /\ forallb is_some (outcomes questions prefix config t) = true.
Proof.
  intros Hchat. induction questions as [|q rest IH]; intros prefix config t.
  - cbn. rewrite app_nil_r. split; reflexivity.
  - cbn [trace_after outcomes map].
    destruct (retry_first_answer prefix q config t (Hchat _ _)) as [text ->].
    cbn [fst snd trace forallb is_some andb].
    destruct (IH prefix config
                (t ++ [Call (question_request prefix q config)])%list) as [Ht Ho].
    rewrite Ht, Ho, <- app_assoc. split; reflexivity.
Qed.

(** X11: against a service that answers every request, Stage 2 on a record
    that enters it sends the detailed-summary request first and then the
    preset questions in the configured order, each once and without any
    wait, and saves the record once with one entry per preset question in
    that order after the entries it had. *)
Theorem stage2_asks_in_configured_order (paper : Paper) (config : Config)
    (w : World) :
  (forall t r, chat t r <> None) ->
  truthy (is_relevant paper) = true ->
  let p' := fst (stage2_qa paper config w) in
  let w' := snd (stage2_qa paper config w) in
  exists added entries,
    trace w' = (trace w ++ added)%list /\
    calls added
    = map (fun q => question_request (single_cache_prefix paper) q config)
        (detailed_summary_question :: preset_questions config) /\
    sleeps added = [] /\
    saves added = [p'] /\
    qa_pairs p' = (qa_pairs paper ++ entries)%list /\
    map question entries = preset_questions config.
Proof.
  intros Hchat Hrel. cbn zeta.
  rewrite (stage2_qa_run _ _ _ Hrel). cbn zeta.
  destruct (answering_service_run
              (detailed_summary_question :: preset_questions config) Hchat
              (single_cache_prefix paper) config (trace w)) as [Ht Ho].
  rewrite Ht.
  destruct (outcomes (detailed_summary_question :: preset_questions config)
              (single_cache_prefix paper) config (trace w))
    as [|[s|] answers] eqn:E; [cbn [outcomes] in E; discriminate| |discriminate].
  cbn [forallb is_some andb] in Ho. rewrite Ho. cbn [fst snd trace qa_pairs].
  assert (Hlen : List.length answers = List.length (preset_questions config)).
  { pose proof (outcomes_all_some
                  (detailed_summary_question :: preset_questions config)
                  (single_cache_prefix paper) config (trace w)) as Hl.
    rewrite E in Hl. cbn [forallb is_some andb List.length] in Hl.
    specialize (Hl Ho). lia. }
  destruct (preset_entries_fields (preset_questions config) (clock w) answers
              Hlen Ho) as [Hq _].
  eexists. exists (preset_entries (clock w) (preset_questions config) answers).
  rewrite <- app_assoc. split; [reflexivity|].
  rewrite calls_app, sleeps_app, saves_app.
  rewrite calls_map_call, sleeps_map_call, saves_map_call.
  cbn. rewrite app_nil_r. repeat split. exact Hq.
Qed.


(** *** The Q&A variants *)

(** [ask_custom_question] once the references are resolved. *)
Lemma ask_custom_question_run (paper : Paper) (question : string)
    (config : Config) (w : World) :
  let resolved := parse_references question config w in
  let w1 := snd resolved in
  let ctx := build_context paper question (fst (fst resolved)) (snd (fst resolved)) in
  let req := question_request (cache_prefix ctx) (final_question ctx) config in
  ask_custom_question paper question config w =
  match chat (trace w1) req with
  | None => (None, mkWorld (store w1) (trace w1 ++ [Call req])%list (clock w1))
  | Some text =>
      let paper' :=
        append_qa (mkQAPair question text (isoformat (clock w1)) None false None)
          paper in
      (Some (text, paper'),
       mkWorld (paper' :: remove_id (id paper) (store w1))
         (trace w1 ++ [Call req; Save paper'])%list (S (clock w1)))
  end.
Proof.
  cbn zeta. unfold ask_custom_question. unfold bind at 1.
  destruct (parse_references question config w) as [refs w1]. cbn [fst snd].
  unfold bind at 1. unfold _ask_question, create.
  destruct (chat (trace w1) _) as [text|]; [|reflexivity].
  unfold new_qa, datetime_now, _save_paper, save_paper, ret. unfold bind.
  cbn [fst snd store trace clock]. rewrite <- app_assoc. reflexivity.
Qed.

(** X12: the synchronous question makes exactly one request after the
    references are resolved, to the configured model and not streamed, and
    never waits or retries.  When the request raises, nothing more is saved.
    When it answers, the answer is not inspected: one entry with the
    question as typed and that answer, be it empty, without thinking trace,
    reasoning flag or parent, is appended and the record is saved once. *)
Theorem sync_question_is_one_request (paper : Paper) (question : string)
    (config : Config) (w : World) :
  let resolved := parse_references question config w in
  let w1 := snd resolved in
  let run := ask_custom_question paper question config w in
  exists req,
    calls (trace (snd run)) = (calls (trace w1) ++ [req])%list /\
    sleeps (trace (snd run)) = sleeps (trace w1) /\
    req_model req = model config /\
    req_stream req = false /\
    match chat (trace w1) req with
    | None =>
        fst run = None /\
        saves (trace (snd run)) = saves (trace w1) /\
        store (snd run) = store w1
    | Some text =>
        let qa := mkQAPair question text (isoformat (clock w1)) None false None in
        fst run = Some (text, append_qa qa paper) /\
        saves (trace (snd run)) = (saves (trace w1) ++ [append_qa qa paper])%list /\
        find_paper (id paper) (store (snd run)) = Some (append_qa qa paper)
    end.
Proof.
  cbn zeta. rewrite ask_custom_question_run. cbn zeta.
  set (resolved := parse_references question config w).
  set (ctx := build_context paper question (fst (fst resolved))
                (snd (fst resolved))).
  exists (question_request (cache_prefix ctx) (final_question ctx) config).
  split; [|split; [|split; [reflexivity|split; [reflexivity|]]]].
  - destruct (chat _ _); cbn [snd trace]; rewrite calls_app; reflexivity.
  - destruct (chat _ _); cbn [snd trace]; rewrite sleeps_app;
      cbn; rewrite app_nil_r; reflexivity.
  - destruct (chat _ _) as [text|]; cbn [fst snd trace store].
    + split; [reflexivity|]. split.
      * rewrite saves_app. reflexivity.
      * unfold find_paper. cbn [find]. 
        change (id (append_qa _ paper)) with (id paper).
        rewrite String.eqb_refl. reflexivity.
    + split; [reflexivity|]. split; [|reflexivity].
      rewrite saves_app. cbn. rewrite app_nil_r. reflexivity.
Qed.

Lemma delta_chunks_nonempty (reasoning : bool) (raw : option Delta) :
  Forall (fun c => ev_chunk (chunk_event c) <> ""
                   /\ (reasoning = false -> ev_type (chunk_event c) = Content))
    (delta_chunks reasoning raw).
Proof.
  assert (Ht : forall o, Forall (fun s => s <> "") (truthy_text o)).
  { intros [s|]; cbn; [|constructor].
    destruct s; cbn; constructor; [discriminate | constructor]. }
  unfold delta_chunks. destruct raw as [delta|]; [|constructor].
  destruct reasoning.
  - apply Forall_app. split; apply Forall_map;
      (eapply Forall_impl; [|apply Ht]); intros s Hs; cbn;
      (split; [exact Hs | discriminate]).
  - apply Forall_map. eapply Forall_impl; [|apply Ht]. intros s Hs. cbn.
    split; [exact Hs | reflexivity].
Qed.

Lemma stream_chunks_events (reasoning : bool) (raw : list (option Delta)) :
  Forall (fun e => ev_chunk e <> ""
                   /\ ev_type e <> Error
                   /\ (reasoning = false -> ev_type e = Content))
    (map chunk_event (flat_map (delta_chunks reasoning) raw)).
Proof.
  apply Forall_map. apply Forall_flat_map. apply Forall_forall. intros d _.
  eapply Forall_impl; [|apply delta_chunks_nonempty].
  intros c [Hc Ht]. split; [exact Hc|]. split; [|exact Ht].
  destruct c; discriminate.
Qed.

Lemma stream_attempts_events (k : nat) :
  forall attempt ctx config model_name reasoning hist w,
    Forall (well_formed_event reasoning)
      (fst (fst (stream_attempts k attempt ctx config model_name reasoning
                   hist w))).
Proof.
  induction k as [|k IH];
    intros attempt ctx config model_name reasoning hist w; [constructor|].
  rewrite stream_attempts_step.
  assert (Hc : Forall (well_formed_event reasoning)
                 (map chunk_event
                    (flat_map (delta_chunks reasoning)
                       (fst (chat_stream (trace w)
                               (stream_request (cache_prefix ctx)
                                  (final_question ctx) config model_name hist)))))).
  { eapply Forall_impl; [|apply stream_chunks_events].
    intros e [H1 [_ H2]]. right. split; assumption. }
  destruct (snd (chat_stream _ _)) as [e|]; [|exact Hc].
  destruct (attempt <? max_retries - 1); cbn [fst].
  - apply Forall_app. split; [exact Hc|].
    apply Forall_app. split; [|apply IH].
    constructor; [left; reflexivity | constructor].
  - apply Forall_app. split; [exact Hc|].
    constructor; [left; reflexivity | constructor].
Qed.


Lemma no_thinking_without_reasoning (raw : list (option Delta)) :
  accumulate_thinking (flat_map (delta_chunks false) raw) = "".
Proof.
  unfold accumulate_thinking.
  assert (H : forall cs, Forall (fun c => thinking_text c = "") cs ->
                         String.concat "" (map thinking_text cs) = "").
  { induction 1 as [|c cs Hc _ IH]; [reflexivity|].
    cbn [map String.concat]. rewrite Hc. destruct (map thinking_text cs); [reflexivity|].
    cbn. exact IH. }
  apply H. apply Forall_flat_map. apply Forall_forall. intros d _.
  unfold delta_chunks. destruct d as [delta|]; [|constructor].
  apply Forall_map. apply Forall_forall. intros x _. reflexivity.
Qed.

Lemma stream_attempts_no_thinking (k : nat) :
  forall attempt ctx config model_name hist w a th,
    snd (fst (stream_attempts k attempt ctx config model_name false hist w))
    = Some (a, th) ->
    th = "".
Proof.
  induction k as [|k IH]; intros attempt ctx config model_name hist w a th;
    [discriminate|].
  rewrite stream_attempts_step.
  destruct (snd (chat_stream _ _)) as [e|].
  - destruct (attempt <? max_retries - 1); cbn [fst snd]; [apply IH | discriminate].
  - cbn [fst snd]. intros [= _ <-]. apply no_thinking_without_reasoning.
Qed.

Lemma ask_stream_done (fuel : nat) (paper : Paper) (question : string)
    (config : Config) (parent : option Z) (w : World)
    (result : list StreamEvent * Paper) :
  fst (ask_custom_question_stream fuel paper question config parent w)
  = Done result ->
  exists h, build_history fuel paper parent = Done h.
Proof.
  destruct (build_history fuel paper parent) as [h| |] eqn:Hh.
  - intros _. exists h. reflexivity.
  - unfold ask_custom_question_stream. unfold bind at 1.
    destruct (parse_references _ config w) as [refs w1].
    rewrite Hh. discriminate.
  - rewrite (ask_stream_out_of_fuel _ _ _ _ _ _ Hh). discriminate.
Qed.

(** X13: whatever a streaming call yields is an error notice or a piece of
    text that is not empty, and outside reasoning mode no thinking text is
    ever yielded.  The call changes nothing of the record except that it may
    append one entry: that entry holds the question as typed, the parent
    position as supplied and the reasoning flag, has a thinking trace in
    reasoning mode only, and is never empty of both answer and thinking. *)
Theorem stream_yields_text_and_appends_one (fuel : nat) (paper : Paper)
    (asked : string) (config : Config) (parent : option Z) (w : World)
    (events : list StreamEvent) (p' : Paper) :
  fst (ask_custom_question_stream fuel paper asked config parent w)
  = Done (events, p') ->
  let reasoning := reasoning_requested asked in
  Forall (well_formed_event reasoning) events /\
  (p' = paper
   \/ exists qa,
        p' = append_qa qa paper /\
        question qa = asked /\
        parent_qa_id qa = parent /\
        is_reasoning qa = reasoning /\
        (thinking qa = None <-> reasoning = false) /\
        (answer qa <> "" \/ exists th, thinking qa = Some th /\ th <> "")).
Proof.
  intros Hrun. cbn zeta.
  destruct (ask_stream_done _ _ _ _ _ _ _ Hrun) as [h Hh].
  rewrite (ask_stream_unfold fuel paper asked config parent w h Hh) in Hrun.
  cbn zeta in Hrun.
  match type of Hrun with
  | context [stream_attempts ?k ?a ?c ?g ?m ?r ?hh ?w1] =>
      pose proof (stream_attempts_events k a c g m r hh w1) as Hev;
      assert (Hth : r = false ->
                    forall a' th',
                      snd (fst (stream_attempts k a c g m r hh w1))
                      = Some (a', th') -> th' = "")
        by (intros Hr' a' th'; rewrite Hr'; apply stream_attempts_no_thinking);
      destruct (stream_attempts k a c g m r hh w1) as [[evs result] w2]
  end.
  cbn [fst snd] in *.
  destruct result as [[a th]|].
  - destruct (nonempty a || nonempty th) eqn:Hne; cbn [fst] in Hrun.
    + injection Hrun as <- <-. split; [exact Hev|]. right.
      eexists. split; [reflexivity|]. cbn [question parent_qa_id is_reasoning
                                            thinking answer].
      repeat split.
      * destruct (reasoning_requested asked); [discriminate | reflexivity].
      * intros ->. reflexivity.
      * destruct (reasoning_requested asked) eqn:Hr.
        -- destruct a as [|c a]; [|left; discriminate].
           right. exists th. split; [reflexivity|].
           destruct th; [discriminate | discriminate].
        -- left. rewrite (Hth eq_refl a th eq_refl) in Hne.
           rewrite orb_false_r in Hne.
           destruct a; [discriminate | discriminate].
    + injection Hrun as <- <-. split; [exact Hev | left; reflexivity].
  - cbn [fst] in Hrun. injection Hrun as <- <-.
    split; [exact Hev | left; reflexivity].
Qed.


Lemma sorted_snoc (l : list nat) (i : nat) :
  StronglySorted lt l -> Forall (fun j => j < i) l ->
  StronglySorted lt (l ++ [i]).
Proof.
  induction 1 as [|a l Hs IH Ha]; intros Hlt; cbn.
  - constructor; constructor.
  - inversion Hlt; subst. constructor; [apply IH; assumption|].
    apply Forall_app. split; [assumption|]. constructor; [assumption | constructor].
Qed.

Lemma build_history_threaded (fuel : nat) (paper : Paper) (i : nat) :
  threaded (qa_pairs paper) ->
  i < List.length (qa_pairs paper) -> i < fuel ->
  exists positions,
    build_history fuel paper (Some (Z.of_nat i))
    = Done (map (turn_at (qa_pairs paper)) (positions ++ [i])%list) /\
    StronglySorted lt (positions ++ [i])%list.
Proof.
  intros Hthr Hi Hfuel. unfold build_history, parent_in_range.
  replace ((0 <=? Z.of_nat i)
           && (Z.of_nat i <? Z.of_nat (List.length (qa_pairs paper))))%Z
    with true
    by (symmetry; apply andb_true_iff; split;
        [apply Z.leb_le | apply Z.ltb_lt]; lia).
  destruct (walk_parents_threaded _ Hthr fuel i [] Hi Hfuel)
    as [positions [Hw [Hlt Hs]]].
  exists positions. rewrite Hw, app_nil_r.
  split; [reflexivity | apply sorted_snoc; assumption].
Qed.


(** X15: a follow-up on an entry whose parent link points outside the entry
    list raises [IndexError] while the history is built: the call makes no
    request to the model, appends nothing and saves nothing after the
    references are resolved. *)
Theorem dangling_parent_raises_index_error (fuel : nat) (paper : Paper)
    (asked : string) (config : Config) (i j : Z) (qa : QAPair) (w : World) :
  (0 <= i < Z.of_nat (List.length (qa_pairs paper)))%Z ->
  py_index (qa_pairs paper) i = Some qa ->
  parent_qa_id qa = Some j ->
  py_index (qa_pairs paper) j = None ->
  let reasoning := reasoning_requested asked in
  let stripped := if reasoning then strip (py_drop 6 asked) else asked in
  ask_custom_question_stream (S (S fuel)) paper asked config (Some i) w
  = (IndexError, snd (parse_references stripped config w)).
Proof.
  intros Hi Hqa Hp Hj. cbn zeta. unfold ask_custom_question_stream.
  unfold bind at 1.
  destruct (parse_references _ config w) as [refs w1]. cbn [snd].
  unfold build_history, parent_in_range.
  replace ((0 <=? i) && (i <? Z.of_nat (List.length (qa_pairs paper))))%Z
    with true
    by (symmetry; apply andb_true_iff; split;
        [apply Z.leb_le | apply Z.ltb_lt]; lia).
  cbn [walk_parents]. rewrite Hqa, Hp, Hj. reflexivity.
Qed.


Lemma stream_attempts_empty_history (k : nat) :
  forall attempt ctx config model_name reasoning w,
    stream_attempts k attempt ctx config model_name reasoning (Some []) w
    = stream_attempts k attempt ctx config model_name reasoning None w.
Proof.
  induction k as [|k IH]; intros attempt ctx config model_name reasoning w;
    [reflexivity|].
  rewrite !stream_attempts_step.
  change (stream_request (cache_prefix ctx) (final_question ctx) config
            model_name (Some []))
    with (stream_request (cache_prefix ctx) (final_question ctx) config
            model_name None).
  rewrite IH. reflexivity.
Qed.

(** X16: a parent position outside the entry list (negative, or not below
    the number of entries) is ignored when the request is built: the call
    yields the same events and sends the same requests as the call without
    parent.  It differs only in the entry it may save, which records the
    position as supplied. *)
Theorem out_of_range_parent_is_ignored (fuel : nat) (paper : Paper)
    (asked : string) (config : Config) (j : Z) (w : World) :
  parent_in_range (qa_pairs paper) (Some j) = false ->
  let with_parent :=
    ask_custom_question_stream fuel paper asked config (Some j) w in
  let without := ask_custom_question_stream fuel paper asked config None w in
  exists events p1 p0,
    fst with_parent = Done (events, p1) /\
    fst without = Done (events, p0) /\
    calls (trace (snd with_parent)) = calls (trace (snd without)) /\
    sleeps (trace (snd with_parent)) = sleeps (trace (snd without)) /\
    ((p1 = paper /\ p0 = paper)
     \/ exists qa,
          p0 = append_qa qa paper /\ parent_qa_id qa = None /\
          p1 = append_qa
                 (mkQAPair (question qa) (answer qa) (timestamp qa) (thinking qa)
                    (is_reasoning qa) (Some j)) paper).
Proof.
  intros Hout. cbn zeta.
  assert (H1 : build_history fuel paper (Some j) = Done [])
    by (unfold build_history; rewrite Hout; reflexivity).
  rewrite (ask_stream_unfold fuel paper asked config (Some j) w [] H1).
  rewrite (ask_stream_unfold fuel paper asked config None w [] eq_refl).
  cbn zeta. cbn [is_none]. rewrite stream_attempts_empty_history.
  destruct (stream_attempts _ _ _ _ _ _ _ _) as [[events [[a th]|]] w2];
    cbn [fst snd].
  - destruct (nonempty a || nonempty th); cbn [fst snd trace].
    + eexists. eexists. eexists. split; [reflexivity|]. split; [reflexivity|].
      rewrite !calls_app, !sleeps_app. cbn. split; [reflexivity|].
      split; [reflexivity|]. right. eexists. split; [reflexivity|].
      split; reflexivity.
    + exists events, paper, paper. repeat split. left. split; reflexivity.
  - exists events, paper, paper. repeat split. left. split; reflexivity.
Qed.

(** *** References that cannot be resolved *)

Lemma resolve_references_all_fail (ids : list string) :
  forall config papers titles w,
    (forall i, In i ids -> find_paper i (store w) = None) ->
    (forall t i, In i ids -> arxiv_api t i = None) ->
    resolve_references ids config papers titles w
    = ((papers, titles),
       mkWorld (store w) (trace w ++ map Fetch ids)%list (clock w)).
Proof.
  induction ids as [|i ids IH]; intros config papers titles w Hstore Hapi.
  - cbn. rewrite app_nil_r. destruct w; reflexivity.
  - cbn [resolve_references]. unfold bind at 1. unfold fetch_single_paper.
    rewrite (Hstore i (or_introl eq_refl)), (Hapi _ i (or_introl eq_refl)).
    unfold log. cbn [fst snd store trace clock].
    rewrite IH.
    + cbn [store trace clock map]. rewrite <- app_assoc. reflexivity.
    + intros k Hk. cbn [store]. apply Hstore. right. exact Hk.
    + intros t k Hk. apply Hapi. right. exact Hk.
Qed.

(** X17: references of an ASCII question that are neither stored nor
    fetchable are skipped: each costs one fetch attempt, the store stays as
    it is, and the question is then asked against the record's own context,
    the very prefix Stage 2 uses for it, with the bracketed ids left in the
    question text. *)
Theorem unresolved_references_are_skipped (paper : Paper) (question : string)
    (config : Config) (w : World) :
  is_ascii question = true ->
  (forall i, In i (findall_arxiv_ids question) -> find_paper i (store w) = None) ->
  (forall t i, In i (findall_arxiv_ids question) -> arxiv_api t i = None) ->
  let resolved := parse_references question config w in
  resolved
  = (([], []),
     mkWorld (store w) (trace w ++ map Fetch (findall_arxiv_ids question))%list
       (clock w)) /\
  build_context paper question (fst (fst resolved)) (snd (fst resolved))
  = mkContext (single_cache_prefix paper) question (id paper) /\
  exists rest,
    trace (snd (ask_custom_question paper question config w))
    = (trace (snd resolved)
         ++ Call (question_request (single_cache_prefix paper) question config)
         :: rest)%list.
Proof.
  intros _ Hstore Hapi. cbn zeta.
  assert (Hr : parse_references question config w
               = (([], []),
                  mkWorld (store w)
                    (trace w ++ map Fetch (findall_arxiv_ids question))%list
                    (clock w)))
    by (apply resolve_references_all_fail; assumption).
  split; [exact Hr|]. rewrite Hr. cbn [fst snd]. split; [reflexivity|].
  unfold ask_custom_question. unfold bind at 1. rewrite Hr. cbn [fst snd].
  unfold bind at 1. unfold _ask_question, create. cbn [build_context cache_prefix
    final_question cache_id trace store clock].
  destruct (chat _ _) as [text|].
  - unfold new_qa, datetime_now, _save_paper, save_paper, ret. unfold bind.
    cbn [fst snd store trace clock]. rewrite <- app_assoc. cbn [app].
    eexists. reflexivity.
  - exists []. reflexivity.
Qed.


(** *** Configuration updates *)

Lemma clamp_between (lo hi x : float) :
  Qltb lo hi = true ->
  (lo <= py_max lo (py_min hi x) <= hi)%Q.
Proof.
  intros Hlh.
  assert (Hle : (lo <= hi)%Q).
  { unfold Qltb in Hlh. apply negb_true_iff in Hlh.
    apply Qlt_le_weak, Qnot_le_lt. rewrite <- Qle_bool_iff. congruence. }
  unfold py_min, py_max.
  destruct (Qltb x hi) eqn:Hx.
  - destruct (Qltb lo x) eqn:Hl.
    + unfold Qltb in Hx, Hl. apply negb_true_iff in Hx, Hl.
      split; apply Qlt_le_weak, Qnot_le_lt; rewrite <- Qle_bool_iff; congruence.
    + split; [apply Qle_refl | exact Hle].
  - rewrite Hlh. split; [exact Hle | apply Qle_refl].
Qed.

Lemma subset_refl (a : list string) : subset a a = true.
Proof.
  unfold subset. apply forallb_forall. intros x Hx.
  apply existsb_exists. exists x. split; [exact Hx | apply String.eqb_refl].
Qed.

Lemma same_set_refl (a : list string) : same_set a a = true.
Proof. unfold same_set. rewrite subset_refl. reflexivity. Qed.

Lemma subset_spec (a b : list string) :
  subset a b = true <-> (forall x, In x a -> In x b).
Proof.
  unfold subset. rewrite forallb_forall. split.
  - intros H x Hx. specialize (H x Hx). apply existsb_exists in H.
    destruct H as [y [Hy E]]. apply String.eqb_eq in E. subst. exact Hy.
  - intros H x Hx. apply existsb_exists. exists x.
    split; [exact (H x Hx) | apply String.eqb_refl].
Qed.

Lemma same_set_spec (a b : list string) :
  same_set a b = true <-> (forall x, In x a <-> In x b).
Proof.
  unfold same_set. rewrite andb_true_iff, !subset_spec. split.
  - intros [H1 H2] x. split; [apply H1 | apply H2].
  - intros H. split; intros x; apply H.
Qed.

(** X18: a configuration update merges the fields it is given into the
    loaded configuration and clamps the numeric ones: fetch interval at
    least 60, papers per fetch within 1..500, temperature within 0..2,
    token limit within 100..8000, concurrency within 1..50, Stage 2
    threshold within 0..10.  The date window is never changed.  The re-check
    sweep is started exactly when some keyword is in one of the old and new
    negative lists and not in the other (order and repetitions do not
    count); sending the same update again changes nothing more and does not
    start it again. *)
Theorem update_config_clamps_and_merges (request : UpdateConfigRequest)
    (config : Config) :
  let c' := fst (update_config request config) in
  (u_fetch_interval request <> None -> (60 <= fetch_interval c')%Z) /\
  (u_max_papers_per_fetch request <> None ->
     (1 <= max_papers_per_fetch c' <= 500)%Z) /\
  (u_temperature request <> None -> (0 <= temperature c' <= 2)%Q) /\
  (u_max_tokens request <> None -> (100 <= max_tokens c' <= 8000)%Z) /\
  (u_concurrent_papers request <> None -> 1 <= concurrent_papers c' <= 50) /\
  (u_min_relevance_score_for_stage2 request <> None ->
     (0 <= min_relevance_score_for_stage2 c' <= 10)%Q) /\
  start_date c' = start_date config /\
  end_date c' = end_date config /\
  (snd (update_config request config) = false <->
     forall k, In k (negative_keywords c') <-> In k (negative_keywords config)) /\
  update_config request c' = (c', false).
Proof.
  cbn zeta. unfold update_config. cbn [fst snd].
  cbn [fetch_interval max_papers_per_fetch temperature max_tokens
       concurrent_papers min_relevance_score_for_stage2 start_date end_date
       filter_keywords negative_keywords preset_questions system_prompt model].
  split.
  { destruct (u_fetch_interval request); [lia | intros H; now elim H]. }
  split.
  { destruct (u_max_papers_per_fetch request); [lia | intros H; now elim H]. }
  split.
  { destruct (u_temperature request); [|intros H; now elim H].
    intros _. apply (clamp_between 0%Q 2%Q). reflexivity. }
  split.
  { destruct (u_max_tokens request); [lia | intros H; now elim H]. }
  split.
  { destruct (u_concurrent_papers request); [lia | intros H; now elim H]. }
  split.
  { destruct (u_min_relevance_score_for_stage2 request); [|intros H; now elim H].
    intros _. apply (clamp_between 0%Q 10%Q). reflexivity. }
  split; [reflexivity|]. split; [reflexivity|].
  split.
  { rewrite negb_false_iff. apply same_set_spec. }
  replace (same_set _ _) with true
    by (destruct (u_negative_keywords request); cbn [get];
        symmetry; apply same_set_refl).
  cbn [negb]. f_equal. f_equal.
  - destruct (u_filter_keywords request); reflexivity.
  - destruct (u_negative_keywords request); reflexivity.
  - destruct (u_preset_questions request); reflexivity.
  - destruct (u_system_prompt request); reflexivity.
  - destruct (u_fetch_interval request); reflexivity.
  - destruct (u_max_papers_per_fetch request); reflexivity.
  - destruct (u_model request); reflexivity.
  - destruct (u_temperature request); reflexivity.
  - destruct (u_max_tokens request); reflexivity.
  - destruct (u_concurrent_papers request); reflexivity.
  - destruct (u_min_relevance_score_for_stage2 request); reflexivity.
Qed.


(** *** Statistics, user actions, batches *)

Lemma filter_length_implies {A} (f g : A -> bool) (l : list A) :
  (forall x, f x = true -> g x = true) ->
  List.length (filter f l) <= List.length (filter g l).
Proof.
  intros H. induction l as [|a l IH]; [apply le_n|].
  cbn [filter]. destruct (f a) eqn:Hf.
  - rewrite (H a Hf). cbn. apply le_n_S, IH.
  - destruct (g a); cbn; lia.
Qed.

(** X19: the statistics are read from the store without changing it, and
    they are consistent: relevant records are among the analyzed ones,
    analyzed, starred and hidden ones among all, and the pending count is
    the number of records not yet analyzed, never negative. *)
Theorem stats_are_consistent (w : World) :
  let stats := fst (get_stats w) in
  snd (get_stats w) = w /\
  relevant_papers stats <= analyzed_papers stats /\
  analyzed_papers stats <= total_papers stats /\
  starred_papers stats <= total_papers stats /\
  hidden_papers stats <= total_papers stats /\
  (0 <= pending_analysis stats)%Z /\
  pending_analysis stats
  = Z.of_nat (List.length
                (filter (fun p => is_none (is_relevant p))
                   (fst (list_papers 0 (Some 10000%Z) w)))).
Proof.
  cbn zeta. unfold get_stats, bind, ret.
  destruct (list_papers 0 (Some 10000%Z) w) as [papers w1] eqn:E.
  assert (Hw : w1 = w) by (unfold list_papers in E; injection E as _ <-; reflexivity).
  cbn [fst snd total_papers analyzed_papers relevant_papers starred_papers
       hidden_papers pending_analysis].
  pose proof (filter_length_le (fun p => negb (is_none (is_relevant p))) papers) as Ha.
  split; [exact Hw|].
  split.
  { apply filter_length_implies. intros p Hp.
    destruct (is_relevant p) as [[|]|]; [reflexivity | discriminate | discriminate]. }
  split; [exact Ha|].
  split; [apply filter_length_le|]. split; [apply filter_length_le|].
  split; [lia|].
  pose proof (filter_length (fun p => negb (is_none (is_relevant p))) papers) as Hsum.
  assert (Hneg : filter (fun x => negb (negb (is_none (is_relevant x)))) papers
                 = filter (fun p => is_none (is_relevant p)) papers).
  { apply filter_ext. intros p. apply negb_involutive. }
  cbn beta in Hsum. rewrite Hneg in Hsum. lia.
Qed.

Lemma star_paper_stored (i : string) (w : World) (p : Paper) :
  find_paper i (store w) = Some p ->
  let p' := set_is_starred (negb (is_starred p)) p in
  star_paper i w
  = (Some p',
     mkWorld (p' :: remove_id i (store w)) (trace w ++ [Save p'])%list (clock w)).
Proof.
  intros Hp. cbn zeta. pose proof (find_paper_id _ _ _ Hp) as Hid.
  unfold star_paper, bind, load_paper. cbn [fst snd]. rewrite Hp.
  unfold save_paper, ret. cbn [fst snd].
  change (id (set_is_starred (negb (is_starred p)) p)) with (id p).
  rewrite Hid. reflexivity.
Qed.

Lemma hide_paper_stored (v : bool) (i : string) (w : World) (p : Paper) :
  find_paper i (store w) = Some p ->
  let p' := set_is_hidden v p in
  (if v then hide_paper i w else unhide_paper i w)
  = (Some p',
     mkWorld (p' :: remove_id i (store w)) (trace w ++ [Save p'])%list (clock w)).
Proof.
  intros Hp. cbn zeta. pose proof (find_paper_id _ _ _ Hp) as Hid.
  destruct v; unfold hide_paper, unhide_paper, bind, load_paper;
    cbn [fst snd]; rewrite Hp; unfold save_paper, ret; cbn [fst snd];
    [change (id (set_is_hidden true p)) with (id p)
    |change (id (set_is_hidden false p)) with (id p)];
    rewrite Hid; reflexivity.
Qed.

(** X20: starring is a toggle and hiding is undone by unhiding.  On a
    stored record, starring twice, or hiding and then unhiding a record
    that was not hidden, leaves the record stored exactly as it was; for an
    id that is not stored each of the three calls answers 404 and changes
    nothing. *)
Theorem user_actions_round_trip (paper_id : string) (w : World) (p : Paper) :
  find_paper paper_id (store w) = Some p ->
  let starred := snd (star_paper paper_id w) in
  let hidden := snd (hide_paper paper_id w) in
  fst (star_paper paper_id w) = Some (set_is_starred (negb (is_starred p)) p) /\
  find_paper paper_id (store (snd (star_paper paper_id starred))) = Some p /\
  (is_hidden p = false ->
     find_paper paper_id (store (snd (unhide_paper paper_id hidden))) = Some p) /\
  (forall other,
     find_paper other (store w) = None ->
     star_paper other w = (None, w) /\
     hide_paper other w = (None, w) /\
     unhide_paper other w = (None, w)).
Proof.
  intros Hp. cbn zeta.
  pose proof (find_paper_id _ _ _ Hp) as Hid.
  rewrite (star_paper_stored _ _ _ Hp). cbn zeta. cbn [fst snd].
  rewrite (hide_paper_stored true _ _ _ Hp). cbn zeta. cbn [fst snd].
  split; [reflexivity|]. split; [|split].
  - erewrite star_paper_stored
      by (cbn [store]; apply find_paper_head; exact Hid).
    cbn zeta. cbn [snd store]. rewrite find_paper_head by exact Hid.
    f_equal. destruct p; cbn. rewrite negb_involutive. reflexivity.
  - intros Hh.
    erewrite (hide_paper_stored false)
      by (cbn [store]; apply find_paper_head; exact Hid).
    cbn zeta. cbn [snd store]. rewrite find_paper_head by exact Hid.
    f_equal. destruct p; cbn in *. rewrite Hh. reflexivity.
  - intros other Ho.
    unfold star_paper, hide_paper, unhide_paper, bind, load_paper.
    cbn [fst snd]. rewrite Ho. repeat split.
Qed.


Lemma chunks_concat {A} (c : nat) (l : list A) (m : nat) :
  List.concat (map (fun i => firstn c (skipn i l)) (map (fun k => k * c) (seq 0 m)))
  = firstn (m * c) l.
Proof.
  induction m as [|m IH]; [reflexivity|].
  rewrite seq_S, !map_app, concat_app, IH. cbn [map List.concat Nat.add].
  rewrite app_nil_r, firstn_firstn_skipn. f_equal. lia.
Qed.

Lemma range_step_bounds (n c : nat) :
  1 <= c ->
  n <= ((n + c - 1) / c) * c /\
  (forall k, k < (n + c - 1) / c -> k * c < n).
Proof.
  intros Hc.
  pose proof (Nat.div_mod_eq (n + c - 1) c) as Hd.
  pose proof (Nat.mod_upper_bound (n + c - 1) c ltac:(lia)) as Hr.
  split; [nia|]. intros k Hk. nia.
Qed.

(** X21: the threshold gate of [process_papers] lets through exactly the
    records whose relevance is true and whose score is at or above the
    threshold, in their order.  With a concurrency of at least one, the
    Stage 2 loop cuts that list into consecutive batches that together are
    the whole list: every batch holds between one and [concurrent] records
    and every batch but the last holds exactly [concurrent].  With a
    concurrency of zero the loop raises as soon as there is a record to
    analyze. *)
Theorem stage2_batches_partition (concurrent : nat) (min_score : float)
    (papers : list Paper) :
  let relevant := stage2_gate min_score papers in
  (forall p,
     In p relevant <->
     In p papers /\ is_relevant p = Some true
     /\ (min_score <= relevance_score p)%Q) /\
  (1 <= concurrent ->
   exists batches,
     stage2_batches concurrent relevant = Some batches /\
     List.concat batches = relevant /\
     Forall (fun b => 1 <= List.length b <= concurrent) batches /\
     (forall k, S k < List.length batches ->
                List.length (nth k batches []) = concurrent)) /\
  (concurrent = 0 -> relevant <> [] ->
   stage2_batches concurrent relevant = None).
Proof.
  cbn zeta. split; [|split].
  - intros p. unfold stage2_gate. rewrite filter_In, andb_true_iff, Qle_bool_iff.
    split; intros [Hin [Hrel Hs]]; (split; [exact Hin|]); (split; [|exact Hs]).
    + destruct (is_relevant p) as [[|]|]; [reflexivity | discriminate | discriminate].
    + rewrite Hrel. reflexivity.
  - intros Hc. generalize (stage2_gate min_score papers). intros l.
    destruct (range_step_bounds (List.length l) concurrent Hc) as [Hall Hlt].
    exists (map (fun i => firstn concurrent (skipn i l))
              (range_step (List.length l) concurrent)).
    split.
    { unfold stage2_batches. destruct l as [|a l].
      - unfold range_step. cbn [List.length Nat.add].
        rewrite Nat.div_small by lia. reflexivity.
      - replace (concurrent =? 0) with false
          by (symmetry; apply Nat.eqb_neq; lia).
        reflexivity. }
    unfold range_step. split; [|split].
    + rewrite chunks_concat. apply firstn_all2. exact Hall.
    + apply Forall_map. apply Forall_map. apply Forall_forall.
      intros k Hk. apply in_seq in Hk.
      rewrite length_firstn, length_skipn.
      specialize (Hlt k ltac:(lia)). lia.
    + intros k Hk. rewrite !length_map, length_seq in Hk.
      rewrite (nth_indep _ [] (firstn concurrent (skipn 0 l)))
        by (rewrite !length_map, length_seq; lia).
      rewrite (map_nth (fun i => firstn concurrent (skipn i l))).
      rewrite (map_nth (fun j => j * concurrent) _ 0).
      rewrite seq_nth by lia. cbn [Nat.add].
      rewrite length_firstn, length_skipn.
      specialize (Hlt (S k) Hk). lia.
  - intros -> Hne. unfold stage2_batches.
    destruct (stage2_gate min_score papers); [now elim Hne | reflexivity].
Qed.


(** *** Manual relevance update *)

(** X22: the manual update of a stored record sets its relevance flag and a
    score clamped into 0..10 (a score already within the range is kept),
    stamps [updated_at], changes nothing else, and saves the record once;
    for an id that is not stored it answers 404 and changes nothing. *)
Theorem manual_relevance_update (paper_id : string) (b : bool) (x : float)
    (w : World) :
  (forall p,
     find_paper paper_id (store w) = Some p ->
     let p' :=
       set_updated_at (isoformat (clock w))
         (set_relevance_score (py_max 0%Q (py_min 10%Q x))
            (set_is_relevant (Some b) p)) in
     update_relevance paper_id b x w
     = (Some p',
        mkWorld (p' :: remove_id paper_id (store w)) (trace w ++ [Save p'])%list
          (S (clock w))) /\
     (0 <= relevance_score p' <= 10)%Q /\
     ((0 <= x <= 10)%Q -> (relevance_score p' == x)%Q)) /\
  (find_paper paper_id (store w) = None ->
   update_relevance paper_id b x w = (None, w)).
Proof.
  split.
  - intros p Hp. cbn zeta. pose proof (find_paper_id _ _ _ Hp) as Hid.
    split; [|split].
    + unfold update_relevance, bind, load_paper. cbn [fst snd]. rewrite Hp.
      unfold datetime_now, save_paper, ret. cbn [fst snd store trace clock].
      change (id (set_updated_at _ _)) with (id p). rewrite Hid. reflexivity.
    + apply clamp_range.
    + intros [H0 H10]. cbn [relevance_score set_updated_at set_relevance_score].
      unfold py_min, py_max, Qltb.
      destruct (Qle_bool 10 x) eqn:E10; cbn [negb].
      * apply Qle_bool_iff in E10. cbn. apply Qle_antisym; assumption.
      * destruct (Qle_bool x 0) eqn:E0; cbn [negb]; [|reflexivity].
        apply Qle_bool_iff in E0. apply Qle_antisym; assumption.
  - intros Hnone. unfold update_relevance, bind, load_paper. cbn [fst snd].
    rewrite Hnone. reflexivity.
Qed.

(** *** The sweep and the gate, composed *)

Lemma in_firstn {A} (n : nat) (l : list A) (x : A) :
  In x (firstn n l) -> In x l.
Proof.
  intros H. rewrite <- (firstn_skipn n l). apply in_or_app. left. exact H.
Qed.

Lemma for_each_no_match (keywords : list string) (l : list Paper) (w : World) :
  Forall (fun p => first_negative keywords p = None) l ->
  for_each (recheck_paper keywords) l w = (tt, w).
Proof.
  induction 1 as [|p l Hp _ IH]; [reflexivity|].
  cbn [for_each]. unfold bind, recheck_paper. rewrite Hp. exact IH.
Qed.

Lemma for_each_recheck_store (keywords : list string) (l : list Paper) :
  forall w r,
    In r (store (snd (for_each (recheck_paper keywords) l w))) ->
    is_relevant r = Some false
    \/ (In r (store w)
        /\ forall p, In p l -> first_negative keywords p <> None -> id p <> id r).
Proof.
  induction l as [|p l IH]; intros w r Hr.
  - right. split; [exact Hr | intros p []].
  - cbn [for_each] in Hr. unfold bind in Hr. unfold recheck_paper at 1 in Hr.
    destruct (first_negative keywords p) as [neg_kw|] eqn:Hp.
    + apply IH in Hr. destruct Hr as [Hr | [Hin Hids]]; [left; exact Hr|].
      unfold save_paper in Hin. cbn [snd store] in Hin.
      destruct Hin as [<- | Hin]; [left; reflexivity|].
      unfold remove_id in Hin. apply filter_In in Hin. destruct Hin as [Hin Hne].
      right. split; [exact Hin|].
      intros q [<- | Hq] Hm; [|exact (Hids q Hq Hm)].
      intros E. cbn [id set_one_line_summary set_extracted_keywords
                       set_relevance_score set_is_relevant] in Hne.
      rewrite E, String.eqb_refl in Hne. discriminate.
    + apply IH in Hr. destruct Hr as [Hr | [Hin Hids]]; [left; exact Hr|].
      right. split; [exact Hin|].
      intros q [<- | Hq] Hm; [now elim Hm | exact (Hids q Hq Hm)].
Qed.

(** X23: the re-check sweep is idempotent.  On a store of at most 10000
    records, running the sweep again with the same keywords finds nothing
    left to demote and leaves the world exactly as the first run left it. *)
Theorem recheck_sweep_is_idempotent (config : Config) (keywords : list string)
    (w : World) :
  List.length (store w) <= Z.to_nat 10000 ->
  let w1 := snd (recheck_negative_keywords config keywords w) in
  recheck_negative_keywords config keywords w1 = (tt, w1).
Proof.
  intros Hlen. cbn zeta.
  unfold recheck_negative_keywords at 1. unfold bind, list_papers.
  cbn [fst snd Z.leb Z.compare skipn].
  apply for_each_no_match. apply Forall_forall. intros r Hr.
  apply filter_In in Hr. destruct Hr as [Hr Hcand].
  apply in_firstn in Hr.
  unfold recheck_negative_keywords, bind, list_papers in Hr.
  cbn [fst snd Z.leb Z.compare skipn] in Hr.
  rewrite (firstn_all2 _ Hlen) in Hr.
  apply for_each_recheck_store in Hr.
  destruct (recheck_candidate_true _ _ Hcand) as [Hrel _].
  destruct Hr as [Hfalse | [Hin Hids]]; [congruence|].
  destruct (first_negative keywords r) eqn:Hm; [|reflexivity].
  exfalso. apply (Hids r); [|congruence | reflexivity].
  apply filter_In. split; assumption.
Qed.

(** X24: a record demoted for a negative keyword stays out of the deep
    analysis, whatever the threshold: the gate of [process_papers] does not
    let it through, the sweep no longer looks at it, and [stage2_qa] called
    on it returns at once without a request. *)
Theorem demoted_records_skip_stage2 (paper : Paper) (config : Config)
    (w w0 : World) (min_score : float) (neg_kw : string) :
  first_negative (negative_keywords config) paper = Some neg_kw ->
  let demoted := fst (stage1_filter paper config w) in
  stage2_gate min_score [demoted] = [] /\
  recheck_candidate min_score demoted = false /\
  stage2_qa demoted config w0 = (demoted, w0).
Proof.
  intros Hneg. cbn zeta.
  rewrite (stage1_filter_negative paper config w neg_kw Hneg). cbn zeta.
  cbn [fst]. split; [reflexivity|]. split; [reflexivity|].
  apply stage2_qa_skip. reflexivity.
Qed.


(** *** The timeline and the search *)

Lemma insert_desc_In {A K} (lt : K -> K -> bool) (key : A -> K) (x a : A)
    (l : list A) :
  In a (insert_desc lt key x l) <-> a = x \/ In a l.
Proof.
  induction l as [|y r IH]; cbn [insert_desc].
  - cbn. intuition congruence.
  - destruct (lt (key x) (key y)); cbn [In]; [rewrite IH|];
      intuition congruence.
Qed.

Lemma sort_desc_In {A K} (lt : K -> K -> bool) (key : A -> K) (a : A)
    (l : list A) :
  In a (sort_desc lt key l) <-> In a l.
Proof.
  induction l as [|x r IH]; [reflexivity|].
  unfold sort_desc in *. cbn [fold_right]. rewrite insert_desc_In, IH.
  cbn [In]. intuition congruence.
Qed.

Lemma insert_desc_length {A K} (lt : K -> K -> bool) (key : A -> K) (x : A)
    (l : list A) :
  List.length (insert_desc lt key x l) = S (List.length l).
Proof.
  induction l as [|y r IH]; [reflexivity|].
  cbn [insert_desc]. destruct (lt (key x) (key y)); cbn [List.length];
    [rewrite IH|]; reflexivity.
Qed.

Lemma sort_desc_length {A K} (lt : K -> K -> bool) (key : A -> K)
    (l : list A) :
  List.length (sort_desc lt key l) = List.length l.
Proof.
  induction l as [|x r IH]; [reflexivity|].
  unfold sort_desc in *. cbn [fold_right]. rewrite insert_desc_length, IH.
  reflexivity.
Qed.

Lemma insert_desc_descending {A K} (lt : K -> K -> bool) (key : A -> K)
    (lt_asym : forall a b, lt a b = true -> lt b a = false) (x : A)
    (l : list A) :
  descending lt key l -> descending lt key (insert_desc lt key x l).
Proof.
  unfold descending. induction l as [|y r IH]; intros Hs; cbn [insert_desc].
  - repeat constructor.
  - destruct (lt (key x) (key y)) eqn:E.
    + inversion Hs as [|? ? Hr Hhd]; subst. constructor; [exact (IH Hr)|].
      destruct r as [|z r']; cbn [insert_desc].
      * constructor. apply lt_asym. exact E.
      * destruct (lt (key x) (key z)).
        -- inversion Hhd; subst. constructor. assumption.
        -- constructor. apply lt_asym. exact E.
    + constructor; [exact Hs|]. constructor. exact E.
Qed.

Lemma sort_desc_descending {A K} (lt : K -> K -> bool) (key : A -> K)
    (lt_asym : forall a b, lt a b = true -> lt b a = false) (l : list A) :
  descending lt key (sort_desc lt key l).
Proof.
  induction l as [|x r IH]; [constructor|].
  unfold sort_desc in *. cbn [fold_right].
  apply insert_desc_descending; assumption.
Qed.

(** The sort keeps a list that is in descending order as it is: records with
    equal keys are not exchanged. *)
Lemma sort_desc_stable {A K} (lt : K -> K -> bool) (key : A -> K)
    (l : list A) :
  descending lt key l -> sort_desc lt key l = l.
Proof.
  unfold descending. induction l as [|x r IH]; intros Hs; [reflexivity|].
  inversion Hs as [|? ? Hr Hhd]; subst.
  unfold sort_desc in *. cbn [fold_right]. rewrite (IH Hr).
  destruct r as [|y r']; [reflexivity|].
  inversion Hhd; subst. cbn [insert_desc].
  match goal with H : lt _ _ = false |- _ => rewrite H end. reflexivity.
Qed.

Lemma sorted_skipn {A} (R : A -> A -> Prop) (n : nat) (l : list A) :
  Sorted R l -> Sorted R (skipn n l).
Proof.
  revert l. induction n as [|n IH]; intros l Hs; [exact Hs|].
  destruct l as [|x r]; [constructor|].
  cbn [skipn]. apply IH. inversion Hs; assumption.
Qed.

Lemma sorted_firstn {A} (R : A -> A -> Prop) (n : nat) (l : list A) :
  Sorted R l -> Sorted R (firstn n l).
Proof.
  revert l. induction n as [|n IH]; intros l Hs; [constructor|].
  destruct l as [|x r]; [constructor|].
  cbn [firstn]. inversion Hs as [|? ? Hr Hhd]; subst.
  constructor; [exact (IH r Hr)|].
  destruct n; [constructor|].
  destruct r as [|y r']; [constructor|].
  cbn [firstn]. inversion Hhd; subst. constructor. assumption.
Qed.

Lemma sorted_py_slice {A} (R : A -> A -> Prop) (l : list A) (start stop : Z) :
  Sorted R l -> Sorted R (py_slice l start stop).
Proof.
  intros Hs. unfold py_slice. apply sorted_firstn, sorted_skipn. exact Hs.
Qed.

Lemma sorted_map {A B} (R : A -> A -> Prop) (R' : B -> B -> Prop) (f : A -> B)
    (l : list A) :
  (forall a b, R a b -> R' (f a) (f b)) ->
  Sorted R l -> Sorted R' (map f l).
Proof.
  intros Hf. induction l as [|x r IH]; intros Hs; [constructor|].
  inversion Hs as [|? ? Hr Hhd]; subst. cbn [map].
  constructor; [exact (IH Hr)|].
  destruct r as [|y r']; [constructor|].
  inversion Hhd; subst. cbn [map]. constructor. apply Hf. assumption.
Qed.

Lemma py_slice_In {A} (l : list A) (start stop : Z) (a : A) :
  In a (py_slice l start stop) -> In a l.
Proof.
  unfold py_slice. intros H. apply in_firstn in H.
  rewrite <- (firstn_skipn (Z.to_nat (slice_index (Z.of_nat (List.length l)) start)) l).
  apply in_or_app. right. exact H.
Qed.

Lemma py_slice_length {A} (l : list A) (start n : Z) :
  (0 <= start)%Z -> (0 <= n)%Z ->
  List.length (py_slice l start (start + n)) <= Z.to_nat n.
Proof.
  intros Hs Hn. unfold py_slice, slice_index.
  rewrite length_firstn.
  destruct (start <? 0)%Z eqn:E1; [apply Z.ltb_lt in E1; lia|].
  destruct (start + n <? 0)%Z eqn:E2; [apply Z.ltb_lt in E2; lia|].
  lia.
Qed.

(** Consecutive pages make the page of their joint size. *)
Lemma py_slice_pages {A} (l : list A) (start n m : Z) :
  (0 <= start)%Z -> (0 <= n)%Z -> (0 <= m)%Z ->
  (py_slice l start (start + n) ++ py_slice l (start + n) (start + n + m))%list
  = py_slice l start (start + (n + m)).
Proof.
  intros Hs Hn Hm. unfold py_slice, slice_index.
  set (len := Z.of_nat (List.length l)).
  assert (Hlen : (0 <= len)%Z) by (unfold len; lia).
  destruct (start <? 0)%Z eqn:E1; [apply Z.ltb_lt in E1; lia|].
  destruct (start + n <? 0)%Z eqn:E2; [apply Z.ltb_lt in E2; lia|].
  destruct (start + n + m <? 0)%Z eqn:E3; [apply Z.ltb_lt in E3; lia|].
  destruct (start + (n + m) <? 0)%Z eqn:E4; [apply Z.ltb_lt in E4; lia|].
  replace (Z.to_nat (Z.min (start + n) len))
    with (Z.to_nat (Z.min start len)
          + Z.to_nat (Z.min (start + n) len - Z.min start len)) by lia.
  rewrite skipn_add.
  replace (Z.to_nat (Z.min (start + (n + m)) len - Z.min start len))
    with (Z.to_nat (Z.min (start + n) len - Z.min start len)
          + Z.to_nat (Z.min (start + n + m) len - Z.min (start + n) len)) by lia.
  apply firstn_firstn_skipn.
Qed.


Lemma short_abstract_length (s : string) : py_len (short_abstract s) <= 203.
Proof.
  unfold short_abstract. destruct (200 <? py_len s) eqn:E.
  - rewrite py_len_app. pose proof (py_len_take 200 s).
    change (py_len "...") with 3. lia.
  - apply Nat.ltb_ge in E. lia.
Qed.

(** X25: the timeline is read-only and shows stored records only: none that
    is hidden; in the normal view none that is starred and none beyond the
    1000 most recently written; in the starred view starred ones only, from
    the whole store; with a keyword only records whose keywords contain it,
    case-insensitively.  Abstracts are cut to at most 203 characters, and
    with a non-negative [skip] and [limit] a page holds at most [limit]
    items. *)
Theorem timeline_shows_visible_records (skip limit : Z) (sort_by : string)
    (keyword : option string) (starred_only : string) (w : World) :
  let starred := String.eqb (lower starred_only) "true" in
  let run := api_list_papers skip limit sort_by keyword starred_only w in
  snd run = w /\
  (forall item,
     In item (fst run) ->
     exists p,
       item = timeline_item p /\
       In p (if starred then store w else firstn 1000 (store w)) /\
       is_hidden p = false /\
       is_starred p = starred /\
       (forall kw,
          keyword = Some kw -> kw <> "" ->
          contains (lower kw) (lower (join " " (extracted_keywords p))) = true)) /\
  Forall (fun item => py_len (t_abstract item) <= 203) (fst run) /\
  ((0 <= skip)%Z -> (0 <= limit)%Z ->
   List.length (fst run) <= Z.to_nat limit).
Proof.
  cbn zeta. unfold api_list_papers, bind, ret.
  set (starred := String.eqb (lower starred_only) "true").
  set (listed := if starred then list_papers 0 (Some 0%Z)
                 else list_papers 0 (Some 1000%Z)).
  assert (Hlisted : listed w
                    = ((if starred then store w else firstn 1000 (store w)), w)).
  { unfold listed, list_papers. destruct starred; reflexivity. }
  rewrite Hlisted. clear Hlisted listed.
  set (loaded := if starred then store w else firstn 1000 (store w)).
  set (visible := filter (fun p => negb (is_hidden p)) loaded).
  set (chosen := if starred then filter (fun p => is_starred p) visible
                 else filter (fun p => negb (is_starred p)) visible).
  set (matching :=
         match keyword with
         | Some kw =>
             if nonempty kw
             then filter
                    (fun p =>
                       contains (lower kw)
                         (lower (join " " (extracted_keywords p)))) chosen
             else chosen
         | None => chosen
         end).
  set (sorted :=
         if String.eqb sort_by "relevance"
         then sort_desc relevance_key_lt
                (fun p => relevance_key (detailed_summary p) (relevance_score p))
                matching
         else if String.eqb sort_by "latest"
         then sort_desc String.ltb
                (fun p => latest_key (published_date p) (created_at p)) matching
         else matching).
  cbn [fst snd].
  assert (Hsorted : forall p, In p sorted -> In p matching).
  { intros p. unfold sorted.
    destruct (String.eqb sort_by "relevance"); [apply sort_desc_In|].
    destruct (String.eqb sort_by "latest"); [apply sort_desc_In|].
    exact (fun H => H). }
  assert (Hmatching : forall p,
            In p matching ->
            In p chosen /\
            forall kw, keyword = Some kw -> kw <> "" ->
              contains (lower kw) (lower (join " " (extracted_keywords p)))
              = true).
  { intros p Hp. unfold matching in Hp. destruct keyword as [kw|].
    - destruct kw as [|c kw'].
      + cbn [nonempty] in Hp. split; [exact Hp|].
        intros kw [= <-] Hne. now elim Hne.
      + cbn [nonempty] in Hp. apply filter_In in Hp. destruct Hp as [Hp Hc].
        split; [exact Hp|]. intros kw [= <-] _. exact Hc.
    - split; [exact Hp|]. intros kw Hkw. discriminate Hkw. }
  assert (Hchosen : forall p,
            In p chosen ->
            In p loaded /\ is_hidden p = false /\ is_starred p = starred).
  { intros p Hp. unfold chosen in Hp.
    destruct starred; apply filter_In in Hp; destruct Hp as [Hp Hs];
      unfold visible in Hp; apply filter_In in Hp; destruct Hp as [Hp Hh];
      apply negb_true_iff in Hh.
    - repeat split; assumption.
    - apply negb_true_iff in Hs. repeat split; assumption. }
  split; [reflexivity|]. split; [|split].
  - intros item Hitem. apply in_map_iff in Hitem.
    destruct Hitem as [p [<- Hp]]. apply py_slice_In in Hp.
    apply Hsorted in Hp. apply Hmatching in Hp. destruct Hp as [Hp Hkw].
    apply Hchosen in Hp. destruct Hp as [Hp [Hh Hs]].
    exists p. repeat split; assumption.
  - apply Forall_forall. intros item Hitem. apply in_map_iff in Hitem.
    destruct Hitem as [p [<- _]]. cbn [timeline_item t_abstract].
    apply short_abstract_length.
  - intros Hskip Hlimit. rewrite length_map. apply py_slice_length; assumption.
Qed.


Lemma relevance_key_lt_asym (a b : bool * float) :
  relevance_key_lt a b = true -> relevance_key_lt b a = false.
Proof.
  destruct a as [x s], b as [y t]. unfold relevance_key_lt. cbn [fst snd].
  destruct x, y; cbn [Bool.eqb negb]; try discriminate; try reflexivity.
  all: unfold Qltb; intros H; apply negb_true_iff in H;
    apply negb_false_iff, Qle_bool_iff, Qlt_le_weak, Qnot_le_lt;
    rewrite <- Qle_bool_iff; congruence.
Qed.

Lemma string_ltb_asym (a b : string) :
  String.ltb a b = true -> String.ltb b a = false.
Proof.
  unfold String.ltb. rewrite (String.compare_antisym a b).
  destruct (String.compare b a); cbn; congruence.
Qed.

(** The timeline once the store is read: the records that pass the filters
    do not depend on the page asked for. *)
Lemma api_list_papers_run (sort_by : string) (keyword : option string)
    (starred_only : string) (w : World) :
  exists matching,
    forall skip limit,
      api_list_papers skip limit sort_by keyword starred_only w
      = (map timeline_item
           (py_slice
              (if String.eqb sort_by "relevance"
               then sort_desc relevance_key_lt
                      (fun p =>
                         relevance_key (detailed_summary p) (relevance_score p))
                      matching
               else if String.eqb sort_by "latest"
               then sort_desc String.ltb
                      (fun p => latest_key (published_date p) (created_at p))
                      matching
               else matching)
              skip (skip + limit)), w).
Proof.
  unfold api_list_papers, bind, ret.
  destruct (String.eqb (lower starred_only) "true");
    unfold list_papers; cbn [Z.leb Z.compare fst snd];
    eexists; intros skip limit; reflexivity.
Qed.



Lemma count_from_found (sub s : string) :
  sub <> "" -> contains sub s = true -> 1 <= count_from 0 sub s.
Proof.
  intros Hne. induction s as [|c r IH]; cbn [contains count_from].
  - destruct sub; [now elim Hne | discriminate].
  - destruct (String.prefix sub (String c r)); cbn [orb]; [lia|].
    exact IH.
Qed.

Lemma py_count_found (sub s : string) :
  contains sub s = true -> 1 <= py_count sub s.
Proof.
  intros H. unfold py_count. destruct sub as [|c sub']; [lia|].
  apply count_from_found; [discriminate | exact H].
Qed.

Lemma nat_ltb_asym (a b : nat) : Nat.ltb a b = true -> Nat.ltb b a = false.
Proof.
  intros H. apply Nat.ltb_lt in H. apply Nat.ltb_ge. lia.
Qed.

(** X27: the keyword search is read-only and returns stored records only,
    none hidden and none beyond the 1000 most recently written; each result
    contains the lowered query in its lowered title, abstract, keywords and
    one-line summary, and its score is the number of occurrences there, at
    least one.  Results come in descending order of score, and a
    non-negative [limit] bounds their number. *)
Theorem keyword_search_scores_matches (q : string) (limit : Z) (w : World) :
  let run := search_by_keyword q limit w in
  snd run = w /\
  (forall r,
     In r (fst run) ->
     exists p,
       In p (firstn 1000 (store w)) /\
       sr_item r = timeline_item p /\
       is_hidden p = false /\
       contains (lower q) (searchable p) = true /\
       search_score r = py_count (lower q) (searchable p) /\
       1 <= search_score r) /\
  descending Nat.ltb search_score (fst run) /\
  ((0 <= limit)%Z -> List.length (fst run) <= Z.to_nat limit).
Proof.
  cbn zeta. unfold search_by_keyword, bind, ret, list_papers.
  cbn [Z.leb Z.compare fst snd skipn].
  change (Z.to_nat 1000) with 1000.
  split; [reflexivity|]. split; [|split].
  - intros r Hr. apply py_slice_In, sort_desc_In, in_flat_map in Hr.
    destruct Hr as [p [Hp Hr]]. exists p.
    destruct (is_hidden p) eqn:Hh; [destruct Hr|].
    destruct (contains (lower q) (searchable p)) eqn:Hc; [|destruct Hr].
    destruct Hr as [<-|[]]. cbn [sr_item search_score].
    repeat split; try assumption. apply py_count_found. exact Hc.
  - unfold descending. apply sorted_py_slice.
    apply sort_desc_descending, nat_ltb_asym.
  - intros Hl. apply (py_slice_length _ 0%Z limit); lia.
Qed.


(** *** Downloads *)

Lemma fetches_app (a b : list Effect) :
  fetches (a ++ b) = (fetches a ++ fetches b)%list.
Proof. unfold fetches. apply flat_map_app. Qed.

Lemma fetch_html_attempts_spec (url : string) (remaining : nat) :
  forall attempt w,
    1 <= remaining -> attempt + remaining = max_retries ->
    let run := fetch_html_attempts remaining attempt url w in
    store (snd run) = store w /\
    clock (snd run) = clock w /\
    exists added,
      trace (snd run) = (trace w ++ added)%list /\
      fetches added = repeat url (List.length (fetches added)) /\
      1 <= List.length (fetches added) <= remaining /\
      S (List.length (sleeps added)) = List.length (fetches added) /\
      Forall2 (fun i s => s = 2 \/ s = 2 * 2 ^ i)
        (seq attempt (List.length (sleeps added))) (sleeps added) /\
      saves added = [] /\
      calls added = [] /\
      (fst run <> "" ->
       exists t text,
         http_get t url = HttpStatus 200 text /\ soup_text text = Some (fst run)).
Proof.
  induction remaining as [|k IH]; intros attempt w Hpos Hsum; [lia|].
  set (w1 := mkWorld (store w) (trace w ++ [Fetch url])%list (clock w)).
  assert (Hstop :
            let run := (@ret string "") w1 in
            store (snd run) = store w /\
            clock (snd run) = clock w /\
            exists added,
              trace (snd run) = (trace w ++ added)%list /\
              fetches added = repeat url (List.length (fetches added)) /\
              1 <= List.length (fetches added) <= S k /\
              S (List.length (sleeps added)) = List.length (fetches added) /\
              Forall2 (fun i s => s = 2 \/ s = 2 * 2 ^ i)
                (seq attempt (List.length (sleeps added))) (sleeps added) /\
              saves added = [] /\
              calls added = [] /\
              (fst run <> "" ->
               exists t text,
                 http_get t url = HttpStatus 200 text
                 /\ soup_text text = Some (fst run))).
  { cbn zeta. unfold ret. cbn [fst snd]. split; [reflexivity|].
    split; [reflexivity|]. exists [Fetch url]. cbn.
    repeat split; try reflexivity; try lia; try constructor.
    intros H. now elim H. }
  assert (Hagain :
            forall wait_time,
              wait_time = 2 \/ wait_time = 2 * 2 ^ attempt ->
              let run :=
                (if attempt <? max_retries - 1
                 then sleep wait_time ;; fetch_html_attempts k (S attempt) url
                 else ret "") w1 in
              store (snd run) = store w /\
              clock (snd run) = clock w /\
              exists added,
                trace (snd run) = (trace w ++ added)%list /\
                fetches added = repeat url (List.length (fetches added)) /\
                1 <= List.length (fetches added) <= S k /\
                S (List.length (sleeps added)) = List.length (fetches added) /\
                Forall2 (fun i s => s = 2 \/ s = 2 * 2 ^ i)
                  (seq attempt (List.length (sleeps added))) (sleeps added) /\
                saves added = [] /\
                calls added = [] /\
                (fst run <> "" ->
                 exists t text,
                   http_get t url = HttpStatus 200 text
                   /\ soup_text text = Some (fst run))).
  { intros wait_time Hwait.
    destruct (attempt <? max_retries - 1) eqn:Hlt; [|exact Hstop].
    apply Nat.ltb_lt in Hlt. unfold max_retries in Hlt, Hsum.
    cbn zeta. unfold bind, sleep, log. cbn [fst snd].
    set (w2 := mkWorld (store w1) (trace w1 ++ [Sleep wait_time])%list
                 (clock w1)).
    destruct (IH (S attempt) w2 ltac:(lia) ltac:(unfold max_retries; lia))
      as [Hstore [Hclock [added [Ht [Hf [Hn [Hs [Hw [Hsv [Hc Hres]]]]]]]]]].
    destruct (fetch_html_attempts k (S attempt) url w2) as [result w3].
    cbn [fst snd] in *.
    split; [exact Hstore|]. split; [exact Hclock|].
    exists (Fetch url :: Sleep wait_time :: added).
    split; [rewrite Ht; unfold w2, w1; cbn [trace];
            rewrite <- !app_assoc; reflexivity|].
    change (fetches (Fetch url :: Sleep wait_time :: added))
      with (url :: fetches added).
    change (sleeps (Fetch url :: Sleep wait_time :: added))
      with (wait_time :: sleeps added).
    change (saves (Fetch url :: Sleep wait_time :: added)) with (saves added).
    change (calls (Fetch url :: Sleep wait_time :: added)) with (calls added).
    cbn [List.length repeat seq].
    split; [f_equal; exact Hf|]. split; [lia|]. split; [lia|].
    split; [constructor; [exact Hwait | exact Hw]|].
    split; [exact Hsv|]. split; [exact Hc | exact Hres]. }
  cbn zeta. cbn [fetch_html_attempts]. unfold bind, client_get.
  destruct (http_get (trace w) url) as [code text| |] eqn:Hget.
  - destruct (code =? 429)%Z eqn:H429;
      [exact (Hagain (2 * 2 ^ attempt) (or_intror eq_refl))|].
    destruct (code =? 200)%Z eqn:H200; [|exact (Hagain 2 (or_introl eq_refl))].
    destruct (soup_text text) as [article|] eqn:Hsoup;
      [|exact (Hagain 2 (or_introl eq_refl))].
    apply Z.eqb_eq in H200. subst code.
    unfold ret. cbn [fst snd store clock trace].
    split; [reflexivity|]. split; [reflexivity|].
    exists [Fetch url]. cbn.
    repeat split; try reflexivity; try lia; try constructor.
    intros _. exists (trace w), text. split; assumption.
  - exact (Hagain (2 * 2 ^ attempt) (or_intror eq_refl)).
  - exact (Hagain 2 (or_introl eq_refl)).
Qed.

(** X28: [_fetch_html] never raises and never touches the store or the
    clock.  It downloads the one HTML address of the paper between one and
    three times, waits between two consecutive downloads (2s after the
    first; 2s or 4s after the second) and never after the last, so at most
    6s in all.  What it returns is the empty text or the text extracted from
    a response with status 200. *)
Theorem fetch_html_retries_within_bounds (arxiv_id : string) (w : World) :
  let url := "https://arxiv.org/html/" ++ arxiv_id in
  let run := _fetch_html arxiv_id w in
  store (snd run) = store w /\
  clock (snd run) = clock w /\
  exists added,
    trace (snd run) = (trace w ++ added)%list /\
    fetches added = repeat url (List.length (fetches added)) /\
    1 <= List.length (fetches added) <= 3 /\
    S (List.length (sleeps added)) = List.length (fetches added) /\
    (sleeps added = [] \/ sleeps added = [2] \/ sleeps added = [2; 2]
     \/ sleeps added = [2; 4]) /\
    list_sum (sleeps added) <= 6 /\
    saves added = [] /\
    calls added = [] /\
    (fst run <> "" ->
     exists t text,
       http_get t url = HttpStatus 200 text /\ soup_text text = Some (fst run)).
Proof.
  cbn zeta. unfold _fetch_html.
  destruct (fetch_html_attempts_spec ("https://arxiv.org/html/" ++ arxiv_id)
              max_retries 0 w ltac:(unfold max_retries; lia) eq_refl)
    as [Hstore [Hclock [added [Ht [Hf [Hn [Hs [Hw [Hsv [Hc Hres]]]]]]]]]].
  split; [exact Hstore|]. split; [exact Hclock|].
  exists added. unfold max_retries in Hn.
  split; [exact Ht|]. split; [exact Hf|]. split; [exact Hn|].
  split; [exact Hs|].
  assert (Hcases : sleeps added = [] \/ sleeps added = [2]
                   \/ sleeps added = [2; 2] \/ sleeps added = [2; 4]).
  { destruct (sleeps added) as [|s0 [|s1 [|s2 rest]]];
      cbn [List.length seq] in Hw, Hs.
    - left. reflexivity.
    - inversion Hw as [|? ? ? ? H0 _]; subst. right. left.
      destruct H0 as [->| ->]; reflexivity.
    - inversion Hw as [|? ? ? ? H0 Hw1]; subst.
      inversion Hw1 as [|? ? ? ? H1 _]; subst. right. right.
      destruct H0 as [->| ->]; destruct H1 as [->| ->]; cbn;
        solve [left; reflexivity | right; reflexivity].
    - lia. }
  split; [exact Hcases|].
  split; [destruct Hcases as [->|[->|[->| ->]]]; cbn; lia|].
  split; [exact Hsv|]. split; [exact Hc | exact Hres].
Qed.


(** *** [fetch_latest] *)

Lemma collected_frame (w0 w w' : World) (papers : list Paper) (more : list Effect) :
  collected w0 w papers ->
  store w' = store w ->
  trace w' = (trace w ++ more)%list ->
  saves more = [] -> calls more = [] ->
  collected w0 w' papers.
Proof.
  intros [Hnd [Hp [Hold [added [Ht [Hs Hc]]]]]] Hstore Htrace Hsm Hcm.
  unfold collected. rewrite Hstore.
  split; [exact Hnd|]. split; [exact Hp|]. split; [exact Hold|].
  exists (added ++ more)%list. split; [|split].
  - rewrite Htrace, Ht, <- app_assoc. reflexivity.
  - rewrite saves_app, Hs, Hsm. apply app_nil_r.
  - rewrite calls_app, Hc, Hcm. reflexivity.
Qed.

Lemma collected_save (w0 w w' : World) (papers : list Paper) (p : Paper)
    (more : list Effect) :
  collected w0 w papers ->
  find_paper (id p) (store w) = None ->
  is_relevant p = None -> qa_pairs p = [] -> detailed_summary p = "" ->
  store w' = p :: remove_id (id p) (store w) ->
  trace w' = (trace w ++ more ++ [Save p])%list ->
  saves more = [] -> calls more = [] ->
  collected w0 w' (papers ++ [p]).
Proof.
  intros [Hnd [Hp [Hold [added [Ht [Hs Hc]]]]]] Hnew Hrel Hqa Hds Hstore Htrace
    Hsm Hcm.
  assert (Hother : forall q, In q papers -> id q <> id p).
  { intros q Hq E. destruct (Hp q Hq) as [_ [Hfound _]].
    rewrite E in Hfound. congruence. }
  unfold collected. rewrite Hstore. split; [|split; [|split]].
  - rewrite map_app. cbn [map]. apply NoDup_app; [exact Hnd | | ].
    + repeat constructor. intros [].
    + intros i Hi [Hip|[]]. apply in_map_iff in Hi.
      destruct Hi as [q [Hq Hin]]. apply (Hother q Hin). congruence.
  - intros q Hq. apply in_app_or in Hq. destruct Hq as [Hq|[<-|[]]].
    + destruct (Hp q Hq) as [H0 [H1 H2]]. split; [exact H0|].
      split; [|exact H2].
      unfold find_paper at 1. cbn [find].
      destruct (String.eqb (id p) (id q)) eqn:E.
      * apply String.eqb_eq in E. elim (Hother q Hq). congruence.
      * fold (find_paper (id q) (remove_id (id p) (store w))).
        rewrite find_paper_remove_other; [exact H1 | apply Hother; exact Hq].
    + split.
      * destruct (find_paper (id p) (store w0)) as [q|] eqn:E; [|reflexivity].
        apply Hold in E. congruence.
      * split; [apply find_paper_head; reflexivity|].
        repeat split; assumption.
  - intros i q Hq. apply Hold in Hq.
    assert (Hne : i <> id p) by (intros ->; congruence).
    unfold find_paper at 1. cbn [find].
    destruct (String.eqb (id p) i) eqn:E.
    + apply String.eqb_eq in E. elim Hne. congruence.
    + fold (find_paper i (remove_id (id p) (store w))).
      rewrite find_paper_remove_other; assumption.
  - exists (added ++ more ++ [Save p])%list. split; [|split].
    + rewrite Htrace, Ht, <- app_assoc. reflexivity.
    + rewrite !saves_app, Hs, Hsm. reflexivity.
    + rewrite !calls_app, Hc, Hcm. reflexivity.
Qed.

Lemma category_attempts_frame (query : string) (max_results : Z)
    (remaining : nat) :
  forall attempt response w,
    let run := category_attempts remaining attempt query max_results response w in
    store (snd run) = store w /\
    clock (snd run) = clock w /\
    exists more,
      trace (snd run) = (trace w ++ more)%list /\
      saves more = [] /\ calls more = [].
Proof.
  induction remaining as [|k IH]; intros attempt response w; cbn zeta.
  - cbn. split; [reflexivity|]. split; [reflexivity|].
    exists []. rewrite app_nil_r. repeat split.
  - set (w1 := mkWorld (store w) (trace w ++ [Fetch query])%list (clock w)).
    assert (Hstop : forall r : option (Z * string),
              store (snd (ret r w1)) = store w /\
              clock (snd (ret r w1)) = clock w /\
              exists more,
                trace (snd (ret r w1)) = (trace w ++ more)%list /\
                saves more = [] /\ calls more = []).
    { intros r. cbn. split; [reflexivity|]. split; [reflexivity|].
      exists [Fetch query]. repeat split. }
    assert (Hagain : forall r wait_time,
              let run :=
                (sleep wait_time ;;
                 category_attempts k (S attempt) query max_results r) w1 in
              store (snd run) = store w /\
              clock (snd run) = clock w /\
              exists more,
                trace (snd run) = (trace w ++ more)%list /\
                saves more = [] /\ calls more = []).
    { intros r wait_time. cbn zeta. unfold bind, sleep, log. cbn [fst snd].
      set (w2 := mkWorld (store w1) (trace w1 ++ [Sleep wait_time])%list
                   (clock w1)).
      destruct (IH (S attempt) r w2) as [Hs [Hc [more [Ht [Hsv Hcl]]]]].
      destruct (category_attempts k (S attempt) query max_results r w2)
        as [result w3]. cbn [fst snd] in *.
      split; [exact Hs|]. split; [exact Hc|].
      exists (Fetch query :: Sleep wait_time :: more).
      split; [rewrite Ht; unfold w2, w1; cbn [trace];
              rewrite <- !app_assoc; reflexivity|].
      split; [exact Hsv | exact Hcl]. }
    cbn [category_attempts]. unfold bind, client_query.
    destruct (api_query (trace w) query max_results) as [code text| |].
    + destruct (code =? 429)%Z; [|exact (Hstop _)].
      destruct (attempt <? max_retries - 1);
        [exact (Hagain _ _) | exact (Hstop _)].
    + destruct (attempt <? max_retries - 1);
        [exact (Hagain _ _) | exact (Hstop _)].
    + exact (Hstop _).
Qed.

Lemma fetch_html_frame (arxiv_id : string) (w : World) :
  let run := _fetch_html arxiv_id w in
  store (snd run) = store w /\
  clock (snd run) = clock w /\
  exists more,
    trace (snd run) = (trace w ++ more)%list /\
    saves more = [] /\ calls more = [].
Proof.
  cbn zeta. unfold _fetch_html.
  destruct (fetch_html_attempts_spec ("https://arxiv.org/html/" ++ arxiv_id)
              max_retries 0 w ltac:(unfold max_retries; lia) eq_refl)
    as [Hstore [Hclock [added [Ht [_ [_ [_ [_ [Hsv [Hc _]]]]]]]]]].
  split; [exact Hstore|]. split; [exact Hclock|].
  exists added. repeat split; assumption.
Qed.

Lemma fetch_entries_collected (w0 : World) (entries : list FeedEntry) :
  forall papers processed_ids w,
    collected w0 w papers ->
    let run := fetch_entries entries papers processed_ids w in
    collected w0 (snd run) (fst (fst run)).
Proof.
  induction entries as [|entry rest IH]; intros papers processed_ids w Hc;
    cbn zeta.
  - exact Hc.
  - set (arxiv_id := last_part "/abs/" (fe_id entry)).
    cbn [fetch_entries]. fold arxiv_id. unfold bind, _paper_exists.
    cbn [fst snd].
    destruct (find_paper arxiv_id (store w)) as [q|] eqn:Hfind;
      cbn [is_none negb orb]; [exact (IH _ _ _ Hc)|].
    destruct (existsb (String.eqb arxiv_id) processed_ids);
      [exact (IH _ _ _ Hc)|].
    destruct (fetch_html_frame arxiv_id w) as [Hs1 [Hc1 [more [Ht1 [Hsv1 Hcl1]]]]].
    destruct (_fetch_html arxiv_id w) as [html_content w1].
    cbn [fst snd] in *.
    unfold sleep, log, datetime_now, save_paper. cbn [fst snd store trace clock].
    apply IH.
    eapply (collected_save w0 w _ papers _ (more ++ [Sleep 1])%list Hc).
    + cbn [id]. exact Hfind.
    + reflexivity.
    + reflexivity.
    + reflexivity.
    + cbn [store id]. rewrite Hs1. reflexivity.
    + cbn [trace]. rewrite Ht1, <- !app_assoc. reflexivity.
    + rewrite saves_app, Hsv1. reflexivity.
    + rewrite calls_app, Hcl1. reflexivity.
Qed.

Lemma fetch_categories_collected (w0 : World) (start_date end_date : string)
    (max_results : Z) (remaining : list string) :
  forall idx papers processed_ids w,
    collected w0 w papers ->
    let run :=
      fetch_categories remaining idx start_date end_date max_results papers
        processed_ids w in
    collected w0 (snd run) (fst (fst run)).
Proof.
  induction remaining as [|category rest IH];
    intros idx papers processed_ids w Hc; cbn zeta.
  - exact Hc.
  - cbn [fetch_categories]. unfold bind.
    match goal with
    | |- context [category_attempts ?n ?a ?q ?m ?r w] =>
        destruct (category_attempts_frame q m n a r w)
          as [Hs1 [_ [more [Ht1 [Hsv1 Hcl1]]]]];
        destruct (category_attempts n a q m r w) as [response w1]
    end.
    cbn [fst snd] in *.
    assert (Hc1 : collected w0 w1 papers)
      by (eapply collected_frame; eassumption).
    destruct response as [[code text]|]; [|exact (IH _ _ _ _ Hc1)].
    destruct (code =? 200)%Z; cbn [negb]; [|exact (IH _ _ _ _ Hc1)].
    assert (Hc2 : collected w0
                    (snd ((if idx <? List.length categories - 1 then sleep 3
                           else ret tt) w1)) papers).
    { destruct (idx <? List.length categories - 1).
      - eapply (collected_frame w0 w1 _ papers [Sleep 3] Hc1); reflexivity.
      - exact Hc1. }
    destruct ((if idx <? List.length categories - 1 then sleep 3 else ret tt) w1)
      as [[] w2].
    cbn [fst snd] in *.
    pose proof (fetch_entries_collected w0 (feed_entries text) papers
                  processed_ids w2 Hc2) as Hc3.
    cbn zeta in Hc3.
    destruct (fetch_entries (feed_entries text) papers processed_ids w2)
      as [[papers' processed'] w3].
    cbn [fst snd] in *. exact (IH _ _ _ _ Hc3).
Qed.



Lemma category_attempts_spec (query : string) (max_results : Z)
    (remaining : nat) :
  forall attempt response w,
    1 <= remaining -> attempt + remaining = max_retries ->
    let run := category_attempts remaining attempt query max_results response w in
    exists added,
      trace (snd run) = (trace w ++ added)%list /\
      fetches added = repeat query (List.length (fetches added)) /\
      1 <= List.length (fetches added) <= remaining /\
      S (List.length (sleeps added)) = List.length (fetches added) /\
      sleeps added
      = map (fun i => 3 * 2 ^ i) (seq attempt (List.length (sleeps added))) /\
      (forall code text,
         fst run = Some (code, text) ->
         code <> 429%Z /\
         exists t, api_query t query max_results = HttpStatus code text).
Proof.
  induction remaining as [|k IH]; intros attempt response w Hpos Hsum; [lia|].
  set (w1 := mkWorld (store w) (trace w ++ [Fetch query])%list (clock w)).
  assert (Hstop :
            forall r : option (Z * string),
              (forall code text,
                 r = Some (code, text) ->
                 code <> 429%Z /\
                 exists t, api_query t query max_results = HttpStatus code text) ->
              let run := ret r w1 in
              exists added,
                trace (snd run) = (trace w ++ added)%list /\
                fetches added = repeat query (List.length (fetches added)) /\
                1 <= List.length (fetches added) <= S k /\
                S (List.length (sleeps added)) = List.length (fetches added) /\
                sleeps added
                = map (fun i => 3 * 2 ^ i)
                    (seq attempt (List.length (sleeps added))) /\
                (forall code text,
                   fst run = Some (code, text) ->
                   code <> 429%Z /\
                   exists t,
                     api_query t query max_results = HttpStatus code text)).
  { intros r Hr. cbn zeta. unfold ret. cbn [fst snd].
    exists [Fetch query]. cbn.
    split; [reflexivity|]. split; [reflexivity|]. split; [lia|].
    split; [reflexivity|]. split; [reflexivity | exact Hr]. }
  assert (Hagain :
            forall r,
              attempt < max_retries - 1 ->
              let run :=
                (sleep (3 * 2 ^ attempt) ;;
                 category_attempts k (S attempt) query max_results r) w1 in
              exists added,
                trace (snd run) = (trace w ++ added)%list /\
                fetches added = repeat query (List.length (fetches added)) /\
                1 <= List.length (fetches added) <= S k /\
                S (List.length (sleeps added)) = List.length (fetches added) /\
                sleeps added
                = map (fun i => 3 * 2 ^ i)
                    (seq attempt (List.length (sleeps added))) /\
                (forall code text,
                   fst run = Some (code, text) ->
                   code <> 429%Z /\
                   exists t,
                     api_query t query max_results = HttpStatus code text)).
  { intros r Hlt. unfold max_retries in Hlt, Hsum.
    cbn zeta. unfold bind, sleep, log. cbn [fst snd].
    set (w2 := mkWorld (store w1) (trace w1 ++ [Sleep (3 * 2 ^ attempt)])%list
                 (clock w1)).
    destruct (IH (S attempt) r w2 ltac:(lia) ltac:(unfold max_retries; lia))
      as [added [Ht [Hf [Hn [Hs [Hw Hres]]]]]].
    destruct (category_attempts k (S attempt) query max_results r w2)
      as [result w3].
    cbn [fst snd] in Ht, Hres |- *.
    exists (Fetch query :: Sleep (3 * 2 ^ attempt) :: added).
    split; [rewrite Ht; unfold w2, w1; cbn [trace];
            rewrite <- !app_assoc; reflexivity|].
    change (fetches (Fetch query :: Sleep (3 * 2 ^ attempt) :: added))
      with (query :: fetches added).
    change (sleeps (Fetch query :: Sleep (3 * 2 ^ attempt) :: added))
      with (3 * 2 ^ attempt :: sleeps added).
    cbn [List.length repeat seq map].
    split; [f_equal; exact Hf|]. split; [lia|]. split; [lia|].
    split; [f_equal; exact Hw | exact Hres]. }
  cbn zeta. cbn [category_attempts]. unfold bind, client_query.
  destruct (api_query (trace w) query max_results) as [code text| |] eqn:Hget.
  - destruct (code =? 429)%Z eqn:H429.
    + destruct (attempt <? max_retries - 1) eqn:Hlt;
        [exact (Hagain _ (proj1 (Nat.ltb_lt _ _) Hlt))|].
      apply (Hstop None). intros c t H. discriminate H.
    + apply (Hstop (Some (code, text))). intros c t [= <- <-].
      split; [apply Z.eqb_neq; exact H429|].
      exists (trace w). exact Hget.
  - destruct (attempt <? max_retries - 1) eqn:Hlt;
      [exact (Hagain _ (proj1 (Nat.ltb_lt _ _) Hlt))|].
    apply (Hstop None). intros c t H. discriminate H.
  - apply (Hstop None). intros c t H. discriminate H.
Qed.

(** X30: the query of one category never raises and never touches the
    store.  It is sent between one and three times, with waits of 3s and
    then 6s between consecutive attempts and none after the last.  Only a
    rate limit (429) or a request error is tried again: any other response
    ends the loop at once, whatever its status, and any other exception
    gives up at once.  The response the loop leaves is one the API gave and
    never a rate limit. *)
Theorem category_query_retries (query : string) (max_results : Z) (w : World) :
  let run := category_attempts max_retries 0 query max_results None w in
  let once := mkWorld (store w) (trace w ++ [Fetch query])%list (clock w) in
  store (snd run) = store w /\
  (exists added,
     trace (snd run) = (trace w ++ added)%list /\
     fetches added = repeat query (List.length (fetches added)) /\
     1 <= List.length (fetches added) <= 3 /\
     S (List.length (sleeps added)) = List.length (fetches added) /\
     (sleeps added = [] \/ sleeps added = [3] \/ sleeps added = [3; 6]) /\
     saves added = [] /\
     calls added = []) /\
  (forall code text,
     fst run = Some (code, text) ->
     code <> 429%Z /\
     exists t, api_query t query max_results = HttpStatus code text) /\
  (forall code text,
     api_query (trace w) query max_results = HttpStatus code text ->
     code <> 429%Z -> run = (Some (code, text), once)) /\
  (api_query (trace w) query max_results = HttpOtherError -> run = (None, once)).
Proof.
  cbn zeta.
  destruct (category_attempts_frame query max_results max_retries 0 None w)
    as [Hstore [_ [more [Htm [Hsv Hcl]]]]].
  destruct (category_attempts_spec query max_results max_retries 0 None w
              ltac:(unfold max_retries; lia) eq_refl)
    as [added [Ht [Hf [Hn [Hs [Hw Hres]]]]]].
  split; [exact Hstore|]. split; [|split; [exact Hres|split]].
  - exists added. unfold max_retries in Hn.
    assert (Hsame : more = added).
    { rewrite Htm in Ht. apply app_inv_head in Ht. exact Ht. }
    subst more.
    split; [exact Ht|]. split; [exact Hf|]. split; [exact Hn|].
    split; [exact Hs|]. split; [|split; assumption].
    destruct (sleeps added) as [|s0 [|s1 [|s2 rest]]];
      cbn [List.length seq map] in Hw, Hs.
    + left. reflexivity.
    + right. left. exact Hw.
    + right. right. exact Hw.
    + lia.
  - intros code text Hget Hne. unfold max_retries.
    cbn [category_attempts]. unfold bind, client_query. rewrite Hget.
    apply Z.eqb_neq in Hne. rewrite Hne. reflexivity.
  - intros Hget. unfold max_retries.
    cbn [category_attempts]. unfold bind, client_query. rewrite Hget.
    reflexivity.
Qed.

End Analyzer.

(** ** Concrete runs *)

(** *** Stage 2 *)

Lemma stage2_all_or_nothing_witness :
  (let run :=
     stage2_qa stamp (scripted_chat [Some "summary"; Some "a1"; None; None; None])
       P3 sample_config empty_world in
   store (snd run) = [] /\ saves (trace (snd run)) = []) /\
  (let run :=
     stage2_qa stamp (scripted_chat [Some "summary"; Some "a1"; None; Some "a2"])
       P3 sample_config empty_world in
   store (snd run) = [fst run] /\ saves (trace (snd run)) = [fst run]).
Proof.
  split.
  - apply (proj1 (stage2_all_or_nothing stamp
                    (scripted_chat [Some "summary"; Some "a1"; None; None; None])
                    P3 sample_config empty_world)).
    vm_compute. right. right. left. reflexivity.
  - destruct (proj1 (proj2 (stage2_all_or_nothing stamp
                    (scripted_chat [Some "summary"; Some "a1"; None; Some "a2"])
                    P3 sample_config empty_world))) as [Hstore [Hsaves _]].
    + reflexivity.
    + vm_compute. intros [H|[H|[H|[]]]]; discriminate.
    + split; [exact Hstore | exact Hsaves].
Defined.

Lemma stage2_partial_failure_mutates_witness :
  let run :=
    stage2_qa stamp (scripted_chat [Some "summary"; Some "a1"; None; None; None])
      P3 sample_config empty_world in
  detailed_summary (fst run) = "summary" /\
  map answer (qa_pairs (fst run)) = ["a1"] /\
  store (snd run) = [].
Proof.
  destruct (stage2_partial_failure_mutates stamp
              (scripted_chat [Some "summary"; Some "a1"; None; None; None])
              P3 sample_config empty_world "summary" ["a1"])
    as [[entries [Hp [_ Ha]]] [Hs [Hstore _]]].
  - reflexivity.
  - vm_compute. reflexivity.
  - cbn zeta. split; [exact Hs|]. split; [|exact Hstore].
    rewrite Hp. cbn. exact Ha.
Defined.

(** *** Stage 1 and the relevance score *)

(** C2 as stated fails on the end-to-end scenario of the specification: a
    record that mentions "medical", with ["medical"] as the negative
    keywords.  The record is demoted, but the keyword list stored carries
    the mark U+274C where the specification writes U+2717. *)
Lemma fast_path_marker_differs :
  let run :=
    stage1_filter ascii_lower (scripted_chat []) sample_json P1 sample_config
      empty_world in
  contains (ascii_lower "medical")
    (ascii_lower (title P1 ++ " " ++ preview_text P1)) = true /\
  is_relevant (fst run) = Some false /\
  extracted_keywords (fst run) = ["❌ medical"] /\
  extracted_keywords (fst run) <> ["✗ medical"].
Proof.
  vm_compute. repeat split. intros H. discriminate H.
Qed.

Lemma negative_keyword_fast_path_witness :
  let run :=
    stage1_filter ascii_lower (scripted_chat [Some sample_reply]) sample_json P1
      sample_config empty_world in
  is_relevant (fst run) = Some false /\
  relevance_score (fst run) = 1%Q /\
  calls (trace (snd run)) = [] /\
  store (snd run) = [fst run].
Proof.
  destruct (negative_keyword_fast_path ascii_lower
              (scripted_chat [Some sample_reply]) sample_json P1 sample_config
              empty_world "medical")
    as [neg_kw [before [after [_ [_ [_ [Hrel [Hscore [_ [_ [_ [Hcalls Hstore]]]]]]]]]]]].
  - left. reflexivity.
  - reflexivity.
  - cbn zeta. split; [exact Hrel|]. split; [exact Hscore|].
    split; [exact Hcalls | exact Hstore].
Defined.

(** C4: the relevance score is meant to stay within 0 and 10, and the manual
    update clamps to that range.  Stage 1 does not: on a reply that scores
    the record 15 it stores and saves 15, which the manual update of the same
    record would turn into 10. *)
Lemma stage1_stores_score_out_of_range :
  let run :=
    stage1_filter ascii_lower (scripted_chat [Some sample_reply]) sample_json P3
      sample_config empty_world in
  first_negative ascii_lower (negative_keywords sample_config) P3 = None /\
  relevance_score (fst run) = 15%Q /\
  ~ (relevance_score (fst run) <= 10)%Q /\
  store (snd run) = [fst run] /\
  (forall x,
     fst (update_relevance stamp "2401.00003" true 15%Q (snd run)) = Some x ->
     relevance_score x = 10%Q).
Proof.
  vm_compute. repeat split.
  - intros H. apply H. reflexivity.
  - intros x [= <-]. reflexivity.
Qed.

(** *** The re-check sweep *)

(** C7 as stated fails on a relevant record above the threshold that
    already has a keyword: the sweep keeps that keyword behind the marker,
    the fast path replaces the list. *)
Lemma sweep_keeps_earlier_keywords :
  let w := mkWorld [P2] [] 0 in
  let swept :=
    saves (trace (snd (recheck_negative_keywords ascii_lower sample_config
                         ["medical"] w))) in
  let fast :=
    fst (stage1_filter ascii_lower (scripted_chat []) sample_json P2
           sample_config w) in
  recheck_candidate (min_relevance_score_for_stage2 sample_config) P2 = true /\
  map extracted_keywords swept = [["❌ medical"; "nlp"]] /\
  extracted_keywords fast = ["❌ medical"] /\
  map extracted_keywords swept <> [extracted_keywords fast].
Proof.
  vm_compute. repeat split. intros H. discriminate H.
Qed.

Lemma recheck_demotes_matching_records_witness :
  let w := mkWorld [P2; P1] [] 0 in
  let w' := snd (recheck_negative_keywords ascii_lower sample_config ["medical"] w) in
  exists demoted,
    trace w' = map Save demoted /\
    map is_relevant demoted = [Some false].
Proof.
  destruct (recheck_demotes_matching_records ascii_lower (scripted_chat [])
              sample_json sample_config sample_config ["medical"]
              (mkWorld [P2; P1] [] 0) eq_refl)
    as [demoted [Ht [_ Hf]]].
  exists demoted. split; [exact Ht|].
  cbn zeta in Hf.
  match type of Hf with
  | Forall2 _ ?l _ => let v := eval vm_compute in l in change l with v in Hf
  end.
  inversion Hf as [|p p' l l' [_ [_ Hfast]] Hrest]; subst.
  inversion Hrest; subst.
  destruct (Hfast empty_world) as [Hrel _].
  cbn [map]. rewrite Hrel. reflexivity.
Defined.

(** *** Streaming Q&A *)

(** C5 as stated fails on a stream that ends without an exception and
    without any text: the first attempt succeeds, the call yields no error
    event, and yet no entry is appended or saved. *)
Lemma successful_empty_stream_saves_nothing :
  let run :=
    ask_custom_question_stream ascii_lower ascii_strip stamp (scripted_chat [])
      (scripted_stream [([None; Some (mkDelta None (Some ""))], None)])
      sample_json no_arxiv 0 P3 "What is new?" sample_config None empty_world in
  fst run = Done ([], P3) /\
  List.length (calls (trace (snd run))) = 1 /\
  sleeps (trace (snd run)) = [] /\
  saves (trace (snd run)) = [] /\
  store (snd run) = [].
Proof. vm_compute. repeat split. Qed.

Lemma stream_retries_then_persists_witness :
  (let run :=
     ask_custom_question_stream ascii_lower ascii_strip stamp (scripted_chat [])
       (scripted_stream
          [([text_delta "par"], Some "reset"); ([], Some "reset");
           ([text_delta "whole "; text_delta "answer"], None)])
       sample_json no_arxiv 0 P3 "Think: why?" sample_config None empty_world in
   sleeps (trace (snd run)) = [1; 2] /\
   map (fun p => map answer (qa_pairs p)) (saves (trace (snd run)))
   = [["whole answer"]] /\
   map (fun p => map question (qa_pairs p)) (store (snd run))
   = [["Think: why?"]]) /\
  (let run :=
     ask_custom_question_stream ascii_lower ascii_strip stamp (scripted_chat [])
       (scripted_stream [([text_delta "par"], Some "reset")])
       sample_json no_arxiv 0 P3 "why?" sample_config None empty_world in
   sleeps (trace (snd run)) = [1; 2] /\
   saves (trace (snd run)) = [] /\
   store (snd run) = []).
Proof.
  split.
  - destruct (stream_retries_then_persists ascii_lower ascii_strip stamp
                (scripted_chat [])
                (scripted_stream
                   [([text_delta "par"], Some "reset"); ([], Some "reset");
                    ([text_delta "whole "; text_delta "answer"], None)])
                sample_json no_arxiv 0 P3 "Think: why?" sample_config None
                empty_world [] eq_refl) as [_ [_ [H _]]].
    cbn zeta in H.
    specialize (H ltac:(vm_compute; discriminate) ltac:(vm_compute; discriminate)
                  ltac:(vm_compute; reflexivity)).
    match type of H with
    | (if ?c then _ else _) =>
        let v := eval vm_compute in c in change c with v in H
    end.
    cbn iota in H. cbn zeta. rewrite H. vm_compute. repeat split.
  - destruct (stream_retries_then_persists ascii_lower ascii_strip stamp
                (scripted_chat [])
                (scripted_stream [([text_delta "par"], Some "reset")])
                sample_json no_arxiv 0 P3 "why?" sample_config None
                empty_world [] eq_refl) as [_ [_ [_ H]]].
    cbn zeta in H.
    specialize (H "connection reset" ltac:(vm_compute; discriminate)
                  ltac:(vm_compute; discriminate) ltac:(vm_compute; reflexivity)).
    cbn zeta. rewrite H. vm_compute. repeat split.
Defined.

Lemma empty_stream_is_not_persisted_witness :
  let run :=
    ask_custom_question_stream ascii_lower ascii_strip stamp (scripted_chat [])
      (scripted_stream [([None], None)])
      sample_json no_arxiv 0 P3 "What is new?" sample_config None empty_world in
  store (snd run) = [] /\ saves (trace (snd run)) = [].
Proof.
  destruct (proj1 (empty_stream_is_not_persisted ascii_lower ascii_strip stamp
                     (scripted_chat []) (scripted_stream [([None], None)])
                     sample_json no_arxiv 0 P3 "What is new?" sample_config None
                     empty_world [] eq_refl)) as [_ [Hstore Hsaves]].
  - vm_compute. reflexivity.
  - cbn zeta. split; [rewrite Hstore | rewrite Hsaves]; reflexivity.
Defined.

(** C6 as stated fails on the same marked question put through both
    variants: the streaming one strips the marker and asks
    "deepseek-reasoner", the synchronous one sends the marker along to the
    configured model and stores an entry without the reasoning flag. *)
Lemma sync_variant_ignores_reasoning_marker :
  let sync :=
    ask_custom_question ascii_lower stamp (scripted_chat [Some "because"])
      sample_json no_arxiv P3 "think: why?" sample_config empty_world in
  let stream :=
    ask_custom_question_stream ascii_lower ascii_strip stamp (scripted_chat [])
      (scripted_stream [([text_delta "because"], None)])
      sample_json no_arxiv 0 P3 "think: why?" sample_config None empty_world in
  reasoning_requested ascii_lower "think: why?" = true /\
  map req_model (calls (trace (snd stream))) = ["deepseek-reasoner"] /\
  map req_model (calls (trace (snd sync))) = ["deepseek-chat"] /\
  map req_messages (calls (trace (snd stream)))
  = [[mkMessage System (system_prompt sample_config);
      mkMessage User (user_turn (single_cache_prefix P3) "why?")]] /\
  map req_messages (calls (trace (snd sync)))
  = [[mkMessage System (system_prompt sample_config);
      mkMessage User (user_turn (single_cache_prefix P3) "think: why?")]] /\
  map (fun p => map is_reasoning (qa_pairs p)) (store (snd sync)) = [[false]].
Proof. vm_compute. repeat split. Qed.

Lemma reasoning_mode_is_streaming_only_witness :
  let stream :=
    ask_custom_question_stream ascii_lower ascii_strip stamp (scripted_chat [])
      (scripted_stream [([text_delta "because"], None)])
      sample_json no_arxiv 0 P3 "THINK:  why? " sample_config None empty_world in
  exists r rest,
    trace (snd stream) = Call r :: rest /\
    req_model r = "deepseek-reasoner" /\
    req_messages r
    = [mkMessage System (system_prompt sample_config);
       mkMessage User (user_turn (single_cache_prefix P3) "why?")].
Proof.
  destruct (proj1 (proj2 (proj2
              (reasoning_mode_is_streaming_only ascii_lower ascii_strip stamp
                 (scripted_chat [])
                 (scripted_stream [([text_delta "because"], None)])
                 sample_json no_arxiv 0 P3 "THINK:  why? " sample_config
                 empty_world))))
    as [[rest Hrest] _].
  - reflexivity.
  - cbn zeta. eexists. exists rest. split; [exact Hrest|].
    split; reflexivity.
Defined.

(** *** Conversation threads *)

(** C8: walking the parent links is meant to end.  A first question asked
    with parent position 0 on a record that has no entry yet builds no
    history, but its entry is stored at position 0 with parent 0; a follow-up
    on that entry then never leaves the walk, whatever bound is put on its
    iterations. *)
Lemma follow_up_on_self_parent_never_returns :
  let first :=
    ask_custom_question_stream ascii_lower ascii_strip stamp (scripted_chat [])
      (scripted_stream [([text_delta "because"], None)])
      sample_json no_arxiv 0 P3 "why?" sample_config (Some 0%Z) empty_world in
  exists events paper',
    fst first = Done (events, paper') /\
    map parent_qa_id (qa_pairs paper') = [Some 0%Z] /\
    store (snd first) = [paper'] /\
    forall fuel,
      fst (ask_custom_question_stream ascii_lower ascii_strip stamp
             (scripted_chat [])
             (scripted_stream [([text_delta "because"], None);
                               ([text_delta "and so on"], None)])
             sample_json no_arxiv fuel paper' "and then?" sample_config
             (Some 0%Z) (snd first))
      = OutOfFuel.
Proof.
  cbn zeta. eexists. eexists.
  split; [vm_compute; reflexivity|].
  split; [reflexivity|]. split; [reflexivity|].
  intros fuel. apply ask_stream_out_of_fuel.
  unfold build_history. cbn [qa_pairs parent_in_range].
  change (parent_in_range _ _) with true. cbn iota.
  eapply walk_parents_self; reflexivity.
Qed.

(** *** The store *)



Lemma list_papers_pages_witness :
  let w := mkWorld [P3; P2; P1] [] 0 in
  (fst (list_papers 0 (Some 1%Z) w) ++ fst (list_papers 1 (Some 2%Z) w))%list
  = fst (list_papers 0 (Some 3%Z) w) /\
  fst (list_papers 1 (Some (-1)%Z) w) = [P2; P1].
Proof.
  destruct (list_papers_pages 0 1%Z 2%Z (mkWorld [P3; P2; P1] [] 0))
    as [_ [_ [Hpages _]]]; [lia | lia |].
  destruct (list_papers_pages 1 1%Z 1%Z (mkWorld [P3; P2; P1] [] 0))
    as [_ [_ [_ [Hall _]]]]; [lia | lia |].
  cbn zeta. split; [exact Hpages|].
  rewrite Hall; [reflexivity | lia].
Defined.

Lemma fetch_single_paper_reads_through_witness :
  let api := fun (_ : list Effect) (_ : string) =>
    Some (mkEntry "Sparse attention" ["A. Author"] "An abstract."
            "http://arxiv.org/abs/2401.00009" "2024-01-01" "") in
  let first := fetch_single_paper stamp api "2401.00009" empty_world in
  exists p,
    fst first = Some p /\
    trace (snd first) = [Fetch "2401.00009"; Save p] /\
    fetch_single_paper stamp api "2401.00009" (snd first) = (Some p, snd first) /\
    fst (fetch_single_paper stamp no_arxiv "2401.00009" empty_world) = None /\
    store (snd (fetch_single_paper stamp no_arxiv "2401.00009" empty_world)) = [].
Proof.
  cbn zeta. eexists. split; [vm_compute; reflexivity|].
  split; [reflexivity|]. split.
  - apply (proj1 (fetch_single_paper_reads_through stamp
                    (fun _ _ =>
                       Some (mkEntry "Sparse attention" ["A. Author"]
                               "An abstract." "http://arxiv.org/abs/2401.00009"
                               "2024-01-01" ""))
                    "2401.00009" empty_world)).
    reflexivity.
  - split; [reflexivity|].
    apply (proj2 (fetch_single_paper_reads_through stamp no_arxiv "2401.00009"
                    empty_world)).
    reflexivity.
Defined.

Lemma preview_is_capped_witness :
  _extract_preview "" "An abstract." = "An abstract." /\
  String.prefix "An abstract." (_extract_preview "<p>Body</p>" "An abstract.")
  = true.
Proof.
  assert (Hlen : py_len "An abstract." <= 2000).
  { apply Nat.leb_le. reflexivity. }
  split.
  - apply (proj2 (proj2 (preview_is_capped "" "An abstract.")) eq_refl Hlen).
  - apply (proj1 (proj2 (preview_is_capped "<p>Body</p>" "An abstract.")) Hlen).
Defined.

(** *** References *)

Lemma references_are_bracketed_ids_witness :
  arxiv_id_shape "2401.12345v2" /\
  contains "[2401.12345v2]" "Compare with [2401.12345v2] and [draft]." = true.
Proof.
  apply (references_are_bracketed_ids
           "Compare with [2401.12345v2] and [draft]." "2401.12345v2").
  - reflexivity.
  - vm_compute. left. reflexivity.
Defined.

Lemma unresolved_references_are_skipped_witness :
  let question := "How does it differ from [2401.99999]?" in
  parse_references ascii_lower stamp (scripted_chat []) sample_json no_arxiv
    question sample_config empty_world
  = (([], []), mkWorld [] [Fetch "2401.99999"] 0) /\
  exists rest,
    trace (snd (ask_custom_question ascii_lower stamp
                  (scripted_chat [Some "It is sparse."]) sample_json no_arxiv
                  P3 question sample_config empty_world))
    = Fetch "2401.99999"
      :: Call (question_request (single_cache_prefix P3) question sample_config)
      :: rest.
Proof.
  cbn zeta. split.
  - apply (unresolved_references_are_skipped ascii_lower stamp (scripted_chat [])
             sample_json no_arxiv P3 "How does it differ from [2401.99999]?"
             sample_config empty_world); reflexivity.
  - destruct (unresolved_references_are_skipped ascii_lower stamp
                (scripted_chat [Some "It is sparse."]) sample_json no_arxiv P3
                "How does it differ from [2401.99999]?" sample_config
                empty_world) as [Hres [_ [rest Hrest]]]; [reflexivity ..|].
    exists rest. rewrite Hrest. cbn zeta in Hres. rewrite Hres. reflexivity.
Defined.

(** *** Stage 1 and Stage 2 *)

Lemma stage1_gives_up_after_three_witness :
  let run :=
    stage1_filter ascii_lower (scripted_chat [None; Some "not json"; None])
      sample_json P3 sample_config empty_world in
  is_relevant (fst run) = None /\
  relevance_score (fst run) = relevance_score P3 /\
  List.length (calls (trace (snd run))) = 3 /\
  sleeps (trace (snd run)) = [1; 2] /\
  store (snd run) = [].
Proof.
  cbn zeta.
  rewrite (stage1_gives_up_after_three ascii_lower
             (scripted_chat [None; Some "not json"; None]) sample_json P3
             sample_config empty_world).
  - repeat split.
  - reflexivity.
  - exists P3. reflexivity.
  - exists P3. reflexivity.
  - exists P3. reflexivity.
Defined.

Lemma stage2_asks_in_configured_order_witness :
  let run :=
    stage2_qa stamp (fun _ _ => Some "ok") P3 sample_config empty_world in
  map question (qa_pairs (fst run)) = ["What is new?"; "What are the limits?"] /\
  sleeps (trace (snd run)) = [] /\
  saves (trace (snd run)) = [fst run].
Proof.
  destruct (stage2_asks_in_configured_order stamp (fun _ _ => Some "ok") P3
              sample_config empty_world)
    as [added [entries [Ht [_ [Hsl [Hsv [Hqa Hq]]]]]]].
  - intros t r. discriminate.
  - reflexivity.
  - cbn zeta. rewrite Ht, Hqa. cbn [trace empty_world app].
    split; [|split; assumption].
    rewrite map_app, Hq. reflexivity.
Defined.

Lemma demoted_records_skip_stage2_witness :
  let demoted :=
    fst (stage1_filter ascii_lower (scripted_chat [Some "summary"]) sample_json
           P1 sample_config empty_world) in
  stage2_gate 0%Q [demoted] = [] /\
  stage2_qa stamp (scripted_chat [Some "summary"]) demoted sample_config
    empty_world
  = (demoted, empty_world).
Proof.
  destruct (demoted_records_skip_stage2 ascii_lower stamp
              (scripted_chat [Some "summary"]) sample_json P1 sample_config
              empty_world empty_world 0%Q "medical") as [Hgate [_ Hqa]].
  - reflexivity.
  - cbn zeta. split; [exact Hgate|].
    exact Hqa.
Defined.

Lemma stage2_batches_partition_witness :
  exists batches,
    stage2_batches 2 (stage2_gate 6%Q [P3; P1; P2; P3; P2]) = Some batches /\
    List.concat batches = [P3; P2; P3; P2] /\
    map (@List.length Paper) batches = [2; 2].
Proof.
  destruct (proj1 (proj2 (stage2_batches_partition 2 6%Q [P3; P1; P2; P3; P2])))
    as [batches [Hb [Hc _]]]; [lia|].
  exists batches. split; [exact Hb|]. split; [exact Hc|].
  vm_compute in Hb. injection Hb as <-. reflexivity.
Defined.

(** *** Streaming Q&A and threads *)

Lemma stream_yields_text_and_appends_one_witness :
  let run :=
    ask_custom_question_stream ascii_lower ascii_strip stamp (scripted_chat [])
      (scripted_stream
         [([Some (mkDelta (Some "hmm") None); text_delta "because"], None)])
      sample_json no_arxiv 0 P3 "think: why?" sample_config None empty_world in
  exists events p',
    fst run = Done (events, p') /\
    Forall (well_formed_event true) events /\
    (p' = P3
     \/ exists qa,
          p' = append_qa qa P3 /\ question qa = "think: why?" /\
          is_reasoning qa = true).
Proof.
  cbn zeta.
  destruct (fst (ask_custom_question_stream ascii_lower ascii_strip stamp
                   (scripted_chat [])
                   (scripted_stream
                      [([Some (mkDelta (Some "hmm") None); text_delta "because"],
                        None)])
                   sample_json no_arxiv 0 P3 "think: why?" sample_config None
                   empty_world)) as [[events p']| |] eqn:E;
    [|vm_compute in E; discriminate ..].
  exists events, p'. split; [reflexivity|].
  destruct (stream_yields_text_and_appends_one ascii_lower ascii_strip stamp
              (scripted_chat [])
              (scripted_stream
                 [([Some (mkDelta (Some "hmm") None); text_delta "because"],
                   None)])
              sample_json no_arxiv 0 P3 "think: why?" sample_config None
              empty_world events p' E) as [Hev Hp].
  split; [exact Hev|].
  destruct Hp as [Hp | [qa [Hp [Hq [_ [Hr _]]]]]]; [left; exact Hp|].
  right. exists qa. split; [exact Hp|]. split; [exact Hq | exact Hr].
Defined.


Lemma dangling_parent_raises_index_error_witness :
  let run :=
    ask_custom_question_stream ascii_lower ascii_strip stamp (scripted_chat [])
      (scripted_stream [([text_delta "because"], None)])
      sample_json no_arxiv 2
      (set_qa_pairs [mkQAPair "q0" "a0" "t0" None false (Some 5%Z)] P3)
      "and then?" sample_config (Some 0%Z) empty_world in
  fst run = IndexError /\ snd run = empty_world.
Proof.
  cbn zeta.
  rewrite (dangling_parent_raises_index_error ascii_lower ascii_strip stamp
             (scripted_chat [])
             (scripted_stream [([text_delta "because"], None)])
             sample_json no_arxiv 0
             (set_qa_pairs [mkQAPair "q0" "a0" "t0" None false (Some 5%Z)] P3)
             "and then?" sample_config 0%Z 5%Z
             (mkQAPair "q0" "a0" "t0" None false (Some 5%Z)) empty_world).
  - split; reflexivity.
  - cbn. lia.
  - reflexivity.
  - reflexivity.
  - reflexivity.
Defined.

Lemma out_of_range_parent_is_ignored_witness :
  let ask parent :=
    ask_custom_question_stream ascii_lower ascii_strip stamp (scripted_chat [])
      (scripted_stream [([text_delta "because"], None)])
      sample_json no_arxiv 0 P3 "why?" sample_config parent empty_world in
  exists events p1 p0,
    fst (ask (Some 7%Z)) = Done (events, p1) /\
    fst (ask None) = Done (events, p0) /\
    calls (trace (snd (ask (Some 7%Z)))) = calls (trace (snd (ask None))) /\
    map parent_qa_id (qa_pairs p1) = [Some 7%Z] /\
    map parent_qa_id (qa_pairs p0) = [None].
Proof.
  destruct (out_of_range_parent_is_ignored ascii_lower ascii_strip stamp
              (scripted_chat [])
              (scripted_stream [([text_delta "because"], None)])
              sample_json no_arxiv 0 P3 "why?" sample_config 7%Z empty_world)
    as [events [p1 [p0 [H1 [H0 [Hcalls _]]]]]].
  - reflexivity.
  - cbn zeta. exists events, p1, p0.
    split; [exact H1|]. split; [exact H0|]. split; [exact Hcalls|].
    vm_compute in H1. vm_compute in H0.
    injection H1 as _ <-. injection H0 as _ <-. split; reflexivity.
Defined.

(** *** Endpoints of [backend/api.py] *)

Lemma update_config_clamps_and_merges_witness :
  let request :=
    mkUpdateConfigRequest None (Some ["survey"; "medical"; "survey"]) None None
      (Some 5%Z) None None (Some 9%Q) None (Some 0%Z) None in
  let c' := fst (update_config request sample_config) in
  (60 <= fetch_interval c')%Z /\
  (temperature c' <= 2)%Q /\
  1 <= concurrent_papers c' /\
  snd (update_config request sample_config) = true /\
  update_config request c' = (c', false).
Proof.
  destruct (update_config_clamps_and_merges
              (mkUpdateConfigRequest None (Some ["survey"; "medical"; "survey"])
                 None None (Some 5%Z) None None (Some 9%Q) None (Some 0%Z) None)
              sample_config)
    as [Hfetch [_ [Htemp [_ [Hconc [_ [_ [_ [_ Hagain]]]]]]]]].
  cbn zeta. split; [apply Hfetch; discriminate|].
  split; [apply Htemp; discriminate|].
  split; [apply Hconc; discriminate|].
  split; [reflexivity | exact Hagain].
Defined.

Lemma user_actions_round_trip_witness :
  let w := mkWorld [P3; P1] [] 0 in
  let starred := snd (star_paper "2401.00003" w) in
  find_paper "2401.00003" (store starred) = Some (set_is_starred true P3) /\
  find_paper "2401.00003" (store (snd (star_paper "2401.00003" starred)))
  = Some P3 /\
  hide_paper "2401.00009" w = (None, w).
Proof.
  destruct (user_actions_round_trip "2401.00003" (mkWorld [P3; P1] [] 0)
              P3 eq_refl) as [_ [Htwice [_ Hmissing]]].
  cbn zeta. split; [reflexivity|]. split; [exact Htwice|].
  apply (Hmissing "2401.00009"). reflexivity.
Defined.

Lemma manual_relevance_update_witness :
  let w := mkWorld [P3; P1] [] 0 in
  (exists p',
     fst (update_relevance stamp "2401.00001" true 15%Q w) = Some p' /\
     is_relevant p' = Some true /\
     (relevance_score p' <= 10)%Q /\
     saves (trace (snd (update_relevance stamp "2401.00001" true 15%Q w))) = [p']) /\
  update_relevance stamp "2401.00009" true 15%Q w = (None, w).
Proof.
  destruct (manual_relevance_update stamp "2401.00001" true 15%Q
              (mkWorld [P3; P1] [] 0)) as [Hfound _].
  pose proof (Hfound P1 eq_refl) as Hp. cbn zeta in Hp.
  destruct Hp as [Hrun [[_ Hle] _]].
  cbn zeta. split.
  - eexists. rewrite Hrun. cbn [fst snd trace].
    split; [reflexivity|]. split; [reflexivity|]. split; [exact Hle|].
    reflexivity.
  - apply (proj2 (manual_relevance_update stamp "2401.00009" true 15%Q
                    (mkWorld [P3; P1] [] 0))).
    reflexivity.
Defined.

Lemma recheck_sweep_is_idempotent_witness :
  let w := mkWorld [P2; P1; P3] [] 0 in
  let w1 := snd (recheck_negative_keywords ascii_lower sample_config ["medical"] w) in
  map is_relevant (store w1) = [Some false; None; Some true] /\
  recheck_negative_keywords ascii_lower sample_config ["medical"] w1 = (tt, w1).
Proof.
  cbn zeta. split; [reflexivity|].
  apply (recheck_sweep_is_idempotent ascii_lower sample_config ["medical"]
           (mkWorld [P2; P1; P3] [] 0)).
  cbn [store List.length]. lia.
Defined.

(** *** The timeline and the search *)

Lemma timeline_shows_visible_records_witness :
  let w :=
    mkWorld [P3; set_is_hidden true P2; set_is_starred true P1] [] 0 in
  let run :=
    api_list_papers ascii_lower ascii_strip 0%Z 20%Z "latest" None "false" w in
  map t_id (fst run) = ["2401.00003"] /\
  forall item,
    In item (fst run) -> t_is_hidden item = false /\ t_is_starred item = false.
Proof.
  cbn zeta. split; [reflexivity|].
  intros item Hitem.
  destruct (proj1 (proj2 (timeline_shows_visible_records ascii_lower
                            ascii_strip 0%Z 20%Z "latest" None "false"
                            (mkWorld [P3; set_is_hidden true P2;
                                      set_is_starred true P1] [] 0)))
              item Hitem) as [p [-> [_ [Hh [Hs _]]]]].
  split; [exact Hh | exact Hs].
Defined.


Lemma keyword_search_scores_matches_witness :
  let run :=
    search_by_keyword ascii_lower "Medical" 10%Z
      (mkWorld [P3; P2; set_is_hidden true P1] [] 0) in
  map (fun r => t_id (sr_item r)) (fst run) = ["2401.00002"] /\
  forall r, In r (fst run) -> 1 <= search_score r.
Proof.
  cbn zeta. split; [reflexivity|].
  intros r Hr.
  destruct (proj1 (proj2 (keyword_search_scores_matches ascii_lower "Medical"
                            10%Z (mkWorld [P3; P2; set_is_hidden true P1] [] 0)))
              r Hr) as [p [_ [_ [_ [_ [_ Hscore]]]]]].
  exact Hscore.
Defined.

(** *** Downloads *)

Lemma fetch_html_retries_within_bounds_witness :
  let http := fun (t : list Effect) (_ : string) =>
    nth (List.length (fetches t))
      [HttpStatus 429%Z ""; HttpRequestError; HttpStatus 200%Z "Body"]
      HttpOtherError in
  let run := _fetch_html http (fun page => Some page) "2401.00009" empty_world in
  fst run = "Body" /\
  sleeps (trace (snd run)) = [2; 4] /\
  store (snd run) = [] /\
  exists t text, http t "https://arxiv.org/html/2401.00009" = HttpStatus 200%Z text.
Proof.
  cbn zeta. split; [reflexivity|]. split; [reflexivity|].
  destruct (fetch_html_retries_within_bounds
              (fun (t : list Effect) (_ : string) =>
                 nth (List.length (fetches t))
                   [HttpStatus 429%Z ""; HttpRequestError;
                    HttpStatus 200%Z "Body"] HttpOtherError)
              (fun page => Some page) "2401.00009" empty_world)
    as [Hstore [_ [added [_ [_ [_ [_ [_ [_ [_ [_ Hres]]]]]]]]]]].
  split; [exact Hstore|].
  destruct Hres as [t [text [Hget _]]]; [discriminate|].
  exists t, text. exact Hget.
Defined.


Lemma category_query_retries_witness :
  let api := fun (t : list Effect) (_ : string) (_ : Z) =>
    nth (List.length (fetches t))
      [HttpStatus 429%Z ""; HttpRequestError; HttpStatus 503%Z "busy"]
      HttpOtherError in
  let run := category_attempts api 3 0 "cat:cs.CL" 50%Z None empty_world in
  fst run = Some (503%Z, "busy") /\
  sleeps (trace (snd run)) = [3; 6] /\
  category_attempts (fun _ _ _ => HttpStatus 500%Z "") 3 0 "cat:cs.CL" 50%Z None
    empty_world
  = (Some (500%Z, ""), mkWorld [] [Fetch "cat:cs.CL"] 0).
Proof.
  cbn zeta. split; [reflexivity|]. split; [reflexivity|].
  apply (proj1 (proj2 (proj2 (proj2
           (category_query_retries (fun _ _ _ => HttpStatus 500%Z "")
              "cat:cs.CL" 50%Z empty_world)))) 500%Z "" eq_refl).
  discriminate.
Defined.
